(** * jira-agile-metrics: monthly breakdowns, table filters, waste and net flow

    A shallow embedding of [jira_agile_metrics/utils.py] and of the table
    shaping done in [calculators/waste.py] and [calculators/netflow.py],
    together with the properties of these functions.

    pandas objects are modelled by the data they hold:
    - a [pd.Timestamp] by its calendar fields and the nanoseconds since
      midnight; its [value] is the number of nanoseconds since the epoch;
    - a [DataFrame] by its index, its column labels and its cells, row by row;
      a cell that pandas shows as NaN is [None];
    - a column label is a Python object, here [None] or a [str];
    - an exception is a [Raise] result. *)

From Stdlib Require Import ZArith QArith String Bool Lia OrderedTypeEx.
From Stdlib Require Import List Permutation Sorting.Sorted FinFun.
From Stdlib Require Import Floats.SpecFloat.
Import ListNotations.
Open Scope Z_scope.

Set Implicit Arguments.

(** ** Exceptions *)

Inductive PyError : Type :=
| ValueError (msg : string)
| KeyError (msg : string)
| IndexError (msg : string).

Inductive result (A : Type) : Type :=
| Ok (a : A)
| Raise (e : PyError).

Arguments Ok {A} a.
Arguments Raise {A} e.

Definition bind {A B : Type} (r : result A) (k : A -> result B) : result B :=
  match r with
  | Ok a => k a
  | Raise e => Raise e
  end.

Notation "x <- r ;; k" := (bind r (fun x => k))
  (at level 61, r at next level, right associativity).

(** ** Timestamps and the calendar *)

Record Timestamp : Type := mkTimestamp {
  year : Z;
  month : Z;
  day : Z;
  nanos : Z  (* nanoseconds since midnight *)
}.

Definition NS_PER_DAY : Z := 86400000000000.

Definition is_leap (y : Z) : bool :=
  ((y mod 4 =? 0) && negb (y mod 100 =? 0)) || (y mod 400 =? 0).

Definition days_in_month (y m : Z) : Z :=
  if m =? 2 then (if is_leap y then 29 else 28)
  else if (m =? 4) || (m =? 6) || (m =? 9) || (m =? 11) then 30
  else 31.

Definition days_before_year (y : Z) : Z :=
  let p := y - 1 in p * 365 + p / 4 - p / 100 + p / 400.

Definition days_before_month (y m : Z) : Z :=
  fold_right Z.add 0
    (map (fun k => days_in_month y (Z.of_nat k)) (seq 1 (Z.to_nat (m - 1)))).

(** The proleptic Gregorian ordinal of a date (1 is 0001-01-01). *)
Definition to_ordinal (y m d : Z) : Z :=
  days_before_year y + days_before_month y m + d.

Definition EPOCH_ORDINAL : Z := 719163.

(** Nanoseconds since 1970-01-01T00:00, what pandas stores. *)
Definition value (t : Timestamp) : Z :=
  (to_ordinal (year t) (month t) (day t) - EPOCH_ORDINAL) * NS_PER_DAY
  + nanos t.

Definition valid_timestamp (t : Timestamp) : Prop :=
  1 <= month t <= 12 /\ 1 <= day t <= days_in_month (year t) (month t)
  /\ 0 <= nanos t < NS_PER_DAY.

(** [Timestamp.normalize()]: midnight of the same day. *)
Definition normalize (t : Timestamp) : Timestamp :=
  mkTimestamp (year t) (month t) (day t) 0.

(** [Timestamp.to_period("M")]: the ordinal of the month, 0 being 1970-01. *)
Definition to_period_M (t : Timestamp) : Z :=
  (year t - 1970) * 12 + (month t - 1).

(** [Period.to_timestamp("D", "S")]: the first day of the month. *)
Definition to_timestamp_start (p : Z) : Timestamp :=
  mkTimestamp (1970 + p / 12) (p mod 12 + 1) 1 0.

(** [month_start + offsets.MonthEnd(1)] for a first-of-month timestamp: the
    last day of that month. *)
Definition add_MonthEnd (t : Timestamp) : Timestamp :=
  mkTimestamp (year t) (month t) (days_in_month (year t) (month t)) (nanos t).

(** The integers [lo, lo+1, ..., hi] (empty when [hi < lo]). *)
Definition zrange (lo hi : Z) : list Z :=
  map (fun k => lo + Z.of_nat k) (seq 0 (Z.to_nat (hi - lo + 1))).

(** [pd.date_range(a, b, freq="MS")] between two first-of-month timestamps.
    A month-start [DatetimeIndex] is kept as the list of its month ordinals;
    [to_timestamp_start] gives back the timestamps. *)
Definition date_range_MS (first_month last_month : Z) : list Z :=
  zrange first_month last_month.

(** [pd.date_range(a, b, freq="D")]: [a], [a] + 1 day, ... while [<= b], as
    nanosecond values. *)
Definition date_range_D (a b : Z) : list Z :=
  if a <=? b
  then map (fun k => a + Z.of_nat k * NS_PER_DAY)
           (seq 0 (Z.to_nat ((b - a) / NS_PER_DAY + 1)))
  else [].

(** [DatetimeIndex.intersection]: the members of [l1] that are in [l2]. *)
Definition intersection (l1 l2 : list Z) : list Z :=
  filter (fun x => existsb (Z.eqb x) l2) l1.

(** ** Column labels *)

Definition label : Type := option string.

Definition label_eqb (a b : label) : bool :=
  match a, b with
  | None, None => true
  | Some x, Some y => String.eqb x y
  | _, _ => false
  end.

(** The order in which pandas 1.5 and later sort column labels: strings by
    code point, and the missing label [None] after every string. *)
Definition label_compare (a b : label) : comparison :=
  match a, b with
  | None, None => Eq
  | None, Some _ => Gt
  | Some _, None => Lt
  | Some x, Some y => String.compare x y
  end.

(** The strict order of a comparison function. *)
Definition cmp_lt {A : Type} (cmp : A -> A -> comparison) (a b : A) : Prop :=
  cmp a b = Lt.

(** Insertion into a sorted list without repetition. *)
Fixpoint insert_sorted {A : Type} (cmp : A -> A -> comparison) (c : A)
    (l : list A) : list A :=
  match l with
  | [] => [c]
  | d :: l' =>
      match cmp c d with
      | Lt => c :: l
      | Eq => l
      | Gt => d :: insert_sorted cmp c l'
      end
  end.

(** The distinct members of [l], sorted. *)
Definition sort_unique {A : Type} (cmp : A -> A -> comparison) (l : list A)
  : list A :=
  fold_right (insert_sorted cmp) [] l.

(** ** Data frames *)

Record DataFrame (A : Type) : Type := mkDataFrame {
  index : list Z;
  columns : list label;
  values : list (list A)  (* one list of cells per row *)
}.

Arguments mkDataFrame {A} index columns values.

(** Positions of the columns labelled [c]. *)
Definition positions (c : label) (cols : list label) : list nat :=
  map fst (filter (fun p => label_eqb c (snd p))
                  (combine (seq 0 (length cols)) cols)).

Definition has_column (c : label) (cols : list label) : bool :=
  existsb (label_eqb c) cols.

(** The cells of one row laid out for the columns [to]; a column that the row
    does not have is NaN. *)
Definition reindex_row {A : Type} (from to : list label)
    (row : list (option A)) : list (option A) :=
  map (fun c => match positions c from with
                | j :: _ => nth j row None
                | [] => None
                end) to.

(** *** The union of the columns

    [pd.concat(sort=True)] sorts the union of the frames' columns.  A union
    of strings is sorted by every pandas.  A union that holds [None] beside
    strings cannot be compared in Python.  pandas 1.5 and later sort it all
    the same, the strings first and [None] last.  Older pandas call
    [list.sort()] on the distinct labels, taken in the order in which they
    are first seen, and when the comparison fails keep the list as the failed
    sort leaves it; utils_test.py, which expects [[None, "med"]], was written
    for these. *)
Inductive Pandas : Type :=
| Before15
| From15.

(** The distinct labels, each where it is seen first. *)
Fixpoint first_seen (labels : list label) : list label :=
  match labels with
  | [] => []
  | c :: labels' =>
      c :: filter (fun d => negb (label_eqb c d)) (first_seen labels')
  end.

Definition is_string (c : label) : bool :=
  match c with
  | Some _ => true
  | None => false
  end.

(** The strings before the first [None], and the rest. *)
Fixpoint strings_before (u : list label) : list label :=
  match u with
  | Some s :: u' => Some s :: strings_before u'
  | _ => []
  end.

Fixpoint from_none (u : list label) : list label :=
  match u with
  | Some _ :: u' => from_none u'
  | _ => u
  end.

Fixpoint ascending (u : list label) : bool :=
  match u with
  | a :: (b :: _) as u' =>
      match label_compare a b with
      | Lt => ascending u'
      | _ => false
      end
  | _ => true
  end.

Fixpoint descending (u : list label) : bool :=
  match u with
  | a :: (b :: _) as u' =>
      match label_compare a b with
      | Gt => descending u'
      | _ => false
      end
  | _ => true
  end.

(** What [list.sort()] leaves of a list [u] of distinct labels, fewer than
    64, that holds [None]: the comparison of [None] with a string raises
    [TypeError].  While the sort still looks for the run the list starts
    with, nothing has moved, so the list stays as it is when the strings
    before [None] ascend or descend; otherwise these strings are already
    sorted by insertion when [None] is reached, and what follows them has
    not moved. *)
Definition failed_sort (u : list label) : list label :=
  let run := strings_before u in
  if ascending run || descending run then u
  else sort_unique label_compare run ++ from_none u.

Definition union_columns (pandas : Pandas) (labels : list label)
  : list label :=
  match pandas with
  | From15 => sort_unique label_compare labels
  | Before15 =>
      let u := first_seen labels in
      if forallb is_string u then sort_unique label_compare u
      else failed_sort u
  end.

(** [pd.concat(objs, sort=True)]: rows of all frames one after the other,
    columns the union of the frames' columns.  An empty list of frames is
    refused. *)
Definition concat_on {A : Type} (pandas : Pandas)
    (objs : list (DataFrame (option A)))
  : result (DataFrame (option A)) :=
  match objs with
  | [] => Raise (ValueError "No objects to concatenate")
  | _ :: _ =>
      let cols := union_columns pandas (flat_map (@columns _) objs) in
      Ok (mkDataFrame
            (flat_map (@index _) objs)
            cols
            (flat_map (fun f => map (reindex_row (columns f) cols) (values f))
                      objs))
  end.

(** [pd.concat] of pandas 1.5 and later, the pandas of this development
    wherever no other is named. *)
Definition concat {A : Type} (objs : list (DataFrame (option A)))
  : result (DataFrame (option A)) :=
  concat_on From15 objs.

(** Cells of the rows whose index falls in period [b], column number [j]. *)
Definition cells_in {A : Type} (period_of : Z -> Z) (df : DataFrame (option A))
    (b : Z) (j : nat) : list (option A) :=
  map (fun r => nth j (snd r) None)
      (filter (fun r => period_of (fst r) =? b)
              (combine (index df) (values df))).

(** [df.resample(freq).agg(f)] and [df.groupby(pd.Grouper(freq=freq))]:
    one row per period from the period of the smallest index to that of the
    largest, periods without rows included; [period_of] numbers the periods
    of [freq]. *)
Definition resample_agg {A B : Type} (period_of : Z -> Z)
    (agg : list (option A) -> B) (df : DataFrame (option A)) : DataFrame B :=
  match map period_of (index df) with
  | [] => mkDataFrame [] (columns df) []
  | p :: ps =>
      let bins := zrange (fold_right Z.min p ps) (fold_right Z.max p ps) in
      mkDataFrame bins (columns df)
        (map (fun b => map (fun j => agg (cells_in period_of df b j))
                           (seq 0 (length (columns df))))
             bins)
  end.

(** Aggregation ["count"]: the number of cells that are not NaN. *)
Definition agg_count {A : Type} (cells : list (option A)) : Z :=
  Z.of_nat (length (filter (fun c => match c with
                                     | Some _ => true
                                     | None => false
                                     end) cells)).

(** Aggregation ["sum"]: NaN cells are skipped, an empty sum is 0. *)
Definition agg_sum (cells : list (option Z)) : Z :=
  fold_right (fun c acc => match c with Some v => v + acc | None => acc end)
             0 cells.

(** ** Items *)

(** A row of the items frame, as [df.itertuples()] yields it: the four
    attributes read through [start_column], [end_column], [key_column] and
    [value_column].  [end_date = None] is [pd.NaT]. *)
Record Item : Type := mkItem {
  key : string;
  category : label;
  start_date : Timestamp;
  end_date : option Timestamp
}.

Definition effective_end (today : Timestamp) (t : Item) : Timestamp :=
  match end_date t with
  | None => today
  | Some e => e
  end.

Definition first_month (t : Item) : Z :=
  to_period_M (normalize (start_date t)).

Definition last_month (today : Timestamp) (t : Item) : Z :=
  to_period_M (normalize (effective_end today t)).

(** ** breakdown_by_month *)

Module ByMonth.

(** One frame per item: a row for every month of the item, one column named
    after its category, every cell the item's key (the single value given
    as [data] is repeated over the index). *)
Definition build_df (today : Timestamp) (t : Item)
  : DataFrame (option string) :=
  let idx := date_range_MS (first_month t) (last_month today t) in
  mkDataFrame idx [category t] (map (fun _ => [Some (key t)]) idx).

End ByMonth.

Definition breakdown_by_month_on (pandas : Pandas) (today : Timestamp)
    (df : list Item) : result (DataFrame Z) :=
  c <- concat_on pandas (map (ByMonth.build_df today) df) ;;
  Ok (resample_agg (fun m => m) agg_count c).

Definition breakdown_by_month (today : Timestamp) (df : list Item)
  : result (DataFrame Z) :=
  breakdown_by_month_on From15 today df.

(** ** breakdown_by_month_sum_days *)

Module ByMonthSumDays.

Definition overlap_days (days_range : list Z) (month_start : Z) : Z :=
  let ms := to_timestamp_start month_start in
  Z.of_nat (length (intersection
                      (date_range_D (value ms) (value (add_MonthEnd ms)))
                      days_range)).

Definition build_df (today : Timestamp) (t : Item) : DataFrame (option Z) :=
  let days_range :=
    date_range_D (value (start_date t)) (value (effective_end today t)) in
  let idx := date_range_MS (first_month t) (last_month today t) in
  mkDataFrame idx [category t]
    (map (fun month_start => [Some (overlap_days days_range month_start)])
         idx).

End ByMonthSumDays.

Definition breakdown_by_month_sum_days_on (pandas : Pandas)
    (today : Timestamp) (df : list Item) : result (DataFrame Z) :=
  c <- concat_on pandas (map (ByMonthSumDays.build_df today) df) ;;
  Ok (resample_agg (fun m => m) agg_sum c).

Definition breakdown_by_month_sum_days (today : Timestamp) (df : list Item)
  : result (DataFrame Z) :=
  breakdown_by_month_sum_days_on From15 today df.

(** ** Table filters *)

Definition wf_frame {A : Type} (df : DataFrame A) : Prop :=
  length (values df) = length (index df)
  /\ Forall (fun row => length row = length (columns df)) (values df).

(** The members of [l] at the positions [pos], in the order of [pos]. *)
Definition take {A : Type} (pos : list nat) (l : list A) : list A :=
  flat_map (fun j => match nth_error l j with
                     | Some x => [x]
                     | None => []
                     end) pos.

Definition take_columns {A : Type} (pos : list nat) (df : DataFrame A)
  : DataFrame A :=
  mkDataFrame (index df) (take pos (columns df)) (map (take pos) (values df)).

(** [df[[c1, ..., cn]]]: the columns with these labels, in this order. *)
Definition select_labels {A : Type} (df : DataFrame A) (labels : list label)
  : DataFrame A :=
  take_columns (flat_map (fun c => positions c (columns df)) labels) df.

(** [output_columns] is [None] or a list; an empty list is falsy too. *)
Definition filter_by_columns {A : Type} (df : DataFrame A)
    (output_columns : option (list label)) : DataFrame A :=
  match output_columns with
  | Some ((_ :: _) as cols) =>
      select_labels df (filter (fun s => has_column s (columns df)) cols)
  | _ => df
  end.

(** [l[s:]] *)
Definition slice_from {A : Type} (s : Z) (l : list A) : list A :=
  let n := Z.of_nat (length l) in
  let start := if s <? 0 then Z.max (n + s) 0 else Z.min s n in
  skipn (Z.to_nat start) l.

(** [window] is [None] or an integer; 0 is falsy too. *)
Definition filter_by_window {A : Type} (df : DataFrame A) (window : option Z)
  : DataFrame A :=
  match window with
  | Some w =>
      if w =? 0 then df
      else mkDataFrame (slice_from (- w) (index df)) (columns df)
                       (slice_from (- w) (values df))
  | None => df
  end.

Definition Others : label := Some "Others"%string.

(** *** Double precision

    [df * 100.0 / total[1] < threshold] is computed by numpy in float64, the
    binary64 format of IEEE 754, which [SpecFloat] of the standard library
    defines: each operation gives the double nearest to the exact result,
    ties going to the even one. *)
Module Float64.

Definition mul : spec_float -> spec_float -> spec_float := SFmul 53 1024.

Definition div : spec_float -> spec_float -> spec_float := SFdiv 53 1024.

Definition ltb : spec_float -> spec_float -> bool := SFltb.

(** The double nearest to an integer: an int64 cell that becomes a float. *)
Definition of_int (z : Z) : spec_float := binary_normalize 53 1024 z 0 false.

(** The double nearest to a rational: what Python holds for a number written
    in the configuration. *)
Definition of_Q (q : Q) : spec_float :=
  match Qnum q with
  | 0 => S754_zero false
  | Z.pos n =>
      SFdiv 53 1024 (S754_finite false n 0) (S754_finite false (Qden q) 0)
  | Z.neg n =>
      SFdiv 53 1024 (S754_finite true n 0) (S754_finite false (Qden q) 0)
  end.

End Float64.

(** The test [v * 100.0 / total < threshold] on one cell [v].  When [total]
    is 0 the quotient is [inf], [nan] or [-inf], and only [-inf] is below a
    threshold. *)
Definition share_below (v total : Z) (threshold : Q) : bool :=
  Float64.ltb
    (Float64.div (Float64.mul (Float64.of_int v) (Float64.of_int 100))
                 (Float64.of_int total))
    (Float64.of_Q threshold).

(** [df.sum(axis=1)] on one row.  The cells are int64 numbers; the sum is
    taken as an integer, which is the int64 sum as long as the absolute
    values of the cells of a row add up to less than 2^63 ([int64_sums]). *)
Definition sum_row (row : list Z) : Z := fold_right Z.add 0 row.

(** [x[mask]] for a list of booleans [mask]. *)
Definition select_mask {A : Type} (mask : list bool) (l : list A) : list A :=
  map snd (filter fst (combine mask l)).

(** Whether column number [j] passes the test in every row. *)
Definition qualifies (df : DataFrame Z) (total : Z) (threshold : Q)
    (j : nat) : bool :=
  forallb (fun row => share_below (nth j row 0) total threshold) (values df).

(** [(df * 100.0 / total < threshold).all()]: one boolean per column. *)
Definition all_below (df : DataFrame Z) (total : Z) (threshold : Q)
  : list bool :=
  map (qualifies df total threshold) (seq 0 (length (columns df))).

(** [df[c] = col]: overwrite the columns labelled [c], or append one. *)
Definition set_column {A : Type} (c : label) (col : list A)
    (df : DataFrame A) : DataFrame A :=
  if has_column c (columns df)
  then mkDataFrame (index df) (columns df)
         (map (fun rv =>
                 map (fun lx => if label_eqb c (fst lx) then snd rv
                                else snd lx)
                     (combine (columns df) (fst rv)))
              (combine (values df) col))
  else mkDataFrame (index df) (columns df ++ [c])
         (map (fun rv => fst rv ++ [snd rv]) (combine (values df) col)).

(** [mask[c] = b] on a Series indexed by the labels [cols]. *)
Definition set_mask (c : label) (b : bool) (cols : list label)
    (mask : list bool) : list bool :=
  if has_column c cols
  then map (fun lm => if label_eqb c (fst lm) then b else snd lm)
           (combine cols mask)
  else mask ++ [b].

Definition truthy (threshold : option Q) : option Q :=
  match threshold with
  | Some q => if Qeq_bool q 0 then None else Some q
  | None => None
  end.

(** The frames of counts whose sums by row stay within int64. *)
Definition int64_sums (df : DataFrame Z) : Prop :=
  Forall (fun row => fold_right Z.add 0 (map Z.abs row) < 2 ^ 63)
         (values df).

(** [filter_by_threshold] assigns to [df["Others"]], so the frame it was
    given changes.  The function returns what the Python function returns (or
    raises) together with the frame [df] as it is after the call.  The frame
    is indexed by months, as every frame that the calculators pass is: on
    such an index [total[1]] is the total of the second row, and it fails
    with [IndexError] on a shorter frame. *)
Definition filter_by_threshold (df : DataFrame Z) (threshold : option Q)
  : result (DataFrame Z) * DataFrame Z :=
  match truthy threshold with
  | Some thr =>
      let total := map sum_row (values df) in
      match nth_error total 1 with
      | None => (Raise (IndexError "index 1 is out of bounds"), df)
      | Some total1 =>
          let threshold_mask := all_below df total1 thr in
          let others :=
            map (fun row => sum_row (select_mask threshold_mask row))
                (values df) in
          let df' := set_column Others others df in
          let threshold_mask' :=
            set_mask Others false (columns df) threshold_mask in
          let keep := map negb threshold_mask' in
          (Ok (mkDataFrame (index df') (select_mask keep (columns df'))
                 (map (select_mask keep) (values df'))),
           df')
      end
  | None => (Ok df, df)
  end.

(** [nargsort] of pandas for values without NaN: for a descending sort the
    values are reversed, sorted ascending with [argsort], and the resulting
    positions mapped back and reversed.  [argsort] is numpy's [argsort] of
    the default kind. *)
Definition nargsort (argsort : list Z -> list nat) (items : list Z)
    (ascending : bool) : list nat :=
  if ascending then argsort items
  else rev (map (fun i => (length items - 1 - i)%nat) (argsort (rev items))).

(** [ascending = None] is the call without that argument.  The cells are
    numbers, so [df.last_valid_index()] is the index of the last row. *)
Definition sort_colums_by_last_row (argsort : list Z -> list nat)
    (df : DataFrame Z) (ascending : option bool) : DataFrame Z :=
  let ascending := match ascending with Some b => b | None => false end in
  if (0 <? length (index df))%nat && (0 <? length (columns df))%nat
  then take_columns (nargsort argsort (last (values df) []) ascending) df
  else df.


(** A sort that meets this contract: insertion of each position before the
    first position with a larger value, so that equal values keep their
    order. *)
Fixpoint insert_pos (before : Z -> Z -> bool) (l : list Z) (i : nat)
    (sorted : list nat) : list nat :=
  match sorted with
  | [] => [i]
  | j :: sorted' =>
      if before (nth i l 0) (nth j l 0) then i :: sorted
      else j :: insert_pos before l i sorted'
  end.

Definition insertion_argsort (before : Z -> Z -> bool) (l : list Z)
  : list nat :=
  fold_right (insert_pos before l) [] (seq 0 (length l)).

Definition argsort_stable : list Z -> list nat := insertion_argsort Z.leb.

(** *** numpy's quicksort

    [sort_values] is called without [kind], so [argsort] is numpy's sort of
    the default kind, "quicksort": an introsort on the array [tosort] of
    positions, which it arranges in place, reading the values [v] through
    it.  A stretch of more than 16 positions is split around the median of
    its first, middle and last value; a shorter stretch is sorted by
    insertion; when the splits go deeper than twice the binary logarithm of
    the length, the stretch is sorted by heapsort. *)
Module Numpy.

(** The longest stretch that is sorted by insertion. *)
Definition SMALL : nat := 16.

(** [*p] and [*p = x] for a pointer [p] into [tosort]. *)
Definition get (tosort : list nat) (p : nat) : nat := nth p tosort 0%nat.

Fixpoint put (tosort : list nat) (p x : nat) : list nat :=
  match tosort, p with
  | [], _ => []
  | _ :: rest, O => x :: rest
  | y :: rest, S p' => y :: put rest p' x
  end.

Definition swap (tosort : list nat) (p q : nat) : list nat :=
  put (put tosort p (get tosort q)) q (get tosort p).

(** [v[*p]] *)
Definition val (v : list Z) (tosort : list nat) (p : nat) : Z :=
  nth (get tosort p) v 0.

(** [do ++pi; while (v[*pi] < vp);] *)
Fixpoint up (fuel : nat) (v : list Z) (tosort : list nat) (vp : Z)
    (pi : nat) : nat :=
  match fuel with
  | O => pi
  | S fuel' =>
      if val v tosort (S pi) <? vp then up fuel' v tosort vp (S pi)
      else S pi
  end.

(** [do --pj; while (vp < v[*pj]);] *)
Fixpoint down (fuel : nat) (v : list Z) (tosort : list nat) (vp : Z)
    (pj : nat) : nat :=
  match fuel with
  | O => pj
  | S fuel' =>
      if vp <? val v tosort (pj - 1) then down fuel' v tosort vp (pj - 1)
      else (pj - 1)%nat
  end.

(** The loop that exchanges the positions found by [up] and [down] until
    they meet; it returns the array and [pi]. *)
Fixpoint exchange (fuel : nat) (v : list Z) (tosort : list nat) (vp : Z)
    (pi pj : nat) : list nat * nat :=
  match fuel with
  | O => (tosort, pi)
  | S fuel' =>
      let pi := up (length tosort) v tosort vp pi in
      let pj := down (length tosort) v tosort vp pj in
      if (pj <=? pi)%nat then (tosort, pi)
      else exchange fuel' v (swap tosort pi pj) vp pi pj
  end.

(** One split of the stretch from [pl] to [pr]: the array and the place
    [pi] of the pivot. *)
Definition partition (v : list Z) (tosort : list nat) (pl pr : nat)
  : list nat * nat :=
  let pm := (pl + (pr - pl) / 2)%nat in
  let tosort :=
    if val v tosort pm <? val v tosort pl then swap tosort pm pl
    else tosort in
  let tosort :=
    if val v tosort pr <? val v tosort pm then swap tosort pr pm
    else tosort in
  let tosort :=
    if val v tosort pm <? val v tosort pl then swap tosort pm pl
    else tosort in
  let vp := val v tosort pm in
  let tosort := swap tosort pm (pr - 1) in
  let '(tosort, pi) :=
    exchange (length tosort) v tosort vp pl (pr - 1) in
  (swap tosort pi (pr - 1), pi).

(** [while (pj > pl && vp < v[*pk]) { *pj-- = *pk--; }] *)
Fixpoint shift (fuel : nat) (v : list Z) (tosort : list nat) (pl : nat)
    (vp : Z) (pj : nat) : list nat * nat :=
  match fuel with
  | O => (tosort, pj)
  | S fuel' =>
      if (pl <? pj)%nat && (vp <? val v tosort (pj - 1))
      then shift fuel' v (put tosort pj (get tosort (pj - 1))) pl vp
                 (pj - 1)
      else (tosort, pj)
  end.

(** The insertion sort of the stretch from [pl] to [pr]. *)
Definition insertion_sort (v : list Z) (tosort : list nat) (pl pr : nat)
  : list nat :=
  fold_left (fun tosort pi =>
               let vi := get tosort pi in
               let '(tosort, pj) :=
                 shift pi v tosort pl (nth vi v 0) pi in
               put tosort pj vi)
            (seq (pl + 1) (pr - pl)) tosort.

(** [aheapsort] works on the stretch [a] with positions counted from 1. *)
Definition get1 (a : list nat) (k : nat) : nat := nth (k - 1) a 0%nat.

Definition put1 (a : list nat) (k x : nat) : list nat := put a (k - 1) x.

(** The loop that lets [tmp] sink from place [i], [j] being the first place
    below [i]; it returns the array and the place for [tmp]. *)
Fixpoint sink (fuel : nat) (v : list Z) (a : list nat) (tmp i j n : nat)
  : list nat * nat :=
  match fuel with
  | O => (a, i)
  | S fuel' =>
      if (j <=? n)%nat
      then
        let j :=
          if (j <? n)%nat
             && (nth (get1 a j) v 0 <? nth (get1 a (j + 1)) v 0)
          then (j + 1)%nat else j in
        if nth tmp v 0 <? nth (get1 a j) v 0
        then sink fuel' v (put1 a i (get1 a j)) tmp j (j + j) n
        else (a, i)
      else (a, i)
  end.

Definition heapsort (v : list Z) (a : list nat) : list nat :=
  let n := length a in
  let a :=
    fold_left (fun a l =>
                 let tmp := get1 a l in
                 let '(a, i) := sink n v a tmp l (2 * l) n in
                 put1 a i tmp)
              (rev (seq 1 (n / 2))) a in
  fold_left (fun a n =>
               let tmp := get1 a n in
               let a := put1 a n (get1 a 1) in
               let '(a, i) := sink n v a tmp 1 2 (n - 1) in
               put1 a i tmp)
            (rev (seq 2 (n - 1))) a.

Definition aheapsort (v : list Z) (tosort : list nat) (pl n : nat)
  : list nat :=
  firstn pl tosort
  ++ heapsort v (firstn n (skipn pl tosort))
  ++ skipn (pl + n) tosort.

(** A stretch put aside, with the depth left for it. *)
Definition Stack : Type := list (nat * nat * Z).

(** While the stretch from [pl] to [pr] has more than [SMALL] positions:
    split, put the larger part aside and go on with the smaller one. *)
Fixpoint split (fuel : nat) (v : list Z) (tosort : list nat) (pl pr : nat)
    (stack : Stack) (cdepth : Z) : list nat * nat * nat * Stack :=
  match fuel with
  | O => (tosort, pl, pr, stack)
  | S fuel' =>
      if (SMALL <? pr - pl + 1)%nat
      then
        let '(tosort, pi) := partition v tosort pl pr in
        let cdepth := cdepth - 1 in
        if (pi - pl <? pr - pi)%nat
        then split fuel' v tosort pl (pi - 1)
                   ((pi + 1, pr, cdepth)%nat :: stack) cdepth
        else split fuel' v tosort (pi + 1) pr
                   ((pl, pi - 1, cdepth)%nat :: stack) cdepth
      else (tosort, pl, pr, stack)
  end.

(** The outer loop: sort the stretch at hand, then take the next one from
    the stack. *)
Fixpoint loop (fuel : nat) (v : list Z) (tosort : list nat) (pl pr : nat)
    (stack : Stack) (cdepth : Z) : list nat :=
  match fuel with
  | O => tosort
  | S fuel' =>
      let '(tosort, stack) :=
        if cdepth <? 0
        then (aheapsort v tosort pl (pr - pl + 1), stack)
        else
          let '(tosort, pl, pr, stack) :=
            split (length tosort) v tosort pl pr stack cdepth in
          (insertion_sort v tosort pl pr, stack) in
      match stack with
      | [] => tosort
      | (pl, pr, cdepth) :: stack => loop fuel' v tosort pl pr stack cdepth
      end
  end.

Definition aquicksort (v : list Z) : list nat :=
  let num := length v in
  loop (S num) v (seq 0 num) 0 (num - 1) []
       (2 * Z.log2 (Z.of_nat num)).

(** [v.argsort()] of an int64 array. *)
Definition argsort (v : list Z) : list nat := aquicksort v.

End Numpy.

(** ** Reading a table *)

(** The row with index [i] (the first one). *)
Definition row_at {A : Type} (df : DataFrame A) (i : Z) : option (list A) :=
  option_map snd (find (fun r => fst r =? i) (combine (index df) (values df))).

(** [df.at[i, c]]: the cell in row [i] and column [c]; [None] when the table
    has no such row or column. *)
Definition cell_at {A : Type} (df : DataFrame A) (i : Z) (c : label)
  : option A :=
  match row_at df i, positions c (columns df) with
  | Some row, j :: _ => nth_error row j
  | _, _ => None
  end.

(** The item is active in month [m]: [m] lies between the month of its start
    and the month of its effective end. *)
Definition spans (today : Timestamp) (t : Item) (m : Z) : bool :=
  (first_month t <=? m) && (m <=? last_month today t).

(** How many items of category [c] are active in month [m]. *)
Definition active_count (today : Timestamp) (df : list Item) (m : Z)
    (c : label) : Z :=
  Z.of_nat (length (filter (fun t => label_eqb c (category t)
                                     && spans today t m) df)).

(** ** Settings and logging *)

Inductive Level : Type := DEBUG | INFO | WARNING | ERROR.

Record LogRecord : Type := mkLogRecord {
  levelname : Level;
  message : string
}.

Record CycleStep : Type := mkCycleStep {
  name : string;
  statuses : list string;
  type_ : string
}.

(** The settings the two calculators read.  A frequency is given by the
    numbering of its periods: [f t] is the ordinal of the period that holds
    the instant [t]; log messages leave its name out. *)
Record Settings : Type := mkSettings {
  cycle : list CycleStep;
  backlog_column : string;
  committed_column : string;
  done_column : string;
  waste_query : option string;
  waste_frequency : Z -> Z;
  waste_window : option Z;
  waste_chart : option string;
  net_flow_frequency : Z -> Z
}.

Definition str_in (s : string) (l : list string) : bool :=
  existsb (String.eqb s) l.

(** [l.remove(x)]: drops the first [x]; [ValueError] when there is none. *)
Fixpoint list_remove (x : string) (l : list string) : result (list string) :=
  match l with
  | [] => Raise (ValueError "list.remove(x): x not in list")
  | y :: l' =>
      if String.eqb x y then Ok l'
      else r <- list_remove x l' ;; Ok (y :: r)
  end.

(** [df.reindex(labels, axis=1)]: the columns become [labels]; a label the
    frame does not have gives a column of NaN. *)
Definition reindex_columns {A : Type} (labels : list label)
    (df : DataFrame A) : DataFrame (option A) :=
  mkDataFrame (index df) labels
    (map (fun row => reindex_row (columns df) labels (map Some row))
         (values df)).

(** ** WasteCalculator *)

Module WasteCalculator.

(** What the query manager gives for an issue: [status_changes] holds the
    [from_string] of each status change, oldest first. *)
Record Issue : Type := mkIssue {
  issue_key : string;
  resolution : option string;
  resolutiondate : Z;
  status_changes : list string
}.

(** A row of the frame that [run] returns. *)
Record Row : Type := mkRow {
  key : string;
  last_status : option string;
  resolution_name : string;
  withdrawn_date : Z
}.

Definition lower_ascii (c : Ascii.ascii) : Ascii.ascii :=
  let n := Ascii.nat_of_ascii c in
  if ((65 <=? n) && (n <=? 90))%nat then Ascii.ascii_of_nat (n + 32) else c.

(** The strings of ASCII characters. *)
Definition is_ascii (s : string) : bool :=
  forallb (fun c => (Ascii.nat_of_ascii c <? 128)%nat) (list_ascii_of_string s).

(** [str.lower()] on a string of ASCII characters: the letters A to Z become
    a to z.  Strings with other characters, whose letters Python folds too,
    are outside what this function tells. *)
Fixpoint lower (s : string) : string :=
  match s with
  | EmptyString => EmptyString
  | String c s' => String (lower_ascii c) (lower s')
  end.

(** [cycle_lookup]: lower-cased status to the name of its step; filling the
    dict in order lets a later step win. *)
Definition cycle_lookup (steps : list CycleStep) : list (string * string) :=
  rev (flat_map (fun step => map (fun status => (lower status, name step))
                                 (statuses step))
                steps).

Fixpoint lookup (k : string) (d : list (string * string)) : option string :=
  match d with
  | [] => None
  | (k', v) :: d' => if String.eqb k k' then Some v else lookup k d'
  end.

Definition is_some {A : Type} (o : option A) : bool :=
  match o with Some _ => true | None => false end.

(** The body of the loop over the issues: the row to append, if any, and
    what is logged. *)
Definition run_issue (settings : Settings) (issue : Issue)
  : option Row * list LogRecord :=
  match resolution issue with
  | None => (None, [])
  | Some res =>
      let raw := last (map Some (status_changes issue)) None in
      let mapped :=
        match raw with
        | Some s => lookup (lower s) (cycle_lookup (cycle settings))
        | None => None
        end in
      let last_status := if is_some mapped then mapped else raw in
      let log :=
        if is_some mapped then []
        else [mkLogRecord WARNING
                ("Issue " ++ issue_key issue
                 ++ " transitioned from unknown JIRA status "
                 ++ match raw with Some s => s | None => "None" end)] in
      if match last_status with
         | Some s => String.eqb s (backlog_column settings)
                     || String.eqb s (done_column settings)
         | None => false
         end
      then (None, log)
      else (Some (mkRow (issue_key issue) last_status res
                    (resolutiondate issue)), log)
  end.

Definition run (settings : Settings) (issues : list Issue)
  : option (list Row) * list LogRecord :=
  match waste_query settings with
  | None | Some EmptyString =>
      (None, [mkLogRecord DEBUG
                "Not calculating waste chart data as no query specified"])
  | Some _ =>
      let steps := map (run_issue settings) issues in
      (Some (flat_map (fun s => match fst s with
                                | Some r => [r]
                                | None => []
                                end) steps),
       flat_map snd steps)
  end.

Definition rows_at (d : Z) (c : label) (chart_data : list Row) : list Row :=
  filter (fun r => (withdrawn_date r =? d)
                   && label_eqb c (last_status r)) chart_data.

(** [chart_data.pivot_table(index="withdrawn_date", columns="last_status",
    values="key", aggfunc="count")]: rows without a [last_status] are left
    out of the groups; a date and a status that never occur together give
    NaN. *)
Definition pivot_table (chart_data : list Row) : DataFrame (option Z) :=
  let kept := filter (fun r => is_some (last_status r)) chart_data in
  let idx := sort_unique Z.compare (map withdrawn_date kept) in
  let cols := sort_unique label_compare (map last_status kept) in
  mkDataFrame idx cols
    (map (fun d =>
            map (fun c => match rows_at d c kept with
                          | [] => None
                          | rs => Some (Z.of_nat (length rs))
                          end) cols)
         idx).

(** The table that [write] hands to [plot.bar]. *)
Definition breakdown (settings : Settings) (chart_data : list Row)
  : result (DataFrame (option Z)) :=
  let cycle_names := map name (cycle settings) in
  cycle_names <- list_remove (backlog_column settings) cycle_names ;;
  cycle_names <- list_remove (done_column settings) cycle_names ;;
  Ok (filter_by_window
        (reindex_columns (map Some cycle_names)
           (resample_agg (waste_frequency settings) agg_sum
              (pivot_table chart_data)))
        (waste_window settings)).

(** [write]: [Ok None] when nothing is drawn, [Ok (Some table)] when
    [table] is drawn. *)
Definition write (settings : Settings) (chart_data : option (list Row))
  : result (option (DataFrame (option Z))) * list LogRecord :=
  match chart_data with
  | None => (Ok None, [])
  | Some chart_data =>
      match waste_chart settings with
      | None | Some EmptyString =>
          (Ok None,
           [mkLogRecord DEBUG "No output file specified for waste chart"])
      | Some output_file =>
          match chart_data with
          | [] => (Ok None,
                   [mkLogRecord WARNING
                      "Cannot draw waste chart with zero items"])
          | _ :: _ =>
              match breakdown settings chart_data with
              | Raise e => (Raise e, [])
              | Ok b =>
                  if (length (index b) =? 0)%nat
                     || (length (columns b) =? 0)%nat
                  then (Ok None,
                        [mkLogRecord WARNING
                           "Cannot draw waste chart with zero items"])
                  else (Ok (Some b),
                        [mkLogRecord INFO
                           ("Writing waste chart to " ++ output_file)])
              end
          end
      end
  end.

End WasteCalculator.

(** The statuses that the steps list are strings of ASCII characters. *)
Definition ascii_statuses (steps : list CycleStep) : Prop :=
  forall step st, In step steps -> In st (statuses step) ->
                  WasteCalculator.is_ascii st = true.

(** ** NetFlowChartCalculator *)

Module NetFlowChartCalculator.

(** Aggregation [max]: the largest cell that is not NaN, NaN if none. *)
Definition agg_max (cells : list (option Z)) : option Z :=
  fold_right (fun c acc => match c, acc with
                           | Some v, Some w => Some (Z.max v w)
                           | Some v, None => Some v
                           | None, _ => acc
                           end) None cells.

(** [df[c]] for a label held by the frame: its first such column. *)
Definition get_column {A : Type} (c : label) (df : DataFrame (option A))
  : list (option A) :=
  match positions c (columns df) with
  | j :: _ => map (fun row => nth j row None) (values df)
  | [] => []
  end.

Definition sub_nan (a b : option Z) : option Z :=
  match a, b with
  | Some x, Some y => Some (x - y)
  | _, _ => None
  end.

(** [s.diff()]: each value minus the one before; NaN in first place. *)
Definition diff (s : list (option Z)) : list (option Z) :=
  match s with
  | [] => []
  | _ :: s' => None :: map (fun p => sub_nan (fst p) (snd p)) (combine s' s)
  end.

(** [s.fillna(other)] *)
Definition fillna (s other : list (option Z)) : list (option Z) :=
  map (fun p => match fst p with Some v => Some v | None => snd p end)
      (combine s other).

Definition run (settings : Settings) (cfd_data : DataFrame Z)
  : result (option (DataFrame (option Z))) * list LogRecord :=
  let cycle_names := map name (cycle settings) in
  let start_column := committed_column settings in
  let done_column := done_column settings in
  if negb (str_in start_column cycle_names)
  then (Ok None,
        [mkLogRecord ERROR
           ("Committed column " ++ start_column ++ " does not exist")])
  else if negb (str_in done_column cycle_names)
  then (Ok None,
        [mkLogRecord ERROR
           ("Done column " ++ done_column ++ " does not exist")])
  else
    let log := [mkLogRecord DEBUG "Calculating net flow at frequency"] in
    if negb (has_column (Some start_column) (columns cfd_data)
             && has_column (Some done_column) (columns cfd_data))
    then (Raise (KeyError "not in index"), log)
    else if String.eqb start_column done_column
    then (* a repeated label selects a frame, which cannot be assigned to
            the single column "arrivals" *)
         (Raise (ValueError "Wrong number of items passed"), log)
    else
      let selected :=
        select_labels cfd_data [Some start_column; Some done_column] in
      let net_flow_data :=
        resample_agg (net_flow_frequency settings) agg_max
          (mkDataFrame (index selected) (columns selected)
             (map (map Some) (values selected))) in
      let net_flow_data :=
        let s := get_column (Some start_column) net_flow_data in
        set_column (Some "arrivals"%string) (fillna (diff s) s)
                   net_flow_data in
      let net_flow_data :=
        let s := get_column (Some done_column) net_flow_data in
        set_column (Some "departures"%string) (fillna (diff s) s)
                   net_flow_data in
      let net_flow_data :=
        set_column (Some "net_flow"%string)
          (map (fun p => sub_nan (fst p) (snd p))
               (combine
                  (get_column (Some "arrivals"%string) net_flow_data)
                  (get_column (Some "departures"%string) net_flow_data)))
          net_flow_data in
      (Ok (Some net_flow_data), log).

End NetFlowChartCalculator.

(** ** The fixture of utils_test.py *)

Definition ts (y m d : Z) : Timestamp := mkTimestamp y m d 0.

Definition issues : list Item :=
  [ mkItem "ABC-1" (Some "high"%string) (ts 2018 1 1) (Some (ts 2018 3 20));
    mkItem "ABC-2" (Some "med"%string) (ts 2018 1 2) (Some (ts 2018 1 20));
    mkItem "ABC-3" (Some "high"%string) (ts 2018 2 3) (Some (ts 2018 3 20));
    mkItem "ABC-4" (Some "med"%string) (ts 2018 1 4) (Some (ts 2018 3 20));
    mkItem "ABC-5" (Some "high"%string) (ts 2018 2 5) (Some (ts 2018 2 20));
    mkItem "ABC-6" (Some "med"%string) (ts 2018 3 6) (Some (ts 2018 3 20)) ].

Definition month_of (y m : Z) : Z := to_period_M (ts y m 1).

(** [issues] with the end of ABC-6 set to [None]. *)
Definition issues_open_ended : list Item :=
  firstn 5 issues
  ++ [mkItem "ABC-6" (Some "med"%string) (ts 2018 3 6) None].

(** [issues] with every priority set to [None]. *)
Definition issues_no_priority : list Item :=
  map (fun t => mkItem (key t) None (start_date t) (end_date t)) issues.

(** [issues] with the priority "high" replaced by [None]. *)
Definition issues_high_is_none : list Item :=
  map (fun t => mkItem (key t)
                  (if label_eqb (category t) (Some "high"%string) then None
                   else category t)
                  (start_date t) (end_date t)) issues.

(** Some day after May 2018, in the afternoon. *)
Definition a_day_in_june : Timestamp :=
  mkTimestamp 2018 6 15 (15 * 3600 * 1000000000).

Definition table_priorities : DataFrame Z :=
  mkDataFrame [0; 1; 2]
    [Some "high"%string; Some "med"%string; Some "low"%string]
    [[1; 2; 0]; [3; 1; 2]; [2; 2; 3]].

(** ** Sample tables and settings *)

Definition table_ab : DataFrame Z :=
  mkDataFrame [month_of 2018 1; month_of 2018 2]
    [Some "a"%string; Some "b"%string] [[1; 99]; [1; 99]].

Definition table_others_b : DataFrame Z :=
  mkDataFrame [month_of 2018 1; month_of 2018 2]
    [Others; Some "b"%string] [[1; 99]; [1; 99]].



Definition sample_cycle : list CycleStep :=
  [ mkCycleStep "Backlog" ["Open"%string] "backlog";
    mkCycleStep "Committed" ["To Do"%string] "accepted";
    mkCycleStep "Build" ["In Progress"%string] "accepted";
    mkCycleStep "Test" ["In Test"%string] "accepted";
    mkCycleStep "Done" ["Closed"%string] "complete" ].

Definition sample_settings : Settings :=
  mkSettings sample_cycle "Backlog" "Committed" "Done"
    (Some "resolution = Withdrawn"%string)
    (fun t => t / (7 * NS_PER_DAY)) None (Some "waste.png"%string)
    (fun t => t / (7 * NS_PER_DAY)).

(** The committed column is misspelt. *)
Definition misspelt_settings : Settings :=
  mkSettings sample_cycle "Backlog" "Comitted" "Done"
    (Some "resolution = Withdrawn"%string)
    (fun t => t / (7 * NS_PER_DAY)) None (Some "waste.png"%string)
    (fun t => t / (7 * NS_PER_DAY)).

Definition sample_withdrawals : list WasteCalculator.Row :=
  [ WasteCalculator.mkRow "A-1" (Some "Build"%string) "Withdrawn"
      (value (ts 2018 1 3));
    WasteCalculator.mkRow "A-2" (Some "Committed"%string) "Withdrawn"
      (value (ts 2018 1 12)) ].

(** Four issues: one withdrawn while in progress, one closed from the done
    status, one that left a status no step of the cycle has, one that is
    not resolved. *)
Definition sample_issues : list WasteCalculator.Issue :=
  [ WasteCalculator.mkIssue "A-1" (Some "Withdrawn"%string)
      (value (ts 2018 1 3))
      ["Open"%string; "To Do"%string; "IN PROGRESS"%string];
    WasteCalculator.mkIssue "A-3" (Some "Done"%string)
      (value (ts 2018 1 5)) ["In Test"%string; "Closed"%string];
    WasteCalculator.mkIssue "A-4" (Some "Withdrawn"%string)
      (value (ts 2018 1 9)) ["On Hold"%string];
    WasteCalculator.mkIssue "A-5" None 0 ["Open"%string] ].

(** The scenario of two items. *)
Definition two_items : list Item :=
  [ mkItem "A" (Some "high"%string) (ts 2018 1 1) (Some (ts 2018 3 20));
    mkItem "B" (Some "med"%string) (ts 2018 1 2) (Some (ts 2018 1 20)) ].

Definition table_one_row : DataFrame Z :=
  mkDataFrame [month_of 2018 1] [Some "a"%string; Some "b"%string] [[1; 99]].

Definition sample_cfd : DataFrame Z :=
  mkDataFrame [value (ts 2018 1 1); value (ts 2018 1 2)]
    [Some "Backlog"%string; Some "Committed"%string; Some "Build"%string;
     Some "Test"%string; Some "Done"%string]
    [[3; 2; 1; 0; 0]; [4; 3; 2; 1; 1]].

(** ** The small helpers of utils.py *)

(** A [dict] with string keys: its items in insertion order, each key once. *)
Definition dict (V : Type) : Type := list (string * V).

Fixpoint dict_get {V : Type} (k : string) (d : dict V) : option V :=
  match d with
  | [] => None
  | (k', v) :: d' => if String.eqb k k' then Some v else dict_get k d'
  end.

(** [d[k] = v]: the value of an existing key is replaced where it stands, a
    new key goes to the end. *)
Fixpoint dict_set {V : Type} (k : string) (v : V) (d : dict V) : dict V :=
  match d with
  | [] => [(k, v)]
  | (k', v') :: d' =>
      if String.eqb k k' then (k', v) :: d' else (k', v') :: dict_set k v d'
  end.

(** [r.update(e)]: the items of [e] are assigned one after the other. *)
Definition dict_update {V : Type} (r e : dict V) : dict V :=
  fold_left (fun acc kv => dict_set (fst kv) (snd kv) acc) e r.

Definition extend_dict {V : Type} (d e : dict V) : dict V :=
  let r := d (* d.copy() *) in
  dict_update r e.

(** A [datetime.date]. *)
Record date : Type := mkDate {
  date_year : Z;
  date_month : Z;
  date_day : Z
}.

Definition valid_date (d : date) : Prop :=
  1 <= date_month d <= 12
  /\ 1 <= date_day d <= days_in_month (date_year d) (date_month d).

Definition toordinal (d : date) : Z :=
  to_ordinal (date_year d) (date_month d) (date_day d).

(** [(d - datetime.date(1970, 1, 1)).days] *)
Definition to_days_since_epoch (d : date) : Z :=
  toordinal d - toordinal (mkDate 1970 1 1).

(** The order of dates: by year, then month, then day. *)
Definition date_lt (a b : date) : Prop :=
  date_year a < date_year b
  \/ (date_year a = date_year b
      /\ (date_month a < date_month b
          \/ (date_month a = date_month b /\ date_day a < date_day b))).

(** The loop of [to_bin], [previous] being the edge passed last. *)
Fixpoint to_bin_from (value previous : Z) (edges : list Z) : Z * option Z :=
  match edges with
  | [] => (previous, None)
  | v :: edges' =>
      if (previous <=? value) && (value <=? v) then (previous, Some v)
      else to_bin_from value v edges'
  end.

Definition to_bin (value : Z) (edges : list Z) : Z * option Z :=
  to_bin_from value 0 edges.

(** ** Counting withdrawals *)

(** How many rows of [chart_data] have the last status [stage] and a
    withdrawal date in period [b] of the waste frequency. *)
Definition withdrawals_in (settings : Settings)
    (chart_data : list WasteCalculator.Row) (b : Z) (stage : string) : Z :=
  Z.of_nat
    (length
       (filter (fun r =>
                  (waste_frequency settings (WasteCalculator.withdrawn_date r)
                   =? b)
                  && label_eqb (Some stage) (WasteCalculator.last_status r))
               chart_data)).

(** A cycle in which two steps list the status "Closed", in different
    letter case. *)
Definition cycle_with_repeat : list CycleStep :=
  [ mkCycleStep "Backlog" ["Open"%string] "backlog";
    mkCycleStep "Build" ["In Progress"%string; "closed"%string] "accepted";
    mkCycleStep "Done" ["Closed"%string] "complete" ].

(** ** Reading a column *)

(** The cells of column number [k], row after row. *)
Definition column_at {A : Type} (k : nat) (df : DataFrame (option A))
  : list (option A) :=
  map (fun row => nth k row None) (values df).

(** The sum of the members of a list. *)
Definition total (l : list Z) : Z := fold_right Z.add 0 l.

(** ** NetFlowChartCalculator.write *)

Inductive WriteError : Type :=
| AttributeError (msg : string)
| Other (e : PyError).

(** A bar of the chart: the period, the net flow and the number of the
    colour, [0 if x >= 0 else 1]. *)
Record Bar : Type := mkBar {
  bar_period : Z;
  bar_value : option Z;
  bar_color : nat
}.

Definition color_of (x : option Z) : nat :=
  match x with
  | Some v => if 0 <=? v then 0%nat else 1%nat
  | None => 1%nat  (* NaN >= 0 is false *)
  end.

(** [write], given what [get_result()] returns, that is what [run]
    returned: the bars drawn ([None] when no chart is drawn), or the
    exception.  [len(chart_data.index)] is evaluated on whatever [run]
    returned. *)
Definition net_flow_write (net_flow_chart : option string)
    (net_flow_window : option Z)
    (chart_data : option (DataFrame (option Z)))
  : (WriteError + option (list Bar)) * list LogRecord :=
  match net_flow_chart with
  | None | Some EmptyString =>
      (inr None,
       [mkLogRecord DEBUG "No output file specified for net flow chart"])
  | Some output_file =>
      match chart_data with
      | None =>
          (inl (AttributeError
                  "'NoneType' object has no attribute 'index'"), [])
      | Some chart_data =>
          if (length (index chart_data) =? 0)%nat
          then (inr None,
                [mkLogRecord WARNING
                   "Cannot draw net flow chart with zero items"])
          else
            match positions (Some "net_flow"%string) (columns chart_data)
            with
            | [] => (inl (Other (KeyError "not in index")), [])
            | [_] =>
                let net_flow_data :=
                  filter_by_window
                    (select_labels chart_data [Some "net_flow"%string])
                    net_flow_window in
                let net_flow := column_at 0 net_flow_data in
                (inr (Some (map (fun p => mkBar (fst p) (snd p)
                                                (color_of (snd p)))
                                (combine (index net_flow_data) net_flow))),
                 [mkLogRecord INFO
                    ("Writing ageing WIP chart to " ++ output_file)])
            | _ =>
                (* a repeated label selects a frame, whose columns have no
                   truth value *)
                (inl (Other (ValueError
                        "The truth value of a Series is ambiguous")), [])
            end
      end
  end.

(** ** Chart and the libraries that draw *)

(** A palette as it is given: a name, or a list of names or colours. *)
Inductive Palette : Type :=
| Name (s : string)
| Colors (l : list string).

(** What seaborn and matplotlib do is not part of the program.  Their calls
    are kept as three functions, which return or raise:
    [sns.color_palette(palette, n_colors)]; the drawing, from
    [plt.subplots()] and [plot.bar] to the title, the labels and the legend;
    and [fig.savefig(output_file)]. *)
Record Renderer : Type := mkRenderer {
  color_palette : option Palette -> option nat -> result unit;
  plot_bar : DataFrame Z -> result unit;
  savefig : string -> result unit
}.

Module Chart.

(** [palette[0] if len(palette) == 1 else palette]; the first character of
    a name of one character is that name. *)
Definition single (palette : Palette) : Palette :=
  match palette with
  | Colors [c] => Name c
  | _ => palette
  end.

(** [Chart.use_palette(palette, n_colors)]; [current_palette] is the class
    attribute [_current_palette], which [set_style] has set. *)
Definition use_palette (draw : Renderer) (current_palette : option Palette)
    (palette : option Palette) (n_colors : option nat) : result unit :=
  let palette :=
    match palette with
    | None => current_palette
    | Some p => Some (single p)
    end in
  color_palette draw palette n_colors.

End Chart.

(** ** DefectsCalculator *)

Module DefectsCalculator.

(** An issue as the query manager gives it; the three values are what
    [resolve_field_value] returns for the three fields. *)
Record Issue : Type := mkIssue {
  issue_key : string;
  issue_created : Timestamp;
  issue_resolutiondate : option Timestamp;
  priority_value : label;
  type_value : label;
  environment_value : label
}.

(** A row of the frame that [run] returns. *)
Record Row : Type := mkRow {
  key : string;
  priority : label;
  type_ : label;
  environment : label;
  created : Timestamp;
  resolved : option Timestamp
}.

Record DefectsSettings : Type := mkDefectsSettings {
  defects_query : option string;
  defects_priority_field : option string;
  defects_type_field : option string;
  defects_environment_field : option string;
  defects_by_priority_chart : option string;
  defects_by_type_chart : option string;
  defects_by_environment_chart : option string;
  defects_by_priority_chart_palette : option Palette;
  defects_by_type_chart_palette : option Palette;
  defects_by_environment_chart_palette : option Palette;
  defects_priority_values : option (list label);
  defects_type_values : option (list label);
  defects_environment_values : option (list label);
  defects_window : option Z;
  defects_priority_threshold : option Q;
  defects_type_threshold : option Q;
  defects_environment_threshold : option Q
}.

(** Truth value of a setting that is [None] or a string. *)
Definition is_set (o : option string) : bool :=
  match o with
  | None | Some EmptyString => false
  | Some _ => true
  end.

Definition run (settings : DefectsSettings) (issues : list Issue)
  : option (list Row) :=
  if is_set (defects_query settings)
  then Some (map (fun issue =>
                    mkRow (issue_key issue)
                      (if is_set (defects_priority_field settings)
                       then priority_value issue else None)
                      (if is_set (defects_type_field settings)
                       then type_value issue else None)
                      (if is_set (defects_environment_field settings)
                       then environment_value issue else None)
                      (issue_created issue)
                      (issue_resolutiondate issue))
                 issues)
  else None.

Inductive Field : Type := Priority | Type_ | Environment.

Definition field_name (field : Field) : string :=
  match field with
  | Priority => "priority"
  | Type_ => "type"
  | Environment => "environment"
  end.

Definition field_of (field : Field) (r : Row) : label :=
  match field with
  | Priority => priority r
  | Type_ => type_ r
  | Environment => environment r
  end.

(** The rows as [breakdown_by_month] reads them, with "created", "resolved",
    "key" and the field as the four columns. *)
Definition items (field : Field) (chart_data : list Row) : list Item :=
  map (fun r => mkItem (key r) (field_of field r) (created r) (resolved r))
      chart_data.

(** The table of [_write_defects_by_field_chart]. *)
Definition breakdown (argsort : list Z -> list nat) (today : Timestamp)
    (chart_data : list Row) (field : Field)
    (field_values : option (list label)) (window : option Z)
    (threshold : option Q) (sort : bool) : result (DataFrame Z) :=
  b <- breakdown_by_month today (items field chart_data) ;;
  let b := filter_by_window (filter_by_columns b field_values) window in
  let b := if sort then sort_colums_by_last_row argsort b None else b in
  fst (filter_by_threshold b threshold).

(** [n_columns + 1 if n_columns % 2 else n_columns] *)
Definition n_colors (n_columns : nat) : nat :=
  if (n_columns mod 2 =? 0)%nat then n_columns else (n_columns + 1)%nat.

(** A chart that is drawn: its file, its table and the size of the palette
    asked for. *)
Record Chart : Type := mkChart {
  chart_file : string;
  chart_table : DataFrame Z;
  chart_n_colors : nat
}.

(** [_write_defects_by_field_chart]: the chart, if one is drawn, and the
    log.  What was logged before an exception is not kept. *)
Definition write_defects_by_field_chart (draw : Renderer)
    (current_palette : option Palette) (argsort : list Z -> list nat)
    (today : Timestamp) (chart_data : list Row) (output_file : string)
    (field : Field) (palette : option Palette)
    (field_values : option (list label)) (window : option Z)
    (threshold : option Q) (sort : bool)
  : result (option Chart * list LogRecord) :=
  b <- breakdown argsort today chart_data field field_values window
         threshold sort ;;
  if (length (index b) =? 0)%nat || (length (columns b) =? 0)%nat
  then Ok (None,
           [mkLogRecord WARNING
              ("Cannot draw defects by " ++ field_name field
               ++ " chart with zero items")])
  else
    let n_columns := n_colors (length (columns b)) in
    _ <- Chart.use_palette draw current_palette palette (Some n_columns) ;;
    _ <- plot_bar draw b ;;
    _ <- savefig draw output_file ;;
    Ok (Some (mkChart output_file b n_columns),
        [mkLogRecord INFO
           ("Writing defects by " ++ field_name field ++ " chart to "
            ++ output_file)]).

(** One of the three charts of [write], drawn when its file is set; [acc]
    is what was drawn and logged so far. *)
Definition write_chart (draw : Renderer) (current_palette : option Palette)
    (argsort : list Z -> list nat) (today : Timestamp)
    (chart_data : list Row) (output_file : option string) (field : Field)
    (palette : option Palette)
    (field_values : option (list label)) (window : option Z)
    (threshold : option Q) (sort : bool)
    (acc : list Chart * list LogRecord)
  : result (list Chart * list LogRecord) :=
  if is_set output_file
  then
    r <- write_defects_by_field_chart draw current_palette argsort today
           chart_data
           (match output_file with Some f => f | None => EmptyString end)
           field palette field_values window threshold sort ;;
    Ok (fst acc ++ match fst r with Some c => [c] | None => [] end,
        snd acc ++ snd r)
  else Ok acc.

Definition write (draw : Renderer) (current_palette : option Palette)
    (argsort : list Z -> list nat) (today : Timestamp)
    (settings : DefectsSettings) (chart_data : option (list Row))
  : result (list Chart * list LogRecord) :=
  match chart_data with
  | None => Ok ([], [])
  | Some [] =>
      Ok ([], [mkLogRecord WARNING
                 "Cannot draw defect charts with zero items"])
  | Some chart_data =>
      acc <- write_chart draw current_palette argsort today chart_data
               (defects_by_priority_chart settings) Priority
               (defects_by_priority_chart_palette settings)
               (defects_priority_values settings) (defects_window settings)
               (defects_priority_threshold settings) false ([], []) ;;
      acc <- write_chart draw current_palette argsort today chart_data
               (defects_by_type_chart settings) Type_
               (defects_by_type_chart_palette settings)
               (defects_type_values settings) (defects_window settings)
               (defects_type_threshold settings) true acc ;;
      write_chart draw current_palette argsort today chart_data
        (defects_by_environment_chart settings) Environment
        (defects_by_environment_chart_palette settings)
        (defects_environment_values settings) (defects_window settings)
        (defects_environment_threshold settings) true acc
  end.

(** An exception that one of the calls of the libraries raises. *)
Definition raised_by (draw : Renderer) (e : PyError) : Prop :=
  (exists palette n_colors, color_palette draw palette n_colors = Raise e)
  \/ (exists b, plot_bar draw b = Raise e)
  \/ (exists output_file, savefig draw output_file = Raise e).

(** No call of the libraries raises. *)
Definition draws (draw : Renderer) : Prop :=
  (forall palette n_colors, color_palette draw palette n_colors = Ok tt)
  /\ (forall b, plot_bar draw b = Ok tt)
  /\ (forall output_file, savefig draw output_file = Ok tt).

End DefectsCalculator.

(** ** Sample defects *)

Definition sample_defects : list DefectsCalculator.Row :=
  [ DefectsCalculator.mkRow "D-1" (Some "high"%string) (Some "bug"%string)
      (Some "prod"%string) (mkTimestamp 2018 1 3 1000) (Some (ts 2018 3 20));
    DefectsCalculator.mkRow "D-2" (Some "low"%string) (Some "bug"%string)
      (Some "test"%string) (ts 2018 2 7) None ].

Definition sample_defects_settings : DefectsCalculator.DefectsSettings :=
  DefectsCalculator.mkDefectsSettings
    (Some "type = Bug"%string)
    (Some "Priority"%string) (Some "Type"%string) (Some "Environment"%string)
    (Some "priority.png"%string) (Some "type.png"%string) None
    (Some (Colors ["RdYlGn"%string])) None None
    (Some [Some "low"%string; Some "medium"%string; Some "high"%string])
    None None (Some 6) None None None.

Definition threshold_defects_settings : DefectsCalculator.DefectsSettings :=
  DefectsCalculator.mkDefectsSettings
    (Some "type = Bug"%string)
    (Some "Priority"%string) (Some "Type"%string) (Some "Environment"%string)
    (Some "priority.png"%string) None None
    None None None
    None None None (Some 1) (Some 10%Q) None None.

Definition sample_priority_chart : DefectsCalculator.Chart :=
  DefectsCalculator.mkChart "priority.png"
    (mkDataFrame [576; 577; 578; 579; 580; 581]
       [Some "low"%string; Some "high"%string]
       [[0; 1]; [1; 1]; [1; 1]; [1; 0]; [1; 0]; [1; 0]])
    2.

(** Libraries that draw whatever they are given, and libraries that cannot
    write to the file they are given. *)
Definition sample_renderer : Renderer :=
  mkRenderer (fun _ _ => Ok tt) (fun _ => Ok tt) (fun _ => Ok tt).

Definition read_only_renderer : Renderer :=
  mkRenderer (fun _ _ => Ok tt) (fun _ => Ok tt)
    (fun _ => Raise (ValueError "Format is not supported")).

(** ** Sample dictionaries *)

Definition sample_dict : dict Z :=
  [("a"%string, 1); ("b"%string, 2)].

Definition sample_overrides : dict Z :=
  [("b"%string, 20); ("c"%string, 30)].

(** * Properties *)

(** ** Orders and sorted lists without repetition *)

Section SortUnique.

Variable A : Type.
Variable cmp : A -> A -> comparison.
Hypothesis cmp_eq : forall a b, cmp a b = Eq <-> a = b.
Hypothesis cmp_antisym : forall a b, cmp a b = CompOpp (cmp b a).
Hypothesis cmp_trans :
  forall a b c, cmp a b = Lt -> cmp b c = Lt -> cmp a c = Lt.

Lemma cmp_irrefl a : ~ (cmp_lt cmp) a a.
Proof.
  unfold cmp_lt. intro H.
  assert (E : cmp a a = Eq) by (apply cmp_eq; reflexivity).
  congruence.
Qed.

Lemma cmp_gt_lt a b : cmp a b = Gt -> (cmp_lt cmp) b a.
Proof.
  unfold cmp_lt. intro H. rewrite cmp_antisym, H. reflexivity.
Qed.

Lemma insert_sorted_In c x l :
  In x (insert_sorted cmp c l) <-> x = c \/ In x l.
Proof.
  induction l as [|d l IH]; simpl.
  - intuition.
  - destruct (cmp c d) eqn:E; simpl.
    + apply cmp_eq in E. subst d. intuition.
    + intuition.
    + rewrite IH. intuition.
Qed.

Lemma insert_sorted_HdRel a c l :
  (cmp_lt cmp) a c -> HdRel (cmp_lt cmp) a l ->
  HdRel (cmp_lt cmp) a (insert_sorted cmp c l).
Proof.
  intros Hac H. destruct l as [|d l]; simpl.
  - constructor. exact Hac.
  - inversion H; subst. destruct (cmp c d); constructor; assumption.
Qed.

Lemma insert_sorted_Sorted c l :
  Sorted (cmp_lt cmp) l -> Sorted (cmp_lt cmp) (insert_sorted cmp c l).
Proof.
  induction l as [|d l IH]; simpl; intro H.
  - repeat constructor.
  - inversion H; subst. destruct (cmp c d) eqn:E.
    + exact H.
    + constructor; [exact H | constructor; exact E].
    + constructor; [apply IH; assumption |].
      apply insert_sorted_HdRel; [apply cmp_gt_lt; exact E | assumption].
Qed.

Lemma sort_unique_In x l : In x (sort_unique cmp l) <-> In x l.
Proof.
  induction l as [|c l IH]; simpl; [reflexivity |].
  rewrite insert_sorted_In, IH. intuition.
Qed.

Lemma sort_unique_Sorted l : Sorted (cmp_lt cmp) (sort_unique cmp l).
Proof.
  induction l as [|c l IH]; simpl; [constructor |].
  apply insert_sorted_Sorted. exact IH.
Qed.

Lemma lt_transitive : Relations_1.Transitive (cmp_lt cmp).
Proof. intros a b c. apply cmp_trans. Qed.




Lemma sort_unique_NoDup l : NoDup (sort_unique cmp l).
Proof.
  pose proof (sort_unique_Sorted l) as H.
  apply (Sorted_StronglySorted lt_transitive) in H.
  induction H as [|a s Hs IH Ha]; constructor; [| exact IH].
  intro Hin. rewrite Forall_forall in Ha. apply (@cmp_irrefl a). apply Ha.
  exact Hin.
Qed.

End SortUnique.

Lemma label_compare_eq a b : label_compare a b = Eq <-> a = b.
Proof.
  destruct a as [x|], b as [y|]; simpl; try (split; congruence).
  rewrite String_as_OT.cmp_eq. split; congruence.
Qed.

Lemma label_compare_antisym a b :
  label_compare a b = CompOpp (label_compare b a).
Proof.
  destruct a as [x|], b as [y|]; simpl; try reflexivity.
  apply String_as_OT.cmp_antisym.
Qed.

Lemma label_compare_trans a b c :
  label_compare a b = Lt -> label_compare b c = Lt -> label_compare a c = Lt.
Proof.
  destruct a as [x|], b as [y|], c as [z|]; simpl; try congruence.
  intros H1 H2. apply String_as_OT.cmp_lt in H1, H2.
  apply String_as_OT.cmp_lt. eapply String_as_OT.lt_trans; eassumption.
Qed.

Lemma label_eqb_eq a b : label_eqb a b = true <-> a = b.
Proof.
  destruct a as [x|], b as [y|]; simpl; try (split; congruence).
  rewrite String.eqb_eq. split; congruence.
Qed.

Lemma label_eqb_refl a : label_eqb a a = true.
Proof. apply label_eqb_eq. reflexivity. Qed.

Lemma Z_compare_trans a b c :
  (a ?= b) = Lt -> (b ?= c) = Lt -> (a ?= c) = Lt.
Proof. rewrite !Z.compare_lt_iff. lia. Qed.

(** ** Lists *)

Lemma combine_app_eq {A B : Type} (l1 l2 : list A) (k1 k2 : list B) :
  length l1 = length k1 ->
  combine (l1 ++ l2) (k1 ++ k2) = combine l1 k1 ++ combine l2 k2.
Proof.
  revert k1. induction l1 as [|a l1 IH]; intros [|b k1] H; simpl in *;
    try discriminate; [reflexivity |].
  f_equal. apply IH. congruence.
Qed.

Lemma combine_flat_map {A B C : Type} (f : C -> list A) (g : C -> list B)
    (l : list C) :
  Forall (fun c => length (f c) = length (g c)) l ->
  combine (flat_map f l) (flat_map g l)
  = flat_map (fun c => combine (f c) (g c)) l.
Proof.
  induction 1 as [|c l Hc Hl IH]; simpl; [reflexivity |].
  rewrite combine_app_eq by exact Hc. f_equal. exact IH.
Qed.



Lemma fold_min_spec (p : Z) (ps : list Z) :
  In (fold_right Z.min p ps) (p :: ps)
  /\ forall x, In x (p :: ps) -> fold_right Z.min p ps <= x.
Proof.
  induction ps as [|q ps [IHin IHle]]; simpl.
  - split; [left; reflexivity |]. intros x [E|[]]. lia.
  - split.
    + destruct (Z.min_spec q (fold_right Z.min p ps)) as [[_ E]|[_ E]];
        rewrite E; [right; left; reflexivity |].
      destruct IHin as [E'|H]; [left; exact E' | right; right; exact H].
    + intros x [E|[E|H]].
      * subst x. specialize (IHle p (or_introl eq_refl)). lia.
      * subst x. lia.
      * specialize (IHle x (or_intror H)). lia.
Qed.

Lemma fold_max_spec (p : Z) (ps : list Z) :
  In (fold_right Z.max p ps) (p :: ps)
  /\ forall x, In x (p :: ps) -> x <= fold_right Z.max p ps.
Proof.
  induction ps as [|q ps [IHin IHle]]; simpl.
  - split; [left; reflexivity |]. intros x [E|[]]. lia.
  - split.
    + destruct (Z.max_spec q (fold_right Z.max p ps)) as [[_ E]|[_ E]];
        rewrite E; [| right; left; reflexivity].
      destruct IHin as [E'|H]; [left; exact E' | right; right; exact H].
    + intros x [E|[E|H]].
      * subst x. specialize (IHle p (or_introl eq_refl)). lia.
      * subst x. lia.
      * specialize (IHle x (or_intror H)). lia.
Qed.



(** ** Aggregations do not depend on the order of the cells *)



(** ** Resampling and concatenation under a change of order *)


Lemma flat_map_map {A B C : Type} (f : B -> list C) (g : A -> B)
    (l : list A) :
  flat_map f (map g l) = flat_map (fun x => f (g x)) l.
Proof.
  induction l as [|a l IH]; simpl; [reflexivity |]. rewrite IH. reflexivity.
Qed.

Lemma flat_map_singleton {A B : Type} (f : A -> B) (l : list A) :
  flat_map (fun x => [f x]) l = map f l.
Proof.
  induction l as [|a l IH]; simpl; [reflexivity |]. rewrite IH. reflexivity.
Qed.


Lemma length_zrange lo hi : length (zrange lo hi) = Z.to_nat (hi - lo + 1).
Proof. unfold zrange. rewrite length_map, length_seq. reflexivity. Qed.

Lemma ByMonth_build_df_length today t :
  length (index (ByMonth.build_df today t))
  = length (values (ByMonth.build_df today t)).
Proof. simpl. rewrite length_map. reflexivity. Qed.


(** *** The union of the columns *)

Lemma first_seen_In (c : label) (labels : list label) :
  In c (first_seen labels) <-> In c labels.
Proof.
  induction labels as [|d labels IH]; simpl; [reflexivity |].
  rewrite filter_In, IH. split.
  - intros [H | [H _]]; [left | right]; exact H.
  - intros [H | H]; [left; exact H |].
    destruct (label_eqb d c) eqn:E.
    + left. apply label_eqb_eq in E. exact E.
    + right. split; [exact H | reflexivity].
Qed.

Lemma first_seen_NoDup (labels : list label) : NoDup (first_seen labels).
Proof.
  induction labels as [|d labels IH]; simpl; constructor.
  - rewrite filter_In. intros [_ H]. rewrite label_eqb_refl in H.
    discriminate.
  - apply NoDup_filter. exact IH.
Qed.

Lemma strings_before_from_none (u : list label) :
  strings_before u ++ from_none u = u.
Proof.
  induction u as [|[s|] u IH]; simpl; [reflexivity | | reflexivity].
  f_equal. exact IH.
Qed.

Lemma failed_sort_In (c : label) (u : list label) :
  In c (failed_sort u) <-> In c u.
Proof.
  unfold failed_sort.
  destruct (ascending (strings_before u) || descending (strings_before u));
    [reflexivity |].
  rewrite <- (strings_before_from_none u) at 3.
  rewrite !in_app_iff, (sort_unique_In label_compare label_compare_eq).
  reflexivity.
Qed.

Lemma NoDup_app_disjoint {A : Type} (l l' : list A) (x : A) :
  NoDup (l ++ l') -> In x l -> ~ In x l'.
Proof.
  induction l as [|a l IH]; simpl; intros H Hx; [destruct Hx |].
  inversion H as [|b k Ha Hk]; subst. destruct Hx as [-> | Hx].
  - intro Hin. apply Ha. apply in_app_iff. right. exact Hin.
  - apply IH; assumption.
Qed.

Lemma failed_sort_NoDup (u : list label) : NoDup u -> NoDup (failed_sort u).
Proof.
  intro H. unfold failed_sort.
  destruct (ascending (strings_before u) || descending (strings_before u));
    [exact H |].
  rewrite <- (strings_before_from_none u) in H.
  apply NoDup_app.
  - apply (sort_unique_NoDup label_compare label_compare_eq
             label_compare_antisym label_compare_trans).
  - apply NoDup_app_remove_l in H. exact H.
  - intros x Hx. apply (@NoDup_app_disjoint _ _ _ x H).
    rewrite (sort_unique_In label_compare label_compare_eq) in Hx. exact Hx.
Qed.

Lemma union_columns_In (pandas : Pandas) (c : label) (labels : list label) :
  In c (union_columns pandas labels) <-> In c labels.
Proof.
  destruct pandas; cbn [union_columns].
  - destruct (forallb is_string (first_seen labels)).
    + rewrite (sort_unique_In label_compare label_compare_eq).
      apply first_seen_In.
    + rewrite failed_sort_In. apply first_seen_In.
  - apply (sort_unique_In label_compare label_compare_eq).
Qed.

Lemma union_columns_NoDup (pandas : Pandas) (labels : list label) :
  NoDup (union_columns pandas labels).
Proof.
  destruct pandas; cbn [union_columns].
  - destruct (forallb is_string (first_seen labels)).
    + apply (sort_unique_NoDup label_compare label_compare_eq
               label_compare_antisym label_compare_trans).
    + apply failed_sort_NoDup, first_seen_NoDup.
  - apply (sort_unique_NoDup label_compare label_compare_eq
             label_compare_antisym label_compare_trans).
Qed.




(** ** Ranges *)

Lemma zrange_In lo hi m : In m (zrange lo hi) <-> lo <= m <= hi.
Proof.
  unfold zrange. rewrite in_map_iff. split.
  - intros [k [<- Hk]]. apply in_seq in Hk. lia.
  - intro H. exists (Z.to_nat (m - lo)). split; [lia |].
    apply in_seq. lia.
Qed.

Lemma zrange_nil lo hi : hi < lo -> zrange lo hi = [].
Proof.
  intro H. unfold zrange. replace (Z.to_nat (hi - lo + 1)) with 0%nat by lia.
  reflexivity.
Qed.

Lemma zrange_cons lo hi : lo <= hi -> zrange lo hi = lo :: zrange (lo + 1) hi.
Proof.
  intro H. unfold zrange.
  replace (Z.to_nat (hi - lo + 1)) with (S (Z.to_nat (hi - (lo + 1) + 1)))
    by lia.
  simpl. f_equal; [lia |].
  rewrite <- seq_shift, map_map. apply map_ext. intro k. lia.
Qed.

Lemma zrange_NoDup lo hi : NoDup (zrange lo hi).
Proof.
  unfold zrange. apply Injective_map_NoDup; [| apply seq_NoDup].
  intros a b. lia.
Qed.

Lemma zrange_count lo hi m :
  length (filter (fun x => x =? m) (zrange lo hi))
  = if (lo <=? m) && (m <=? hi) then 1%nat else 0%nat.
Proof.
  remember (Z.to_nat (hi - lo + 1)) as n eqn:En.
  revert lo En. induction n as [|n IH]; intros lo En.
  - rewrite zrange_nil by lia.
    destruct (lo <=? m) eqn:E1, (m <=? hi) eqn:E2; simpl; try reflexivity.
    lia.
  - rewrite zrange_cons by lia. cbn [filter].
    destruct (lo =? m) eqn:E0; cbn [length]; rewrite (IH (lo + 1)) by lia;
      destruct (lo <=? m) eqn:E1, (m <=? hi) eqn:E2, (lo + 1 <=? m) eqn:E3;
      simpl; try reflexivity; lia.
Qed.

(** ** Looking up rows and columns *)

Lemma has_column_In c cols : has_column c cols = true <-> In c cols.
Proof.
  unfold has_column. rewrite existsb_exists. split.
  - intros [x [Hx E]]. apply label_eqb_eq in E. subst x. exact Hx.
  - intro H. exists c. split; [exact H | apply label_eqb_refl].
Qed.

Lemma positions_from c cols s :
  In c cols ->
  exists j rest,
    map fst (filter (fun p => label_eqb c (snd p))
                    (combine (seq s (length cols)) cols))
    = (s + j)%nat :: rest
    /\ nth_error cols j = Some c
    /\ (forall i, (i < j)%nat -> nth_error cols i <> Some c).
Proof.
  revert s. induction cols as [|d cols IH]; intros s Hin; [destruct Hin |].
  simpl. destruct (label_eqb c d) eqn:E.
  - apply label_eqb_eq in E. subst d. exists 0%nat. eexists.
    simpl. rewrite Nat.add_0_r. split; [reflexivity |]. split; [reflexivity |].
    intros i Hi. lia.
  - destruct Hin as [Hd|Hin].
    + subst d. rewrite label_eqb_refl in E. discriminate.
    + destruct (IH (S s) Hin) as [j [rest [H1 [H2 H3]]]].
      exists (S j), rest. split; [rewrite H1; f_equal; lia |].
      split; [exact H2 |].
      intros [|i] Hi; simpl.
      * intro H. inversion H. subst d. rewrite label_eqb_refl in E.
        discriminate.
      * apply H3. lia.
Qed.

Lemma positions_In c cols :
  In c cols ->
  exists j rest, positions c cols = j :: rest /\ nth_error cols j = Some c.
Proof.
  intro H. destruct (@positions_from c cols 0%nat H) as [j [rest [H1 [H2 _]]]].
  exists j, rest. split; assumption.
Qed.

Lemma positions_not_In c cols : ~ In c cols -> positions c cols = [].
Proof.
  intro H. unfold positions.
  replace (filter _ _) with (@nil (nat * label)); [reflexivity |].
  symmetry. generalize 0%nat as s.
  induction cols as [|d cols IH]; intro s; simpl; [reflexivity |].
  destruct (label_eqb c d) eqn:E.
  - apply label_eqb_eq in E. subst d. exfalso. apply H. left. reflexivity.
  - apply IH. intro Hc. apply H. right. exact Hc.
Qed.

Lemma find_combine_map {B : Type} (F : Z -> B) (bins : list Z) (m : Z) :
  In m bins ->
  find (fun r => fst r =? m) (combine bins (map F bins)) = Some (m, F m).
Proof.
  induction bins as [|b bins IH]; intro H; [destruct H |].
  simpl. destruct (b =? m) eqn:E.
  - apply Z.eqb_eq in E. subst b. reflexivity.
  - destruct H as [H|H]; [subst b; rewrite Z.eqb_refl in E; discriminate |].
    apply IH. exact H.
Qed.

(** A cell of a resampled table is the aggregate of the cells of that period
    and column. *)
Lemma resample_agg_cell_at {A B : Type} (period_of : Z -> Z)
    (agg : list (option A) -> B) (df : DataFrame (option A)) m c :
  In m (index (resample_agg period_of agg df)) ->
  In c (columns df) ->
  exists j, nth_error (columns df) j = Some c
    /\ cell_at (resample_agg period_of agg df) m c
       = Some (agg (cells_in period_of df m j)).
Proof.
  intros Hm Hc. destruct (@positions_In c _ Hc) as [j [rest [Hp Hj]]].
  exists j. split; [exact Hj |].
  unfold resample_agg in *.
  destruct (map period_of (index df)) as [|p ps]; [destruct Hm |].
  cbn [index] in Hm. unfold cell_at, row_at. cbn [index values columns].
  rewrite (find_combine_map _ _ _ Hm). cbn [option_map snd]. rewrite Hp.
  rewrite nth_error_map.
  assert (Hlt : (j < length (columns df))%nat).
  { apply nth_error_Some. congruence. }
  rewrite nth_error_seq.
  destruct (Nat.ltb_spec j (length (columns df))); [reflexivity | lia].
Qed.

(** ** breakdown_by_month *)

Lemma agg_count_app {A : Type} (l l' : list (option A)) :
  agg_count (l ++ l') = agg_count l + agg_count l'.
Proof.
  unfold agg_count. rewrite filter_app, length_app. lia.
Qed.

Lemma combine_map_const {A B : Type} (r : B) (l : list A) :
  combine l (map (fun _ => r) l) = map (fun x => (x, r)) l.
Proof.
  induction l as [|a l IH]; simpl; [reflexivity |]. rewrite IH. reflexivity.
Qed.

Lemma filter_map_comm {A B : Type} (f : B -> bool) (g : A -> B)
    (l : list A) :
  filter f (map g l) = map g (filter (fun x => f (g x)) l).
Proof.
  induction l as [|a l IH]; simpl; [reflexivity |].
  destruct (f (g a)); simpl; rewrite IH; reflexivity.
Qed.

Lemma filter_none {A : Type} (f : A -> bool) (l : list A) :
  (forall x, In x l -> f x = false) -> filter f l = [].
Proof.
  induction l as [|a l IH]; intro H; simpl; [reflexivity |].
  rewrite (H a (or_introl eq_refl)). apply IH. intros x Hx. apply H.
  right. exact Hx.
Qed.

Lemma reindex_row_single {A : Type} (c d : label) (cols : list label)
    (x : option A) (j : nat) :
  nth_error cols j = Some c ->
  nth j (reindex_row [d] cols [x]) None = if label_eqb c d then x else None.
Proof.
  intro H. unfold reindex_row. apply nth_error_nth.
  rewrite nth_error_map, H. cbn [option_map]. f_equal.
  unfold positions. simpl. destruct (label_eqb c d); reflexivity.
Qed.

Lemma agg_count_const {A : Type} {B : Type} (v : option A) (l : list B) :
  agg_count (map (fun _ => v) l)
  = match v with Some _ => Z.of_nat (length l) | None => 0 end.
Proof.
  unfold agg_count. destruct v as [a|].
  - f_equal. induction l as [|b l IH]; simpl; congruence.
  - induction l as [|b l IH]; simpl; [reflexivity | exact IH].
Qed.

Lemma ByMonth_item_cells today t cols m j c :
  nth_error cols j = Some c ->
  agg_count
    (map (fun r => nth j (snd r) None)
       (filter (fun r => fst r =? m)
          (combine (index (ByMonth.build_df today t))
             (map (reindex_row (columns (ByMonth.build_df today t)) cols)
                  (values (ByMonth.build_df today t))))))
  = if label_eqb c (category t) && spans today t m then 1 else 0.
Proof.
  intro Hj. unfold ByMonth.build_df. cbn [index columns values].
  unfold date_range_MS. rewrite map_map, combine_map_const.
  rewrite filter_map_comm, map_map. cbn [fst snd].
  rewrite agg_count_const. erewrite reindex_row_single by exact Hj.
  rewrite zrange_count. unfold spans.
  destruct (label_eqb c (category t)); simpl; [| reflexivity].
  destruct ((first_month t <=? m) && (m <=? last_month today t));
    reflexivity.
Qed.

Lemma active_count_cons today t df m c :
  active_count today (t :: df) m c
  = (if label_eqb c (category t) && spans today t m then 1 else 0)
    + active_count today df m c.
Proof.
  unfold active_count. simpl.
  destruct (label_eqb c (category t) && spans today t m); simpl length; lia.
Qed.

Lemma ByMonth_cells today cols m j c df :
  nth_error cols j = Some c ->
  agg_count
    (map (fun r => nth j (snd r) None)
       (filter (fun r => fst r =? m)
          (flat_map (fun f => combine (index f)
                                (map (reindex_row (columns f) cols)
                                     (values f)))
                    (map (ByMonth.build_df today) df))))
  = active_count today df m c.
Proof.
  intro Hj. induction df as [|t df IH].
  - reflexivity.
  - cbn [map flat_map]. rewrite filter_app, map_app, agg_count_app, IH.
    erewrite ByMonth_item_cells by exact Hj. rewrite active_count_cons.
    reflexivity.
Qed.

Lemma ByMonth_index today df m :
  In m (flat_map (@index _) (map (ByMonth.build_df today) df))
  <-> exists t, In t df /\ first_month t <= m <= last_month today t.
Proof.
  rewrite flat_map_map, in_flat_map. cbn [ByMonth.build_df index].
  unfold date_range_MS. split; intros [t [Ht H]]; exists t; split; auto;
    apply zrange_In; exact H.
Qed.

Lemma ByMonth_columns today df :
  flat_map (@columns _) (map (ByMonth.build_df today) df) = map category df.
Proof.
  rewrite flat_map_map. cbn [ByMonth.build_df columns].
  apply flat_map_singleton.
Qed.

Lemma zrange_Sorted lo hi : Sorted Z.lt (zrange lo hi).
Proof.
  remember (Z.to_nat (hi - lo + 1)) as n eqn:En.
  revert lo En. induction n as [|n IH]; intros lo En.
  - rewrite zrange_nil by lia. constructor.
  - rewrite zrange_cons by lia. constructor; [apply IH; lia |].
    destruct n as [|n].
    + rewrite zrange_nil by lia. constructor.
    + rewrite zrange_cons by lia. constructor. lia.
Qed.

(** The table of [breakdown_by_month], told with the months of the model. *)
Lemma breakdown_by_month_on_table (pandas : Pandas) (today : Timestamp)
    (df : list Item) :
  df <> [] ->
  Forall (fun t => first_month t <= last_month today t) df ->
  exists table lo hi,
    breakdown_by_month_on pandas today df = Ok table
    /\ (exists t, In t df /\ first_month t = lo)
    /\ (forall t, In t df -> lo <= first_month t)
    /\ (exists t, In t df /\ last_month today t = hi)
    /\ (forall t, In t df -> last_month today t <= hi)
    /\ index table = zrange lo hi
    /\ columns table = union_columns pandas (map category df)
    /\ (forall m c, In m (index table) -> In c (columns table) ->
          cell_at table m c = Some (active_count today df m c)).
Proof.
  intros Hne Hspan. rewrite Forall_forall in Hspan.
  pose proof (ByMonth_index today df) as Hidx.
  pose proof (ByMonth_columns today df) as Hcols.
  unfold breakdown_by_month_on.
  destruct (concat_on pandas (map (ByMonth.build_df today) df))
    as [cdf|e] eqn:Ec;
    [| destruct df; [congruence | discriminate]].
  assert (Hc : cdf = mkDataFrame
             (flat_map (@index _) (map (ByMonth.build_df today) df))
             (union_columns pandas (map category df))
             (flat_map (fun f => map (reindex_row (columns f)
                          (union_columns pandas (map category df)))
                          (values f))
                       (map (ByMonth.build_df today) df))).
  { destruct df as [|t df]; [congruence |].
    rewrite <- Hcols. remember (map (ByMonth.build_df today) (t :: df)) as fs.
    destruct fs; [discriminate |]. unfold concat_on in Ec.
    injection Ec as <-. reflexivity. }
  cbn [bind].
  remember (flat_map (@index _) (map (ByMonth.build_df today) df)) as I eqn:EI.
  assert (Hfirst : forall t, In t df -> In (first_month t) I).
  { intros t Ht. apply Hidx. exists t. specialize (Hspan t Ht). simpl in Hspan.
    split; [exact Ht | lia]. }
  assert (Hlast : forall t, In t df -> In (last_month today t) I).
  { intros t Ht. apply Hidx. exists t. specialize (Hspan t Ht). simpl in Hspan.
    split; [exact Ht | lia]. }
  destruct I as [|p ps].
  { destruct df as [|t df]; [congruence |].
    destruct (Hfirst t (or_introl eq_refl)). }
  destruct (fold_min_spec p ps) as [Hmin_in Hmin_le].
  destruct (fold_max_spec p ps) as [Hmax_in Hmax_le].
  set (lo := fold_right Z.min p ps) in *.
  set (hi := fold_right Z.max p ps) in *.
  assert (Hres : index (resample_agg (fun m => m) agg_count cdf)
                 = zrange lo hi).
  { unfold resample_agg. rewrite map_id. rewrite Hc. cbn [index]. reflexivity. }
  assert (Hrc : columns (resample_agg (fun m => m) agg_count cdf)
                = union_columns pandas (map category df)).
  { unfold resample_agg. rewrite map_id. rewrite Hc. cbn [index columns].
    reflexivity. }
  assert (Hcell : forall m c,
             In m (index (resample_agg (fun m => m) agg_count cdf)) ->
             In c (columns (resample_agg (fun m => m) agg_count cdf)) ->
             cell_at (resample_agg (fun m => m) agg_count cdf) m c
             = Some (active_count today df m c)).
  { intros m c Hm Hcc. rewrite Hrc in Hcc.
    assert (Hcc' : In c (columns cdf)) by (rewrite Hc; exact Hcc).
    destruct (@resample_agg_cell_at _ _ (fun m => m) agg_count cdf m c Hm Hcc')
      as [j [Hj Hcell]].
    rewrite Hcell. f_equal. unfold cells_in. rewrite Hc in Hj |- *.
    cbn [index columns values] in Hj |- *.
    rewrite EI, combine_flat_map.
    - apply ByMonth_cells. exact Hj.
    - apply Forall_forall. intros f Hf. apply in_map_iff in Hf.
      destruct Hf as [t [<- _]]. rewrite length_map.
      apply ByMonth_build_df_length. }
  exists (resample_agg (fun m => m) agg_count cdf), lo, hi.
  split; [reflexivity |].
  split.
  { apply Hidx in Hmin_in. destruct Hmin_in as [t [Ht Hb]]. exists t.
    split; [exact Ht |]. specialize (Hmin_le _ (Hfirst t Ht)). lia. }
  split; [intros t Ht; apply Hmin_le, Hfirst, Ht |].
  split.
  { apply Hidx in Hmax_in. destruct Hmax_in as [t [Ht Hb]]. exists t.
    split; [exact Ht |]. specialize (Hmax_le _ (Hlast t Ht)). lia. }
  split; [intros t Ht; apply Hmax_le, Hlast, Ht |].
  split; [exact Hres |].
  split; [exact Hrc |].
  exact Hcell.
Qed.

(** C1 (as amended). Write [month_of t] for the number of the calendar month
    of a timestamp (months counted from January 1970), [first t] for the
    month of the start of an item and [last t] for the month of its end, or
    of today when it has no end.  For a non-empty list of items, each
    starting no later than the month of its end (or of today when it has no
    end), [breakdown_by_month] returns a table, with any pandas,
    whose index is every month from the earliest [first] to the latest
    [last], in ascending order, each once and without a gap; whose columns
    are the categories of the items, each once; and whose cell for month [m]
    and category [c] is the number of items of category [c] with
    [first t <= m <= last t].  A cell no item contributes to is 0. *)
Theorem breakdown_by_month_table (pandas : Pandas) (today : Timestamp)
    (df : list Item) :
  let month_of (t : Timestamp) := (year t - 1970) * 12 + (month t - 1) in
  let first (t : Item) := month_of (start_date t) in
  let last (t : Item) :=
    month_of (match end_date t with Some e => e | None => today end) in
  df <> [] ->
  (forall t, In t df -> first t <= last t) ->
  exists table lo hi,
    breakdown_by_month_on pandas today df = Ok table
    /\ (exists t, In t df /\ first t = lo)
    /\ (forall t, In t df -> lo <= first t)
    /\ (exists t, In t df /\ last t = hi)
    /\ (forall t, In t df -> last t <= hi)
    /\ Sorted Z.lt (index table)
    /\ (forall m, In m (index table) <-> lo <= m <= hi)
    /\ NoDup (columns table)
    /\ (forall c, In c (columns table) <-> exists t, In t df /\ category t = c)
    /\ (forall m c, In m (index table) -> In c (columns table) ->
          cell_at table m c
          = Some (Z.of_nat
                    (length
                       (filter (fun t => label_eqb c (category t)
                                         && ((first t <=? m)
                                             && (m <=? last t)))
                               df))))
    /\ (forall m c, In m (index table) -> In c (columns table) ->
          (forall t, In t df -> category t = c ->
                     ~ (first t <= m <= last t)) ->
          cell_at table m c = Some 0).
Proof.
  intros month_of first last Hne Hspan.
  assert (Efirst : forall t, first_month t = first t) by reflexivity.
  assert (Elast : forall t, last_month today t = last t).
  { intro t. unfold last_month, effective_end, last.
    destruct (end_date t); reflexivity. }
  destruct (@breakdown_by_month_on_table pandas today df Hne)
    as [table [lo [hi [Et [Hlo1 [Hlo2 [Hhi1 [Hhi2 [Hidx [Hcols Hcell]]]]]]]]]].
  { apply Forall_forall. intros t Ht. rewrite Efirst, Elast.
    apply Hspan. exact Ht. }
  exists table, lo, hi.
  split; [exact Et |].
  split; [destruct Hlo1 as [t [Ht E]]; exists t; split; [exact Ht | exact E] |].
  split; [exact Hlo2 |].
  split.
  { destruct Hhi1 as [t [Ht E]]. exists t. split; [exact Ht |].
    rewrite <- Elast. exact E. }
  split; [intros t Ht; rewrite <- Elast; apply Hhi2; exact Ht |].
  split; [rewrite Hidx; apply zrange_Sorted |].
  split; [intro m; rewrite Hidx; apply zrange_In |].
  split; [rewrite Hcols; apply union_columns_NoDup |].
  split.
  { intro c. rewrite Hcols, union_columns_In, in_map_iff.
    split; intros [t [H1 H2]]; exists t; split; assumption. }
  assert (Hcount : forall m c,
             active_count today df m c
             = Z.of_nat
                 (length
                    (filter (fun t => label_eqb c (category t)
                                      && ((first t <=? m) && (m <=? last t)))
                            df))).
  { intros m c. reflexivity. }
  split.
  { intros m c Hm Hc. rewrite (Hcell m c Hm Hc), Hcount. reflexivity. }
  intros m c Hm Hc Hnone. rewrite (Hcell m c Hm Hc), Hcount. f_equal.
  rewrite filter_none; [reflexivity |].
  intros t Ht. destruct (label_eqb c (category t)) eqn:E; [| reflexivity].
  apply label_eqb_eq in E. cbn [andb].
  destruct (Z.leb_spec (first t) m); [| reflexivity].
  destruct (Z.leb_spec m (last t)); [| reflexivity].
  exfalso. apply (Hnone t Ht); [congruence | lia].
Qed.

(** ** breakdown_by_month_sum_days *)

Lemma zrange_one p : zrange p p = [p].
Proof.
  rewrite zrange_cons by lia. rewrite zrange_nil by lia. reflexivity.
Qed.










(** ** filter_by_threshold *)

Lemma truthy_Some thr : ~ (thr == 0)%Q -> truthy (Some thr) = Some thr.
Proof.
  intro H. unfold truthy. destruct (Qeq_bool thr 0) eqn:E; [| reflexivity].
  apply Qeq_bool_iff in E. contradiction.
Qed.

Lemma length_all_below df total thr :
  length (all_below df total thr) = length (columns df).
Proof. unfold all_below. rewrite length_map, length_seq. reflexivity. Qed.

Lemma combine_map_r {A B : Type} (g : A -> B) (l : list A) :
  combine l (map g l) = map (fun x => (x, g x)) l.
Proof.
  induction l as [|a l IH]; simpl; [reflexivity |]. rewrite IH. reflexivity.
Qed.

Lemma select_mask_app {A : Type} (m m' : list bool) (l l' : list A) :
  length m = length l ->
  select_mask (m ++ m') (l ++ l') = select_mask m l ++ select_mask m' l'.
Proof.
  intro H. unfold select_mask.
  rewrite combine_app_eq by exact H. rewrite filter_app, map_app.
  reflexivity.
Qed.

Lemma nth_error_combine {A B : Type} (l : list A) (k : list B) (j : nat) :
  nth_error (combine l k) j
  = match nth_error l j, nth_error k j with
    | Some a, Some b => Some (a, b)
    | _, _ => None
    end.
Proof.
  revert k j. induction l as [|a l IH]; intros [|b k] [|j]; simpl;
    try reflexivity.
  - destruct (nth_error l j); reflexivity.
  - apply IH.
Qed.

Lemma select_mask_In {A : Type} (m : list bool) (l : list A) j x :
  nth_error m j = Some true -> nth_error l j = Some x ->
  In x (select_mask m l).
Proof.
  intros Hm Hl. unfold select_mask. apply in_map_iff. exists (true, x).
  split; [reflexivity |]. apply filter_In. split; [| reflexivity].
  apply nth_error_In with j. rewrite nth_error_combine, Hm, Hl. reflexivity.
Qed.

Lemma select_mask_all {A : Type} (l : list A) :
  select_mask (repeat true (length l)) l = l.
Proof.
  unfold select_mask. induction l as [|a l IH]; simpl; [reflexivity |].
  f_equal. exact IH.
Qed.

Lemma select_mask_none {A : Type} (l : list A) (n : nat) :
  select_mask (repeat false n) l = [].
Proof.
  unfold select_mask. revert l. induction n as [|n IH]; intros [|a l]; simpl;
    try reflexivity. apply IH.
Qed.

Lemma nth_all_below df total thr j :
  (j < length (columns df))%nat ->
  nth j (all_below df total thr) false = qualifies df total thr j.
Proof.
  intro H. unfold all_below. apply nth_error_nth.
  rewrite nth_error_map, nth_error_seq.
  destruct (Nat.ltb_spec j (length (columns df))); [reflexivity | lia].
Qed.

(** What [filter_by_threshold] returns for a table without a column already
    named "Others". *)
Lemma filter_by_threshold_fresh df thr row1 :
  wf_frame df -> ~ (thr == 0)%Q -> ~ In Others (columns df) ->
  nth_error (values df) 1 = Some row1 ->
  let mask := all_below df (sum_row row1) thr in
  fst (filter_by_threshold df (Some thr))
  = Ok (mkDataFrame (index df)
          (select_mask (map negb mask) (columns df) ++ [Others])
          (map (fun row => select_mask (map negb mask) row
                           ++ [sum_row (select_mask mask row)])
               (values df))).
Proof.
  intros [Hrows Hwf] Hthr Hfresh Hrow1 mask. unfold filter_by_threshold.
  rewrite truthy_Some by exact Hthr.
  rewrite nth_error_map, Hrow1. cbn [option_map fst].
  fold mask. unfold set_column, set_mask.
  destruct (has_column Others (columns df)) eqn:E.
  { apply has_column_In in E. contradiction. }
  cbn [index columns values]. f_equal. f_equal.
  - rewrite map_app. cbn [map negb].
    rewrite select_mask_app
      by (rewrite length_map; apply length_all_below).
    reflexivity.
  - rewrite combine_map_r, !map_map. apply map_ext_in. intros row Hrow.
    cbn [fst snd]. rewrite map_app. cbn [map negb].
    rewrite select_mask_app; [reflexivity |].
    rewrite length_map. unfold mask. rewrite length_all_below.
    rewrite Forall_forall in Hwf. symmetry. apply Hwf. exact Hrow.
Qed.

(** C4 (as amended). For a table of counts with at least two rows, no column
    named "Others" and a non-zero threshold.  The share of a cell is its
    value times 100.0 divided by the total of the second row, computed in
    double precision; a column is collapsed exactly when that share is below
    the threshold (as a double) in every row.  The columns that are not
    collapsed stay in their order, followed by "Others", which holds for
    each row the sum of the collapsed cells. *)
Theorem filter_by_threshold_collapses (df : DataFrame Z) (thr : Q)
    (row1 : list Z) :
  wf_frame df -> int64_sums df -> ~ (thr == 0)%Q ->
  ~ In Others (columns df) ->
  nth_error (values df) 1 = Some row1 ->
  let total1 := fold_right Z.add 0 row1 in
  let share (v : Z) :=
    SFdiv 53 1024
      (SFmul 53 1024 (Float64.of_int v) (Float64.of_int 100))
      (Float64.of_int total1) in
  let collapsed (j : nat) :=
    forallb (fun row => SFltb (share (nth j row 0)) (Float64.of_Q thr))
            (values df) in
  let mask := map collapsed (seq 0 (length (columns df))) in
  fst (filter_by_threshold df (Some thr))
  = Ok (mkDataFrame (index df)
          (select_mask (map negb mask) (columns df) ++ [Others])
          (map (fun row => select_mask (map negb mask) row
                           ++ [fold_right Z.add 0 (select_mask mask row)])
               (values df)))
  /\ (forall j, (j < length (columns df))%nat ->
        (nth j mask false = true
         <-> forall row, In row (values df) ->
               SFltb (share (nth j row 0)) (Float64.of_Q thr) = true)).
Proof.
  intros Hwf _ Hthr Hfresh Hrow1 total1 share collapsed mask. split.
  - apply filter_by_threshold_fresh; assumption.
  - intros j Hj.
    change mask with (all_below df (sum_row row1) thr).
    rewrite nth_all_below by exact Hj.
    unfold qualifies. apply forallb_forall.
Qed.

Lemma set_column_values {A : Type} (c : label) (g : list A -> A)
    (df : DataFrame A) :
  values (set_column c (map g (values df)) df)
  = if has_column c (columns df)
    then map (fun row =>
                map (fun lx => if label_eqb c (fst lx) then g row else snd lx)
                    (combine (columns df) row))
             (values df)
    else map (fun row => row ++ [g row]) (values df).
Proof.
  unfold set_column.
  destruct (has_column c (columns df)); cbn [values];
    rewrite combine_map_r, map_map; reflexivity.
Qed.

Lemma set_column_index {A : Type} (c : label) (col : list A)
    (df : DataFrame A) : index (set_column c col df) = index df.
Proof.
  unfold set_column. destruct (has_column c (columns df)); reflexivity.
Qed.

Lemma set_column_In {A : Type} (c : label) (col : list A) (df : DataFrame A) :
  In c (columns (set_column c col df)).
Proof.
  unfold set_column. destruct (has_column c (columns df)) eqn:E; cbn [columns].
  - apply has_column_In. exact E.
  - apply in_app_iff. right. left. reflexivity.
Qed.

Lemma set_column_row_length {A : Type} (c : label) (g : list A -> A)
    (df : DataFrame A) :
  wf_frame df ->
  Forall (fun row => length row
                     = length (columns (set_column c (map g (values df)) df)))
         (values (set_column c (map g (values df)) df)).
Proof.
  intros [_ Hwf]. rewrite set_column_values. unfold set_column.
  rewrite Forall_forall in *.
  destruct (has_column c (columns df)); cbn [columns]; intros row Hrow;
    apply in_map_iff in Hrow; destruct Hrow as [r [<- Hr]].
  - rewrite length_map, length_combine, (Hwf r Hr). lia.
  - rewrite !length_app, (Hwf r Hr). reflexivity.
Qed.

(** After [mask[c] = b] the mask has an entry for each column of the frame
    after [df[c] = col], and the entries of the columns labelled [c] are
    [b]. *)
Lemma set_mask_at {A : Type} (c : label) (b : bool) (col : list A)
    (df : DataFrame A) (mask : list bool) (j : nat) :
  length mask = length (columns df) ->
  nth_error (columns (set_column c col df)) j = Some c ->
  nth_error (set_mask c b (columns df) mask) j = Some b.
Proof.
  intros Hlen Hj. unfold set_column in Hj. unfold set_mask.
  destruct (has_column c (columns df)) eqn:E; cbn [columns] in Hj.
  - rewrite nth_error_map, nth_error_combine, Hj.
    destruct (nth_error mask j) eqn:Em.
    + cbn [option_map fst]. rewrite label_eqb_refl. reflexivity.
    + apply nth_error_None in Em.
      assert (j < length (columns df))%nat
        by (apply nth_error_Some; congruence). lia.
  - assert (Hnot : ~ In c (columns df)).
    { intro H. apply has_column_In in H. congruence. }
    destruct (Nat.lt_ge_cases j (length (columns df))) as [Hlt|Hge].
    + rewrite nth_error_app1 in Hj by exact Hlt.
      exfalso. apply Hnot. apply nth_error_In with j. exact Hj.
    + rewrite nth_error_app2 in Hj |- * by lia.
      rewrite Hlen. destruct (j - length (columns df))%nat as [|k];
        [reflexivity |].
      simpl in Hj. rewrite nth_error_nil in Hj. discriminate.
Qed.

Lemma all_below_none df total thr :
  (forall j, (j < length (columns df))%nat ->
             qualifies df total thr j = false) ->
  all_below df total thr = repeat false (length (columns df)).
Proof.
  intro H. unfold all_below.
  rewrite <- (length_seq (length (columns df)) 0) at 2.
  rewrite <- map_const. apply map_ext_in. intros j Hj. apply H.
  apply in_seq in Hj. lia.
Qed.

Lemma set_mask_none {A : Type} (c : label) (col : list A)
    (df : DataFrame A) :
  set_mask c false (columns df) (repeat false (length (columns df)))
  = repeat false (length (columns (set_column c col df))).
Proof.
  unfold set_mask, set_column.
  destruct (has_column c (columns df)); cbn [columns].
  - induction (columns df) as [|d cols IH]; simpl; [reflexivity |].
    rewrite IH. destruct (label_eqb c d); reflexivity.
  - rewrite length_app. cbn [length]. rewrite repeat_app. reflexivity.
Qed.

Lemma map_negb_repeat n : map negb (repeat false n) = repeat true n.
Proof.
  induction n as [|n IH]; simpl; [reflexivity |]. f_equal. exact IH.
Qed.

(** The cells written by [df[c] = col] when every member of [col] is [v]. *)
Lemma set_column_const_cell {A : Type} (c : label) (v : A)
    (df : DataFrame A) (row : list A) (j : nat) :
  wf_frame df ->
  In row (values (set_column c (map (fun _ => v) (values df)) df)) ->
  nth_error (columns (set_column c (map (fun _ => v) (values df)) df)) j
  = Some c ->
  nth_error row j = Some v.
Proof.
  intros [_ Hwf] Hrow Hj. rewrite Forall_forall in Hwf.
  rewrite set_column_values in Hrow. unfold set_column in Hj.
  destruct (has_column c (columns df)) eqn:E; cbn [columns] in Hj;
    apply in_map_iff in Hrow; destruct Hrow as [r [<- Hr]];
    specialize (Hwf r Hr).
  - rewrite nth_error_map, nth_error_combine, Hj.
    destruct (nth_error r j) eqn:Er.
    + cbn [option_map fst]. rewrite label_eqb_refl. reflexivity.
    + apply nth_error_None in Er.
      assert (j < length (columns df))%nat
        by (apply nth_error_Some; congruence). lia.
  - assert (Hnot : ~ In c (columns df)).
    { intro H. apply has_column_In in H. congruence. }
    destruct (Nat.lt_ge_cases j (length (columns df))) as [Hlt|Hge].
    + rewrite nth_error_app1 in Hj by exact Hlt.
      exfalso. apply Hnot. apply nth_error_In with j. exact Hj.
    + rewrite nth_error_app2 in Hj |- * by lia.
      rewrite Hwf. destruct (j - length (columns df))%nat as [|k];
        [reflexivity |].
      simpl in Hj. rewrite nth_error_nil in Hj. discriminate.
Qed.

(** C10. For a table with at least two rows and a non-zero threshold, the
    table returned by [filter_by_threshold] has a column "Others" and as many
    rows as the table given (with the same index); when no column qualifies
    for collapsing, "Others" is 0 in every row. *)
Theorem filter_by_threshold_has_others (df : DataFrame Z) (thr : Q)
    (row1 : list Z) :
  wf_frame df -> ~ (thr == 0)%Q ->
  nth_error (values df) 1 = Some row1 ->
  exists out,
    fst (filter_by_threshold df (Some thr)) = Ok out
    /\ In Others (columns out)
    /\ index out = index df
    /\ length (values out) = length (values df)
    /\ ((forall j, (j < length (columns df))%nat ->
                   qualifies df (sum_row row1) thr j = false) ->
        forall row j, In row (values out) ->
                      nth_error (columns out) j = Some Others ->
                      nth_error row j = Some 0).
Proof.
  intros Hwf Hthr Hrow1. unfold filter_by_threshold.
  rewrite truthy_Some by exact Hthr.
  rewrite nth_error_map, Hrow1. cbn [option_map fst].
  set (mask := all_below df (sum_row row1) thr).
  set (g := fun row : list Z => sum_row (select_mask mask row)).
  change (map (fun row : list Z => sum_row (select_mask mask row)) (values df))
    with (map g (values df)).
  set (df' := set_column Others (map g (values df)) df).
  set (keep := map negb (set_mask Others false (columns df) mask)).
  eexists. split; [reflexivity |]. cbn [index columns values].
  split; [| split; [| split]].
  - destruct (In_nth_error _ _ (@set_column_In Z Others (map g (values df)) df))
      as [j Hj].
    apply select_mask_In with j; [| exact Hj].
    unfold keep. rewrite nth_error_map.
    rewrite (@set_mask_at Z Others false (map g (values df)) df mask j
               (length_all_below df _ thr) Hj).
    reflexivity.
  - apply set_column_index.
  - rewrite length_map. unfold df'. rewrite set_column_values.
    destruct (has_column Others (columns df)); apply length_map.
  - intros Hnone row j Hrow Hj.
    assert (Emask : mask = repeat false (length (columns df)))
      by (apply all_below_none; exact Hnone).
    assert (Eg : map g (values df) = map (fun _ => 0) (values df)).
    { apply map_ext. intro r. unfold g. rewrite Emask, select_mask_none.
      reflexivity. }
    assert (Ekeep : keep = repeat true (length (columns df'))).
    { unfold keep, df'. rewrite Emask.
      rewrite (@set_mask_none Z Others (map g (values df)) df).
      apply map_negb_repeat. }
    rewrite Ekeep, select_mask_all in Hj. rewrite Ekeep in Hrow.
    apply in_map_iff in Hrow. destruct Hrow as [r [<- Hr]].
    pose proof (@set_column_row_length Z Others g df Hwf) as Hlen.
    fold df' in Hlen. rewrite Forall_forall in Hlen.
    rewrite <- (Hlen r Hr), select_mask_all.
    unfold df' in Hr, Hj. rewrite Eg in Hr, Hj.
    exact (@set_column_const_cell Z Others 0 df r j Hwf Hr Hj).
Qed.

(** The table that already has a column "Others": this column is below the
    threshold in every row, yet it is kept, and it is not the last column of
    the result. *)
Lemma filter_by_threshold_others_not_last :
  qualifies table_others_b 100 50%Q 0 = true
  /\ fst (filter_by_threshold table_others_b (Some 50%Q))
     = Ok (mkDataFrame (index table_others_b) [Others; Some "b"%string]
             [[1; 99]; [1; 99]])
  /\ fst (filter_by_threshold table_others_b (Some 50%Q))
     <> Ok (mkDataFrame (index table_others_b) [Some "b"%string; Others]
              [[99; 1]; [99; 1]]).
Proof.
  split; [vm_compute; reflexivity |].
  split; [vm_compute; reflexivity |].
  vm_compute. discriminate.
Qed.

(** C5, at the table [table_ab] and the threshold 50: after the call the
    table that was given has a third column, "Others"; it is not the table it
    was before. *)
Lemma filter_by_threshold_changes_its_argument :
  snd (filter_by_threshold table_ab (Some 50%Q))
  = mkDataFrame (index table_ab)
      [Some "a"%string; Some "b"%string; Others] [[1; 99; 1]; [1; 99; 1]]
  /\ snd (filter_by_threshold table_ab (Some 50%Q)) <> table_ab.
Proof.
  split; [vm_compute; reflexivity | vm_compute; discriminate].
Qed.

(** The other filters are functions of their argument and have no way to
    change it; with a falsy threshold [filter_by_threshold] too leaves the
    table as it is. *)
Lemma filter_by_threshold_falsy_keeps_argument (df : DataFrame Z) :
  filter_by_threshold df None = (Ok df, df)
  /\ filter_by_threshold df (Some 0%Q) = (Ok df, df).
Proof. split; reflexivity. Qed.

(** ** No items *)

(** C2 (as amended). With no item at all both breakdowns raise the
    [ValueError] of [pd.concat]; no table is returned. *)
Theorem breakdown_of_no_items_raises (today : Timestamp) :
  breakdown_by_month today []
  = Raise (ValueError "No objects to concatenate")
  /\ breakdown_by_month_sum_days today []
     = Raise (ValueError "No objects to concatenate").
Proof. split; reflexivity. Qed.

(** Neither breakdown returns a table, empty or not, for no items. *)
Lemma breakdown_of_no_items_is_no_table :
  (forall table, breakdown_by_month (ts 2018 6 15) [] <> Ok table)
  /\ (forall table,
        breakdown_by_month_sum_days (ts 2018 6 15) [] <> Ok table).
Proof. split; intros table H; discriminate H. Qed.

(** ** NetFlowChartCalculator.run *)

Lemma str_in_In s l : str_in s l = true <-> In s l.
Proof.
  unfold str_in. rewrite existsb_exists. split.
  - intros [x [Hx E]]. apply String.eqb_eq in E. subst x. exact Hx.
  - intro H. exists s. split; [exact H | apply String.eqb_refl].
Qed.

Lemma str_in_not_In s l : ~ In s l -> str_in s l = false.
Proof.
  intro H. destruct (str_in s l) eqn:E; [| reflexivity].
  apply str_in_In in E. contradiction.
Qed.

(** C9. When the committed column or the done column is not the name of a
    step of the cycle, [run] logs one error, naming the column, and returns
    [None]; it does not raise.  The rest of the run is affected all the
    same: [write], which reads what [run] returned, has no check for [None],
    and with a chart file set it raises [AttributeError]; only without a
    chart file does it return. *)
Theorem net_flow_run_unknown_column (settings : Settings)
    (cfd_data : DataFrame Z) :
  ~ In (committed_column settings) (map name (cycle settings))
  \/ ~ In (done_column settings) (map name (cycle settings)) ->
  (~ In (committed_column settings) (map name (cycle settings)) ->
   NetFlowChartCalculator.run settings cfd_data
   = (Ok None,
      [mkLogRecord ERROR
         ("Committed column " ++ committed_column settings
          ++ " does not exist")]))
  /\ (In (committed_column settings) (map name (cycle settings)) ->
      NetFlowChartCalculator.run settings cfd_data
      = (Ok None,
         [mkLogRecord ERROR
            ("Done column " ++ done_column settings ++ " does not exist")]))
  /\ (forall (output_file : string) (window : option Z),
        output_file <> EmptyString ->
        exists chart_data,
          fst (NetFlowChartCalculator.run settings cfd_data) = Ok chart_data
          /\ fst (net_flow_write (Some output_file) window chart_data)
             = inl (AttributeError
                      "'NoneType' object has no attribute 'index'"))
  /\ (forall window : option Z,
        exists chart_data,
          fst (NetFlowChartCalculator.run settings cfd_data) = Ok chart_data
          /\ fst (net_flow_write None window chart_data) = inr None).
Proof.
  intro H.
  assert (Hc : ~ In (committed_column settings) (map name (cycle settings)) ->
               NetFlowChartCalculator.run settings cfd_data
               = (Ok None,
                  [mkLogRecord ERROR
                     ("Committed column " ++ committed_column settings
                      ++ " does not exist")])).
  { intro Hn. unfold NetFlowChartCalculator.run.
    rewrite (str_in_not_In _ _ Hn). reflexivity. }
  assert (Hd : In (committed_column settings) (map name (cycle settings)) ->
               NetFlowChartCalculator.run settings cfd_data
               = (Ok None,
                  [mkLogRecord ERROR
                     ("Done column " ++ done_column settings
                      ++ " does not exist")])).
  { intro Hin. destruct H as [H | H]; [contradiction |].
    unfold NetFlowChartCalculator.run.
    apply str_in_In in Hin. rewrite Hin. cbn [negb].
    rewrite (str_in_not_In _ _ H). reflexivity. }
  assert (Hrun : fst (NetFlowChartCalculator.run settings cfd_data)
                 = Ok None).
  { destruct (str_in (committed_column settings) (map name (cycle settings)))
      eqn:E.
    - apply str_in_In in E. rewrite (Hd E). reflexivity.
    - rewrite Hc; [reflexivity |]. intro Hin. apply str_in_In in Hin.
      congruence. }
  split; [exact Hc |]. split; [exact Hd |]. split.
  - intros output_file window Hfile. exists None. split; [exact Hrun |].
    destruct output_file; [congruence | reflexivity].
  - intro window. exists None. split; [exact Hrun | reflexivity].
Qed.

Lemma net_flow_run_unknown_column_witness :
  NetFlowChartCalculator.run misspelt_settings sample_cfd
  = (Ok None,
     [mkLogRecord ERROR "Committed column Comitted does not exist"]).
Proof.
  apply (@net_flow_run_unknown_column misspelt_settings sample_cfd).
  - left. vm_compute. intro H.
    repeat (destruct H as [H|H]; [discriminate H |]). exact H.
  - vm_compute. intro H.
    repeat (destruct H as [H|H]; [discriminate H |]). exact H.
Defined.

(** ** sort_colums_by_last_row *)

Section InsertionArgsort.

Variable before : Z -> Z -> bool.
Hypothesis before_true : forall a b, before a b = true -> a <= b.
Hypothesis before_false : forall a b, before a b = false -> b <= a.
Variable l : list Z.





End InsertionArgsort.





Lemma last_In {A : Type} (l : list A) (d : A) : l <> [] -> In (last l d) l.
Proof.
  induction l as [|a l IH]; intro H; [congruence |].
  destruct l as [|b l]; [left; reflexivity |].
  right. apply IH. discriminate.
Qed.








(** ** WasteCalculator.write *)

Lemma list_remove_NoDup x l :
  NoDup l -> In x l ->
  list_remove x l = Ok (filter (fun y => negb (String.eqb x y)) l).
Proof.
  induction 1 as [|y l Hy Hl IH]; intro Hin; [destruct Hin |].
  simpl. destruct (String.eqb_spec x y) as [E|E]; simpl.
  - subst y. f_equal. symmetry.
    rewrite <- (filter_ext_in (fun _ => true)).
    + clear. induction l as [|a l IH]; simpl; [reflexivity | f_equal; exact IH].
    + intros a Ha. destruct (String.eqb_spec x a); [| reflexivity].
      subst a. contradiction.
  - destruct Hin as [Hin|Hin]; [congruence |].
    rewrite (IH Hin). reflexivity.
Qed.

Lemma filter_filter {A : Type} (f g : A -> bool) (l : list A) :
  filter f (filter g l) = filter (fun x => g x && f x) l.
Proof.
  induction l as [|a l IH]; simpl; [reflexivity |].
  destruct (g a); simpl; [destruct (f a) |]; rewrite IH; reflexivity.
Qed.

Lemma resample_agg_columns {A B : Type} (period_of : Z -> Z)
    (agg : list (option A) -> B) (df : DataFrame (option A)) :
  columns (resample_agg period_of agg df) = columns df.
Proof.
  unfold resample_agg. destruct (map period_of (index df)); reflexivity.
Qed.

Lemma resample_agg_row_length {A B : Type} (period_of : Z -> Z)
    (agg : list (option A) -> B) (df : DataFrame (option A)) (row : list B) :
  In row (values (resample_agg period_of agg df)) ->
  length row = length (columns df).
Proof.
  unfold resample_agg. destruct (map period_of (index df)); cbn [values].
  - intros [].
  - intro H. apply in_map_iff in H. destruct H as [b [<- _]].
    rewrite length_map, length_seq. reflexivity.
Qed.

Lemma slice_from_In {A : Type} (s : Z) (l : list A) (x : A) :
  In x (slice_from s l) -> In x l.
Proof.
  unfold slice_from. intro H.
  rewrite <- (firstn_skipn (Z.to_nat
    (if s <? 0 then Z.max (Z.of_nat (length l) + s) 0
     else Z.min s (Z.of_nat (length l)))) l).
  apply in_app_iff. right. exact H.
Qed.

Lemma filter_by_window_columns {A : Type} (df : DataFrame A) window :
  columns (filter_by_window df window) = columns df.
Proof.
  unfold filter_by_window. destruct window as [w|]; [| reflexivity].
  destruct (w =? 0); reflexivity.
Qed.

Lemma filter_by_window_In {A : Type} (df : DataFrame A) window row :
  In row (values (filter_by_window df window)) -> In row (values df).
Proof.
  unfold filter_by_window. destruct window as [w|]; [| auto].
  destruct (w =? 0); [auto |]. cbn [values]. apply slice_from_In.
Qed.

Lemma pivot_table_columns chart_data stage :
  In (Some stage) (columns (WasteCalculator.pivot_table chart_data))
  <-> exists r, In r chart_data
                /\ WasteCalculator.last_status r = Some stage.
Proof.
  unfold WasteCalculator.pivot_table. cbn [columns].
  rewrite (sort_unique_In label_compare label_compare_eq), in_map_iff.
  split.
  - intros [r [E Hr]]. apply filter_In in Hr. exists r. tauto.
  - intros [r [Hr E]]. exists r. split; [exact E |].
    apply filter_In. split; [exact Hr |]. rewrite E. reflexivity.
Qed.

(** The cells of [df.reindex(labels, axis=1)] in a column [c]: NaN when the
    frame has no column [c], a value of the frame otherwise. *)
Lemma reindex_columns_cell {A : Type} (labels : list label)
    (df : DataFrame A) (row : list (option A)) (j : nat) (c : label) :
  Forall (fun r => length r = length (columns df)) (values df) ->
  In row (values (reindex_columns labels df)) ->
  nth_error labels j = Some c ->
  (~ In c (columns df) -> nth_error row j = Some None)
  /\ (In c (columns df) -> exists v, nth_error row j = Some (Some v)).
Proof.
  intros Hwf Hrow Hj. unfold reindex_columns in Hrow. cbn [values] in Hrow.
  apply in_map_iff in Hrow. destruct Hrow as [r [<- Hr]].
  rewrite Forall_forall in Hwf. specialize (Hwf r Hr).
  unfold reindex_row. rewrite nth_error_map, Hj. cbn [option_map]. split.
  - intro Hc. rewrite (@positions_not_In c _ Hc). reflexivity.
  - intro Hc. destruct (@positions_In c _ Hc) as [k [rest [Hp Hk]]].
    rewrite Hp.
    assert (Hlt : (k < length r)%nat).
    { rewrite Hwf. apply nth_error_Some. congruence. }
    destruct (nth_error r k) as [v|] eqn:Ev.
    + exists v. f_equal. apply nth_error_nth. rewrite nth_error_map, Ev.
      reflexivity.
    + apply nth_error_None in Ev. lia.
Qed.

(** C8 (as amended). When the names of the steps of the cycle are distinct
    and the backlog and done columns are two of them, the columns of the
    waste table are the names of the steps, in their order, without the
    backlog and the done column.  A step that no withdrawal has as its last
    status is a column in which every cell is NaN; a step that some
    withdrawal has as its last status is a column in which every cell is a
    number. *)
Theorem waste_breakdown_columns (settings : Settings)
    (chart_data : list WasteCalculator.Row) :
  NoDup (map name (cycle settings)) ->
  In (backlog_column settings) (map name (cycle settings)) ->
  In (done_column settings) (map name (cycle settings)) ->
  backlog_column settings <> done_column settings ->
  exists table,
    WasteCalculator.breakdown settings chart_data = Ok table
    /\ columns table
       = map Some
           (filter (fun n => negb (String.eqb (backlog_column settings) n)
                             && negb (String.eqb (done_column settings) n))
                   (map name (cycle settings)))
    /\ (forall stage row j,
          (forall r, In r chart_data ->
                     WasteCalculator.last_status r <> Some stage) ->
          In row (values table) ->
          nth_error (columns table) j = Some (Some stage) ->
          nth_error row j = Some None)
    /\ (forall stage row j,
          (exists r, In r chart_data
                     /\ WasteCalculator.last_status r = Some stage) ->
          In row (values table) ->
          nth_error (columns table) j = Some (Some stage) ->
          exists v, nth_error row j = Some (Some v)).
Proof.
  intros Hnd Hb Hd Hbd. unfold WasteCalculator.breakdown.
  rewrite (@list_remove_NoDup _ _ Hnd Hb). cbn [bind].
  rewrite list_remove_NoDup.
  2: { apply NoDup_filter. exact Hnd. }
  2: { apply filter_In. split; [exact Hd |].
       destruct (String.eqb_spec (backlog_column settings)
                   (done_column settings)); [contradiction | reflexivity]. }
  cbn [bind]. rewrite filter_filter.
  set (names := filter _ (map name (cycle settings))).
  set (R := resample_agg (waste_frequency settings) agg_sum
              (WasteCalculator.pivot_table chart_data)).
  eexists. split; [reflexivity |].
  rewrite filter_by_window_columns. cbn [columns reindex_columns].
  split; [reflexivity |].
  assert (Hwf : Forall (fun r => length r = length (columns R)) (values R)).
  { apply Forall_forall. intros r Hr. unfold R.
    rewrite resample_agg_columns.
    eapply resample_agg_row_length. exact Hr. }
  assert (HR : forall stage,
             In (Some stage) (columns R)
             <-> exists r, In r chart_data
                           /\ WasteCalculator.last_status r = Some stage).
  { intro stage. unfold R. rewrite resample_agg_columns.
    apply pivot_table_columns. }
  split.
  - intros stage row j Hnone Hrow Hj. apply filter_by_window_In in Hrow.
    apply (@reindex_columns_cell Z (map Some names) R row j (Some stage)
             Hwf Hrow Hj).
    intro Hin. apply HR in Hin. destruct Hin as [r [Hr E]].
    exact (Hnone r Hr E).
  - intros stage row j Hsome Hrow Hj. apply filter_by_window_In in Hrow.
    apply (@reindex_columns_cell Z (map Some names) R row j (Some stage)
             Hwf Hrow Hj).
    apply HR. exact Hsome.
Qed.

Lemma waste_breakdown_columns_witness :
  exists table,
    WasteCalculator.breakdown sample_settings sample_withdrawals = Ok table
    /\ columns table
       = [Some "Committed"%string; Some "Build"%string; Some "Test"%string]
    /\ (forall stage row j,
          (forall r, In r sample_withdrawals ->
                     WasteCalculator.last_status r <> Some stage) ->
          In row (values table) ->
          nth_error (columns table) j = Some (Some stage) ->
          nth_error row j = Some None)
    /\ (forall stage row j,
          (exists r, In r sample_withdrawals
                     /\ WasteCalculator.last_status r = Some stage) ->
          In row (values table) ->
          nth_error (columns table) j = Some (Some stage) ->
          exists v, nth_error row j = Some (Some v)).
Proof.
  apply (@waste_breakdown_columns sample_settings sample_withdrawals).
  - simpl. repeat constructor; simpl; intuition discriminate.
  - simpl. tauto.
  - simpl. tauto.
  - simpl. discriminate.
Defined.

(** The step "Test" has no withdrawal in [sample_withdrawals]: its column is
    there, and its cells are NaN, not 0. *)
Lemma waste_breakdown_missing_stage_is_nan :
  WasteCalculator.breakdown sample_settings sample_withdrawals
  = Ok (mkDataFrame [2504; 2505; 2506]
          [Some "Committed"%string; Some "Build"%string; Some "Test"%string]
          [[Some 0; Some 1; None]; [Some 0; Some 0; None];
           [Some 1; Some 0; None]])
  /\ (forall r, In r sample_withdrawals ->
                WasteCalculator.last_status r <> Some "Test"%string)
  /\ (forall table,
        WasteCalculator.breakdown sample_settings sample_withdrawals
        = Ok table ->
        cell_at table 2504 (Some "Test"%string) <> Some (Some 0)).
Proof.
  split; [vm_compute; reflexivity |]. split.
  - intros r [<-|[<-|[]]]; simpl; discriminate.
  - intros table H.
    assert (E : WasteCalculator.breakdown sample_settings sample_withdrawals
                = Ok (mkDataFrame [2504; 2505; 2506]
                        [Some "Committed"%string; Some "Build"%string;
                         Some "Test"%string]
                        [[Some 0; Some 1; None]; [Some 0; Some 0; None];
                         [Some 1; Some 0; None]]))
      by (vm_compute; reflexivity).
    rewrite E in H. injection H as <-. vm_compute. discriminate.
Qed.

(** ** Witnesses *)



(** An item without end that starts after today is active in no month: its
    range of months, from August back to June, is empty.  Beside an item
    that starts and ends in March, the earliest start is in March and the
    latest end is today, in June; the table has the row of March only, and
    none for April, May and June. *)
Lemma breakdown_by_month_start_after_today :
  breakdown_by_month_on From15 a_day_in_june
    [mkItem "A" (Some "high"%string) (ts 2018 8 1) None;
     mkItem "B" (Some "high"%string) (ts 2018 3 5) (Some (ts 2018 3 20))]
  = Ok (mkDataFrame [(2018 - 1970) * 12 + (3 - 1)] [Some "high"%string]
          [[1]])
  /\ breakdown_by_month_on Before15 a_day_in_june
       [mkItem "A" (Some "high"%string) (ts 2018 8 1) None;
        mkItem "B" (Some "high"%string) (ts 2018 3 5) (Some (ts 2018 3 20))]
     = Ok (mkDataFrame [(2018 - 1970) * 12 + (3 - 1)] [Some "high"%string]
             [[1]])
  /\ ~ In ((2018 - 1970) * 12 + (6 - 1)) [(2018 - 1970) * 12 + (3 - 1)].
Proof.
  split; [vm_compute; reflexivity |].
  split; [vm_compute; reflexivity |].
  intros [F | []]. discriminate F.
Qed.

Lemma breakdown_by_month_table_witness :
  exists table lo hi,
    breakdown_by_month_on From15 a_day_in_june issues = Ok table
    /\ Sorted Z.lt (index table)
    /\ (forall m, In m (index table) <-> lo <= m <= hi)
    /\ NoDup (columns table).
Proof.
  destruct (@breakdown_by_month_table From15 a_day_in_june issues)
    as [table [lo [hi H]]].
  - discriminate.
  - intros t Ht. unfold issues in Ht. simpl in Ht.
    repeat (destruct Ht as [<- | Ht]; [simpl; lia |]). destruct Ht.
  - exists table, lo, hi. intuition.
Defined.



Lemma filter_by_threshold_collapses_witness :
  fst (filter_by_threshold table_ab (Some 50%Q))
  = Ok (mkDataFrame (index table_ab) [Some "b"%string; Others]
          [[99; 1]; [99; 1]]).
Proof.
  apply (@filter_by_threshold_collapses table_ab 50%Q [1; 99]).
  - split; [reflexivity | repeat constructor].
  - repeat constructor.
  - unfold Qeq. simpl. lia.
  - simpl. intuition discriminate.
  - reflexivity.
Defined.

Lemma filter_by_threshold_has_others_witness :
  exists out,
    fst (filter_by_threshold table_others_b (Some 50%Q)) = Ok out
    /\ In Others (columns out)
    /\ index out = index table_others_b
    /\ length (values out) = length (values table_others_b).
Proof.
  destruct (@filter_by_threshold_has_others table_others_b 50%Q [1; 99])
    as [out H].
  - split; [reflexivity | repeat constructor].
  - unfold Qeq. simpl. lia.
  - reflexivity.
  - exists out. intuition.
Defined.

(** ** The tests of utils_test.py *)

Example test_breakdown_by_month :
  breakdown_by_month (ts 2018 6 15) issues
  = Ok (mkDataFrame [month_of 2018 1; month_of 2018 2; month_of 2018 3]
          [Some "high"%string; Some "med"%string]
          [[1; 2]; [3; 1]; [2; 2]]).
Proof. vm_compute. reflexivity. Qed.

Example test_breakdown_by_month_sum_days :
  breakdown_by_month_sum_days (ts 2018 6 15) issues
  = Ok (mkDataFrame [month_of 2018 1; month_of 2018 2; month_of 2018 3]
          [Some "high"%string; Some "med"%string]
          [[31; 47]; [70; 28]; [40; 35]]).
Proof. vm_compute. reflexivity. Qed.

Example test_breakdown_by_month_open_ended :
  exists table,
    breakdown_by_month a_day_in_june issues_open_ended = Ok table
    /\ columns table = [Some "high"%string; Some "med"%string]
    /\ firstn 5 (index table)
       = [month_of 2018 1; month_of 2018 2; month_of 2018 3;
          month_of 2018 4; month_of 2018 5]
    /\ firstn 5 (values table) = [[1; 2]; [3; 1]; [2; 2]; [0; 1]; [0; 1]].
Proof. eexists. split; [vm_compute; reflexivity |]. repeat split. Qed.

Example test_breakdown_by_month_none_values :
  breakdown_by_month a_day_in_june issues_no_priority
  = Ok (mkDataFrame [month_of 2018 1; month_of 2018 2; month_of 2018 3]
          [None] [[3]; [4]; [4]]).
Proof. vm_compute. reflexivity. Qed.

Example test_breakdown_by_month_sum_day_open_ended :
  exists table,
    breakdown_by_month_sum_days a_day_in_june issues_open_ended = Ok table
    /\ columns table = [Some "high"%string; Some "med"%string]
    /\ firstn 5 (values table)
       = [[31; 47]; [70; 28]; [40; 46]; [0; 30]; [0; 31]].
Proof. eexists. split; [vm_compute; reflexivity |]. repeat split. Qed.

(** The test expects the columns [[None, "med"]], which is what a pandas
    before 1.5 gives; from 1.5 on [None] is sorted last. *)
Example test_breakdown_by_month_sum_days_none_values :
  breakdown_by_month_sum_days_on Before15 a_day_in_june issues_high_is_none
  = Ok (mkDataFrame [month_of 2018 1; month_of 2018 2; month_of 2018 3]
          [None; Some "med"%string] [[31; 47]; [70; 28]; [40; 35]])
  /\ breakdown_by_month_sum_days_on From15 a_day_in_june issues_high_is_none
     = Ok (mkDataFrame [month_of 2018 1; month_of 2018 2; month_of 2018 3]
             [Some "med"%string; None] [[47; 31]; [28; 70]; [35; 40]]).
Proof. split; vm_compute; reflexivity. Qed.

(** What a failed [list.sort()] leaves of the distinct labels. *)
Example union_columns_examples :
  union_columns Before15 [Some "b"; Some "a"; None; Some "c"]%string
  = [Some "b"; Some "a"; None; Some "c"]%string
  /\ union_columns Before15 [Some "a"; Some "c"; Some "b"; None; Some "a"]%string
     = [Some "a"; Some "b"; Some "c"; None]%string
  /\ union_columns Before15 [Some "b"; Some "a"; Some "b"]%string
     = [Some "a"; Some "b"]%string
  /\ union_columns From15 [None; Some "b"; Some "a"; None]%string
     = [Some "a"; Some "b"; None]%string.
Proof. repeat split. Qed.

Example test_filter_by_columns :
  filter_by_columns table_priorities None = table_priorities
  /\ filter_by_columns table_priorities
       (Some [Some "med"%string; Some "high"%string])
     = mkDataFrame [0; 1; 2] [Some "med"%string; Some "high"%string]
         [[2; 1]; [1; 3]; [2; 2]].
Proof. split; reflexivity. Qed.

(** ** Further checks *)

Example value_epoch :
  value (ts 1970 1 1) = 0
  /\ value (ts 2018 1 1) = 1514764800 * 1000000000
  /\ to_timestamp_start (to_period_M (mkTimestamp 2018 3 20 5)) = ts 2018 3 1.
Proof. repeat split. Qed.

Example two_items_by_priority :
  breakdown_by_month a_day_in_june two_items
  = Ok (mkDataFrame [month_of 2018 1; month_of 2018 2; month_of 2018 3]
          [Some "high"%string; Some "med"%string]
          [[1; 1]; [1; 0]; [1; 0]]).
Proof. vm_compute. reflexivity. Qed.

(** A table of one row has no second row for [total[1]]. *)
Example filter_by_threshold_one_row :
  filter_by_threshold table_one_row (Some 50%Q)
  = (Raise (IndexError "index 1 is out of bounds"), table_one_row).
Proof. reflexivity. Qed.

Example filter_by_window_examples :
  index (filter_by_window table_priorities (Some 2)) = [1; 2]
  /\ filter_by_window table_priorities (Some 5) = table_priorities
  /\ filter_by_window table_priorities None = table_priorities
  /\ filter_by_window table_priorities (Some 0) = table_priorities.
Proof. repeat split. Qed.

(** The issue closed from the done status and the unresolved issue give no
    row; the status that no step has is kept as it is, with a warning. *)
Example waste_run_sample :
  WasteCalculator.run sample_settings sample_issues
  = (Some [ WasteCalculator.mkRow "A-1" (Some "Build"%string) "Withdrawn"
              (value (ts 2018 1 3));
            WasteCalculator.mkRow "A-4" (Some "On Hold"%string) "Withdrawn"
              (value (ts 2018 1 9)) ],
     [ mkLogRecord WARNING
         "Issue A-4 transitioned from unknown JIRA status On Hold" ]).
Proof. vm_compute. reflexivity. Qed.

Example net_flow_run_sample :
  fst (NetFlowChartCalculator.run sample_settings sample_cfd)
  = Ok (Some (mkDataFrame [2504]
                [Some "Committed"%string; Some "Done"%string;
                 Some "arrivals"%string; Some "departures"%string;
                 Some "net_flow"%string]
                [[Some 3; Some 1; Some 3; Some 1; Some 2]])).
Proof. vm_compute. reflexivity. Qed.

(** ** to_bin *)

Lemma last_cons_default {A : Type} (v d : A) (l : list A) :
  last (v :: l) d = last l v.
Proof.
  revert v d. induction l as [|a l IH]; intros v d; [reflexivity |].
  change (last (a :: l) d = last (a :: l) v). rewrite !IH. reflexivity.
Qed.

Lemma to_bin_from_first (value : Z) (edges : list Z) (previous : Z) :
  previous <= value ->
  (exists e, In e edges /\ value <= e) ->
  exists pre hi post,
    edges = pre ++ hi :: post
    /\ Forall (fun e => e < value) pre
    /\ value <= hi
    /\ to_bin_from value previous edges = (last pre previous, Some hi).
Proof.
  revert previous. induction edges as [|v edges IH]; intros previous Hp He.
  - destruct He as [e [[] _]].
  - cbn [to_bin_from]. destruct (Z.leb_spec previous value); [| lia].
    destruct (Z.leb_spec value v) as [Hv|Hv]; cbn [andb].
    + exists [], v, edges. repeat split; [constructor | exact Hv].
    + destruct (IH v) as [pre [hi [post [E [Hpre [Hhi Hr]]]]]].
      * lia.
      * destruct He as [e [[->|Hin] Hle]]; [lia |]. exists e. tauto.
      * exists (v :: pre), hi, post. subst edges.
        split; [reflexivity |]. split; [constructor; assumption |].
        split; [exact Hhi |]. rewrite Hr, last_cons_default. reflexivity.
Qed.

Lemma to_bin_from_above (value : Z) (edges : list Z) (previous : Z) :
  Forall (fun e => e < value) edges ->
  to_bin_from value previous edges = (last edges previous, None).
Proof.
  revert previous. induction edges as [|v edges IH]; intros previous H.
  - reflexivity.
  - inversion H; subst. cbn [to_bin_from].
    destruct (Z.leb_spec value v); [lia |]. rewrite andb_false_r.
    rewrite IH by assumption. rewrite last_cons_default. reflexivity.
Qed.

Lemma to_bin_from_below (value : Z) (edges : list Z) (previous : Z) :
  value < previous ->
  Forall (fun e => value < e) edges ->
  to_bin_from value previous edges = (last edges previous, None).
Proof.
  revert previous. induction edges as [|v edges IH]; intros previous Hp H.
  - reflexivity.
  - inversion H; subst. cbn [to_bin_from].
    destruct (Z.leb_spec previous value); [lia |]. cbn [andb].
    rewrite IH by assumption. rewrite last_cons_default. reflexivity.
Qed.

(** X1. For a value that is not negative and not above every edge, [to_bin]
    returns the first bin that holds it: the upper end is the first edge
    that is not below the value, the lower end the edge just before it, or 0
    when there is none; the value lies between the two. *)
Theorem to_bin_first_bin (value : Z) (edges : list Z) :
  0 <= value ->
  (exists e, In e edges /\ value <= e) ->
  exists pre hi post,
    edges = pre ++ hi :: post
    /\ Forall (fun e => e < value) pre
    /\ to_bin value edges = (last pre 0, Some hi)
    /\ last pre 0 <= value <= hi.
Proof.
  intros H0 He.
  destruct (to_bin_from_first edges H0 He)
    as [pre [hi [post [E [Hpre [Hhi Hr]]]]]].
  exists pre, hi, post. split; [exact E |]. split; [exact Hpre |].
  split; [exact Hr |]. split; [| exact Hhi].
  destruct pre as [|p pre]; [exact H0 |].
  assert (Hin : In (last (p :: pre) 0) (p :: pre))
    by (apply last_In; discriminate).
  rewrite Forall_forall in Hpre. specialize (Hpre _ Hin). lia.
Qed.

Lemma to_bin_first_bin_witness :
  exists pre hi post,
    [10; 20; 30] = pre ++ hi :: post
    /\ Forall (fun e => e < 11) pre
    /\ to_bin 11 [10; 20; 30] = (last pre 0, Some hi)
    /\ last pre 0 <= 11 <= hi.
Proof.
  apply (@to_bin_first_bin 11 [10; 20; 30]).
  - lia.
  - exists 20. simpl. split; [tauto | lia].
Defined.

(** X2. A value above every edge falls in no bin: [to_bin] returns the last
    edge (0 when there is no edge) and [None]. *)
Theorem to_bin_above_all (value : Z) (edges : list Z) :
  Forall (fun e => e < value) edges ->
  to_bin value edges = (last edges 0, None).
Proof. intro H. apply to_bin_from_above. exact H. Qed.

Lemma to_bin_above_all_witness : to_bin 31 [10; 20; 30] = (30, None).
Proof.
  apply (@to_bin_above_all 31 [10; 20; 30]). repeat constructor.
Defined.

(** X3. A negative value falls in no bin when the edges are not negative:
    the test [previous <= value] fails from the start, and [to_bin] returns
    the last edge and [None], not the bin from 0 to the first edge. *)
Theorem to_bin_negative (value : Z) (edges : list Z) :
  value < 0 ->
  Forall (fun e => 0 <= e) edges ->
  to_bin value edges = (last edges 0, None).
Proof.
  intros Hv He. apply to_bin_from_below; [exact Hv |].
  eapply Forall_impl; [| exact He]. intros e H. simpl in H. lia.
Qed.

Lemma to_bin_negative_witness : to_bin (-1) [10; 20; 30] = (30, None).
Proof.
  apply (@to_bin_negative (-1) [10; 20; 30]); [lia |].
  repeat constructor; lia.
Defined.

(** ** filter_by_window *)

Lemma slice_from_last {A : Type} (w : Z) (l : list A) :
  0 < w -> slice_from (- w) l = skipn (length l - Z.to_nat w) l.
Proof.
  intro H. unfold slice_from. destruct (Z.ltb_spec (- w) 0); [| lia].
  f_equal. lia.
Qed.

(** X4. A positive window keeps the last [window] rows, all of them when the
    table has no more; the columns and the shape of the table stay. *)
Theorem filter_by_window_last_rows {A : Type} (df : DataFrame A) (w : Z) :
  0 < w -> wf_frame df ->
  let n := length (index df) in
  index (filter_by_window df (Some w)) = skipn (n - Z.to_nat w) (index df)
  /\ values (filter_by_window df (Some w))
     = skipn (n - Z.to_nat w) (values df)
  /\ columns (filter_by_window df (Some w)) = columns df
  /\ length (index (filter_by_window df (Some w))) = Nat.min (Z.to_nat w) n
  /\ wf_frame (filter_by_window df (Some w))
  /\ (Z.of_nat n <= w -> filter_by_window df (Some w) = df).
Proof.
  intros Hw [Hrows Hwf] n. unfold filter_by_window.
  destruct (Z.eqb_spec w 0); [lia |]. cbn [index values columns].
  rewrite !slice_from_last by exact Hw. rewrite Hrows. fold n.
  split; [reflexivity |]. split; [reflexivity |]. split; [reflexivity |].
  split; [rewrite length_skipn; unfold n; lia |]. split.
  - split; cbn [index values columns].
    + rewrite !length_skipn. lia.
    + apply Forall_forall. intros row Hrow. rewrite Forall_forall in Hwf.
      apply Hwf. rewrite <- (firstn_skipn (n - Z.to_nat w) (values df)).
      apply in_app_iff. right. exact Hrow.
  - intro Hn. replace (n - Z.to_nat w)%nat with 0%nat by lia.
    destruct df. reflexivity.
Qed.

Lemma filter_by_window_last_rows_witness :
  index (filter_by_window table_priorities (Some 2)) = [1; 2]
  /\ values (filter_by_window table_priorities (Some 2))
     = [[3; 1; 2]; [2; 2; 3]].
Proof.
  destruct (@filter_by_window_last_rows Z table_priorities 2)
    as [H1 [H2 _]].
  - lia.
  - split; [reflexivity | repeat constructor].
  - split; [exact H1 | exact H2].
Defined.

(** X5. Two positive windows one after the other are the smaller window. *)
Theorem filter_by_window_twice {A : Type} (df : DataFrame A) (w1 w2 : Z) :
  0 < w1 -> 0 < w2 -> wf_frame df ->
  filter_by_window (filter_by_window df (Some w1)) (Some w2)
  = filter_by_window df (Some (Z.min w1 w2)).
Proof.
  intros H1 H2 [Hrows Hwf]. unfold filter_by_window.
  destruct (Z.eqb_spec w1 0); [lia |]. destruct (Z.eqb_spec w2 0); [lia |].
  destruct (Z.eqb_spec (Z.min w1 w2) 0); [lia |].
  cbn [index values columns].
  rewrite !slice_from_last by lia. rewrite !length_skipn, !skipn_skipn.
  rewrite Hrows. f_equal; f_equal; lia.
Qed.

Lemma filter_by_window_twice_witness :
  filter_by_window (filter_by_window table_priorities (Some 2)) (Some 3)
  = filter_by_window table_priorities (Some 2).
Proof.
  apply (@filter_by_window_twice Z table_priorities 2 3); try lia.
  split; [reflexivity | repeat constructor].
Defined.

(** X6. A negative window does not keep the last rows: [df[-window:]] then
    starts at row [-window], so the first [-window] rows are dropped. *)
Theorem filter_by_window_negative {A : Type} (df : DataFrame A) (w : Z) :
  w < 0 ->
  index (filter_by_window df (Some w)) = skipn (Z.to_nat (- w)) (index df)
  /\ values (filter_by_window df (Some w))
     = skipn (Z.to_nat (- w)) (values df).
Proof.
  intro H. unfold filter_by_window. destruct (Z.eqb_spec w 0); [lia |].
  cbn [index values]. unfold slice_from.
  destruct (Z.ltb_spec (- w) 0); [lia |].
  split.
  - destruct (Z.min_spec (- w) (Z.of_nat (length (index df))))
      as [[_ E]|[Hge E]]; rewrite E; [reflexivity |].
    rewrite !skipn_all2 by lia. reflexivity.
  - destruct (Z.min_spec (- w) (Z.of_nat (length (values df))))
      as [[_ E]|[Hge E]]; rewrite E; [reflexivity |].
    rewrite !skipn_all2 by lia. reflexivity.
Qed.

Lemma filter_by_window_negative_witness :
  index (filter_by_window table_priorities (Some (-1))) = [1; 2].
Proof.
  apply (@filter_by_window_negative Z table_priorities (-1)). lia.
Defined.

(** ** filter_by_threshold: sums, short tables, the table given *)

Lemma sum_row_app (l l' : list Z) : sum_row (l ++ l') = sum_row l + sum_row l'.
Proof.
  unfold sum_row. induction l as [|a l IH]; simpl; [reflexivity |].
  rewrite IH. lia.
Qed.

Lemma sum_row_single (x : Z) : sum_row [x] = x.
Proof. unfold sum_row. simpl. lia. Qed.

Lemma sum_row_select_mask (mask : list bool) (row : list Z) :
  length mask = length row ->
  sum_row (select_mask (map negb mask) row) + sum_row (select_mask mask row)
  = sum_row row.
Proof.
  revert row. induction mask as [|b mask IH]; intros [|x row] H;
    simpl in H; try discriminate; [reflexivity |].
  injection H as H. specialize (IH row H).
  unfold select_mask, sum_row in *. destruct b; simpl; lia.
Qed.

(** X7. Collapsing keeps the total of every row: for a table with at least
    two rows and no column named "Others", each row of the result has the
    sum that the row had before. *)
Theorem filter_by_threshold_keeps_row_sums (df : DataFrame Z) (thr : Q)
    (row1 : list Z) :
  wf_frame df -> ~ (thr == 0)%Q -> ~ In Others (columns df) ->
  nth_error (values df) 1 = Some row1 ->
  exists out,
    fst (filter_by_threshold df (Some thr)) = Ok out
    /\ map sum_row (values out) = map sum_row (values df).
Proof.
  intros Hwf Hthr Hfresh Hrow1. eexists. split.
  - apply filter_by_threshold_fresh; eassumption.
  - cbn [values]. rewrite map_map. apply map_ext_in. intros row Hrow.
    rewrite sum_row_app, sum_row_single. apply sum_row_select_mask.
    rewrite length_all_below. destruct Hwf as [_ Hwf].
    rewrite Forall_forall in Hwf. symmetry. apply Hwf. exact Hrow.
Qed.

Lemma filter_by_threshold_keeps_row_sums_witness :
  exists out,
    fst (filter_by_threshold table_ab (Some 50%Q)) = Ok out
    /\ map sum_row (values out) = [100; 100].
Proof.
  apply (@filter_by_threshold_keeps_row_sums table_ab 50%Q [1; 99]).
  - split; [reflexivity | repeat constructor].
  - unfold Qeq. simpl. lia.
  - simpl. intuition discriminate.
  - reflexivity.
Defined.

(** ** filter_by_columns *)

Lemma positions_from_not_In c cols s :
  ~ In c cols ->
  filter (fun p : nat * label => label_eqb c (snd p))
         (combine (seq s (length cols)) cols) = [].
Proof.
  revert s. induction cols as [|d cols IH]; intros s H; simpl;
    [reflexivity |].
  destruct (label_eqb c d) eqn:E.
  - apply label_eqb_eq in E. subst d. exfalso. apply H. left. reflexivity.
  - apply IH. intro Hc. apply H. right. exact Hc.
Qed.

Lemma positions_from_NoDup c cols s k :
  NoDup cols -> nth_error cols k = Some c ->
  map fst (filter (fun p : nat * label => label_eqb c (snd p))
                  (combine (seq s (length cols)) cols)) = [(s + k)%nat].
Proof.
  intro Hnd. revert s k. induction Hnd as [|d cols Hd Hnd IH]; intros s k Hk.
  - destruct k; discriminate.
  - simpl. destruct k as [|k]; simpl in Hk.
    + injection Hk as ->. rewrite label_eqb_refl. simpl.
      rewrite positions_from_not_In by exact Hd. simpl.
      f_equal. lia.
    + destruct (label_eqb c d) eqn:E.
      * apply label_eqb_eq in E. subst d. exfalso. apply Hd.
        apply nth_error_In with k. exact Hk.
      * rewrite (IH (S s) k Hk). f_equal. lia.
Qed.

Lemma positions_NoDup c cols k :
  NoDup cols -> nth_error cols k = Some c -> positions c cols = [k].
Proof.
  intros Hnd Hk. unfold positions.
  rewrite (@positions_from_NoDup c cols 0%nat k Hnd Hk). reflexivity.
Qed.

Lemma take_app {A : Type} (p1 p2 : list nat) (l : list A) :
  take (p1 ++ p2) l = take p1 l ++ take p2 l.
Proof. unfold take. apply flat_map_app. Qed.

(** Reading the columns [labels] of a row, when every label is a column. *)
Lemma take_labels_nth {A : Type} (cols labels : list label) (row : list A)
    (j : nat) (c : label) :
  NoDup cols -> length row = length cols ->
  (forall c', In c' labels -> In c' cols) ->
  nth_error labels j = Some c ->
  nth_error (take (flat_map (fun c' => positions c' cols) labels) row) j
  = match positions c cols with
    | k :: _ => nth_error row k
    | [] => None
    end.
Proof.
  intros Hnd Hlen. revert j.
  induction labels as [|c0 labels IH]; intros j Hin Hj.
  - destruct j; discriminate.
  - cbn [flat_map]. rewrite take_app.
    destruct (In_nth_error _ _ (Hin c0 (or_introl eq_refl))) as [k0 Hk0].
    rewrite (@positions_NoDup _ _ _ Hnd Hk0) at 1.
    assert (Hlt : (k0 < length row)%nat).
    { rewrite Hlen. apply nth_error_Some. congruence. }
    destruct (nth_error row k0) as [x0|] eqn:Ex;
      [| apply nth_error_None in Ex; lia].
    unfold take at 1. cbn [flat_map]. rewrite Ex. cbn [app].
    destruct j as [|j]; simpl in Hj.
    + injection Hj as <-. rewrite (@positions_NoDup _ _ _ Hnd Hk0). simpl.
      symmetry. exact Ex.
    + simpl. apply IH; [| exact Hj]. intros c' Hc'. apply Hin. right.
      exact Hc'.
Qed.

Lemma take_labels_columns (cols labels : list label) :
  NoDup cols -> (forall c', In c' labels -> In c' cols) ->
  take (flat_map (fun c' => positions c' cols) labels) cols = labels.
Proof.
  intros Hnd. induction labels as [|c0 labels IH]; intro Hin; [reflexivity |].
  cbn [flat_map]. rewrite take_app.
  destruct (In_nth_error _ _ (Hin c0 (or_introl eq_refl))) as [k0 Hk0].
  rewrite (@positions_NoDup _ _ _ Hnd Hk0). unfold take at 1. cbn [flat_map].
  rewrite Hk0. cbn [app]. f_equal. apply IH. intros c' Hc'. apply Hin.
  right. exact Hc'.
Qed.

Lemma row_at_map {A B : Type} (f : list A -> list B) (idx : list Z)
    (vals : list (list A)) (cols cols' : list label) (i : Z) :
  row_at (mkDataFrame idx cols' (map f vals)) i
  = option_map f (row_at (mkDataFrame idx cols vals) i).
Proof.
  unfold row_at. cbn [index values].
  revert vals. induction idx as [|a idx IH]; intros [|v vals]; simpl;
    try reflexivity.
  destruct (a =? i); [reflexivity | apply IH].
Qed.

Lemma row_at_In {A : Type} (df : DataFrame A) (i : Z) (row : list A) :
  row_at df i = Some row -> In row (values df).
Proof.
  unfold row_at. intro H.
  destruct (find _ _) as [[a r]|] eqn:E; [| discriminate].
  injection H as <-. apply find_some in E. destruct E as [E _].
  apply in_combine_r in E. exact E.
Qed.

(** X10. With a non-empty list of wanted columns, [filter_by_columns] keeps
    of a table with distinct columns the wanted columns that the table has,
    in the order in which they are wanted; the index stays, and each cell
    of a kept column is the cell the table had there. *)
Theorem filter_by_columns_selects {A : Type} (df : DataFrame A)
    (output_columns : list label) :
  wf_frame df -> NoDup (columns df) -> output_columns <> [] ->
  let out := filter_by_columns df (Some output_columns) in
  columns out = filter (fun s => has_column s (columns df)) output_columns
  /\ index out = index df
  /\ length (values out) = length (values df)
  /\ (forall i c, In c (columns out) -> cell_at out i c = cell_at df i c).
Proof.
  intros [Hrows Hwf] Hnd Hne out.
  set (labels := filter (fun s => has_column s (columns df)) output_columns).
  assert (Hin : forall c', In c' labels -> In c' (columns df)).
  { intros c' H. apply filter_In in H. apply has_column_In. apply H. }
  assert (Eout : out = take_columns
                         (flat_map (fun c => positions c (columns df)) labels)
                         df).
  { unfold out, filter_by_columns.
    destruct output_columns; [congruence | reflexivity]. }
  assert (Ecols : columns out = labels).
  { rewrite Eout. cbn [columns take_columns].
    apply take_labels_columns; assumption. }
  split; [exact Ecols |]. split; [rewrite Eout; reflexivity |].
  split; [rewrite Eout; cbn [values take_columns]; apply length_map |].
  intros i c Hc. rewrite Ecols in Hc. unfold cell_at. rewrite Ecols.
  rewrite Eout. unfold take_columns.
  rewrite (row_at_map _ (index df) (values df) (columns df)).
  replace (mkDataFrame (index df) (columns df) (values df)) with df
    by (destruct df; reflexivity).
  destruct (row_at df i) as [row|] eqn:Er; cbn [option_map];
    [| reflexivity].
  destruct (@positions_In c labels Hc) as [j [rest [Hp Hj]]]. rewrite Hp.
  rewrite (@take_labels_nth A (columns df) labels row j c Hnd); try assumption.
  - destruct (positions c (columns df)); reflexivity.
  - rewrite Forall_forall in Hwf. apply Hwf.
    apply (row_at_In df i). exact Er.
Qed.

Lemma filter_by_columns_selects_witness :
  columns (filter_by_columns table_priorities
             (Some [Some "med"%string; Some "urgent"%string;
                    Some "high"%string]))
  = [Some "med"%string; Some "high"%string].
Proof.
  apply (@filter_by_columns_selects Z table_priorities
           [Some "med"%string; Some "urgent"%string; Some "high"%string]).
  - split; [reflexivity | repeat constructor].
  - simpl. repeat constructor; simpl; intuition discriminate.
  - discriminate.
Defined.

(** ** WasteCalculator.run *)

(** X11. Every row that [run] returns comes from a resolved issue, with its
    key, the name of its resolution and its resolution date, and its last
    status is neither the backlog column nor the done column. *)
Theorem waste_run_rows (settings : Settings)
    (issues : list WasteCalculator.Issue) (rows : list WasteCalculator.Row)
    (log : list LogRecord) :
  WasteCalculator.run settings issues = (Some rows, log) ->
  forall r, In r rows ->
    WasteCalculator.last_status r <> Some (backlog_column settings)
    /\ WasteCalculator.last_status r <> Some (done_column settings)
    /\ exists issue,
         In issue issues
         /\ WasteCalculator.key r = WasteCalculator.issue_key issue
         /\ WasteCalculator.resolution issue
            = Some (WasteCalculator.resolution_name r)
         /\ WasteCalculator.withdrawn_date r
            = WasteCalculator.resolutiondate issue.
Proof.
  intros Hrun r Hr. unfold WasteCalculator.run in Hrun.
  assert (Hrows : rows = flat_map
            (fun s : option WasteCalculator.Row * list LogRecord =>
               match fst s with Some r => [r] | None => [] end)
            (map (WasteCalculator.run_issue settings) issues)).
  { destruct (waste_query settings) as [[|c q]|]; try discriminate.
    injection Hrun as <- _. reflexivity. }
  subst rows. apply in_flat_map in Hr. destruct Hr as [step [Hstep Hr]].
  apply in_map_iff in Hstep. destruct Hstep as [issue [<- Hissue]].
  unfold WasteCalculator.run_issue in Hr.
  destruct (WasteCalculator.resolution issue) as [res|] eqn:Eres;
    [| destruct Hr].
  set (raw := last (map Some (WasteCalculator.status_changes issue)) None)
    in Hr.
  set (mapped := match raw with
                 | Some s => WasteCalculator.lookup (WasteCalculator.lower s)
                               (WasteCalculator.cycle_lookup (cycle settings))
                 | None => None
                 end) in Hr.
  set (ls := if WasteCalculator.is_some mapped then mapped else raw) in Hr.
  destruct (match ls with
            | Some s => String.eqb s (backlog_column settings)
                        || String.eqb s (done_column settings)
            | None => false
            end) eqn:Eex; cbn [fst] in Hr; [destruct Hr |].
  destruct Hr as [<-|[]]. cbn [WasteCalculator.last_status
    WasteCalculator.key WasteCalculator.resolution_name
    WasteCalculator.withdrawn_date].
  split; [| split].
  - intro E. rewrite E in Eex. rewrite String.eqb_refl in Eex. discriminate.
  - intro E. rewrite E in Eex. rewrite String.eqb_refl, orb_true_r in Eex.
    discriminate.
  - exists issue. repeat split; assumption.
Qed.

Lemma waste_run_rows_witness :
  WasteCalculator.last_status
    (WasteCalculator.mkRow "A-4" (Some "On Hold"%string) "Withdrawn"
       (value (ts 2018 1 9)))
  <> Some "Backlog"%string
  /\ WasteCalculator.last_status
       (WasteCalculator.mkRow "A-4" (Some "On Hold"%string) "Withdrawn"
          (value (ts 2018 1 9)))
     <> Some "Done"%string
  /\ exists issue,
       In issue sample_issues
       /\ "A-4"%string = WasteCalculator.issue_key issue
       /\ WasteCalculator.resolution issue = Some "Withdrawn"%string
       /\ value (ts 2018 1 9) = WasteCalculator.resolutiondate issue.
Proof.
  apply (@waste_run_rows sample_settings sample_issues
           [ WasteCalculator.mkRow "A-1" (Some "Build"%string) "Withdrawn"
               (value (ts 2018 1 3));
             WasteCalculator.mkRow "A-4" (Some "On Hold"%string) "Withdrawn"
               (value (ts 2018 1 9)) ]
           [ mkLogRecord WARNING
               "Issue A-4 transitioned from unknown JIRA status On Hold" ]
           ltac:(vm_compute; reflexivity)
           (WasteCalculator.mkRow "A-4" (Some "On Hold"%string) "Withdrawn"
              (value (ts 2018 1 9)))).
  right. left. reflexivity.
Defined.

Lemma lookup_app k (a b : list (string * string)) :
  WasteCalculator.lookup k (a ++ b)
  = match WasteCalculator.lookup k a with
    | Some v => Some v
    | None => WasteCalculator.lookup k b
    end.
Proof.
  induction a as [|[k' v] a IH]; simpl; [reflexivity |].
  destruct (String.eqb k k'); [reflexivity | exact IH].
Qed.

Lemma lookup_None k (d : list (string * string)) :
  (forall v, ~ In (k, v) d) -> WasteCalculator.lookup k d = None.
Proof.
  induction d as [|[k' v] d IH]; intro H; simpl; [reflexivity |].
  destruct (String.eqb_spec k k') as [->|_].
  - exfalso. apply (H v). left. reflexivity.
  - apply IH. intros v' Hv'. apply (H v'). right. exact Hv'.
Qed.

Lemma lookup_Some_In k v (d : list (string * string)) :
  WasteCalculator.lookup k d = Some v -> In (k, v) d.
Proof.
  induction d as [|[k' v'] d IH]; simpl; [discriminate |].
  destruct (String.eqb_spec k k') as [->|_].
  - intro H. injection H as ->. left. reflexivity.
  - intro H. right. apply IH. exact H.
Qed.

Lemma lookup_In_Some k v (d : list (string * string)) :
  In (k, v) d -> exists v', WasteCalculator.lookup k d = Some v'.
Proof.
  induction d as [|[k' v'] d IH]; intro H; [destruct H |]. simpl.
  destruct (String.eqb_spec k k') as [->|Hne]; [eexists; reflexivity |].
  destruct H as [H|H]; [congruence |]. apply IH. exact H.
Qed.

Lemma step_entries_In (step : CycleStep) k v :
  In (k, v) (map (fun status => (WasteCalculator.lower status, name step))
                 (statuses step))
  <-> v = name step
      /\ exists st, In st (statuses step) /\ WasteCalculator.lower st = k.
Proof.
  rewrite in_map_iff. split.
  - intros [st [E Hst]]. injection E as <- <-. split; [reflexivity |].
    exists st. split; [exact Hst | reflexivity].
  - intros [-> [st [Hst <-]]]. exists st. split; [reflexivity | exact Hst].
Qed.

(** X12. For statuses written in ASCII the lookup is blind to letter case,
    and of the steps that list the status the last one wins: a status that
    some step lists, in any letter case, and that no later step lists, is
    mapped to the name of that step. *)
Theorem cycle_lookup_last_step (pre post : list CycleStep) (step : CycleStep)
    (status : string) :
  WasteCalculator.is_ascii status = true ->
  ascii_statuses (pre ++ step :: post) ->
  (exists st, In st (statuses step)
              /\ WasteCalculator.lower st = WasteCalculator.lower status) ->
  (forall step' st, In step' post -> In st (statuses step') ->
                    WasteCalculator.lower st <> WasteCalculator.lower status) ->
  WasteCalculator.lookup (WasteCalculator.lower status)
    (WasteCalculator.cycle_lookup (pre ++ step :: post))
  = Some (name step).
Proof.
  intros _ _ Hstep Hpost. unfold WasteCalculator.cycle_lookup.
  rewrite flat_map_app. cbn [flat_map]. rewrite !rev_app_distr.
  rewrite <- app_assoc, lookup_app.
  rewrite lookup_None.
  - rewrite lookup_app.
    destruct Hstep as [st [Hst Est]].
    destruct (@lookup_In_Some (WasteCalculator.lower status) (name step)
                (rev (map (fun s => (WasteCalculator.lower s, name step))
                          (statuses step)))) as [v' Hv'].
    { apply in_rev. rewrite rev_involutive. apply step_entries_In.
      split; [reflexivity |]. exists st. split; assumption. }
    rewrite Hv'. f_equal. apply lookup_Some_In in Hv'.
    apply in_rev in Hv'. apply step_entries_In in Hv'. apply Hv'.
  - intros v Hin. apply in_rev in Hin. apply in_flat_map in Hin.
    destruct Hin as [step' [Hs' Hin]]. apply step_entries_In in Hin.
    destruct Hin as [_ [st [Hst E]]]. exact (Hpost step' st Hs' Hst E).
Qed.

Lemma cycle_lookup_last_step_witness :
  WasteCalculator.lookup (WasteCalculator.lower "CLOSED")
    (WasteCalculator.cycle_lookup cycle_with_repeat)
  = Some "Done"%string.
Proof.
  apply (@cycle_lookup_last_step
           [ mkCycleStep "Backlog" ["Open"%string] "backlog";
             mkCycleStep "Build" ["In Progress"%string; "closed"%string]
               "accepted" ]
           [] (mkCycleStep "Done" ["Closed"%string] "complete") "CLOSED").
  - reflexivity.
  - intros step st Hs Hst. simpl in Hs.
    destruct Hs as [<-|[<-|[<-|[]]]]; simpl in Hst;
      repeat (destruct Hst as [<-|Hst]; [reflexivity |]); destruct Hst.
  - exists "Closed"%string. split; [left; reflexivity | reflexivity].
  - intros step' st [].
Defined.

(** X13. For statuses written in ASCII, a status that no step lists, in any
    letter case, is not in the lookup. *)
Theorem cycle_lookup_unknown (steps : list CycleStep) (status : string) :
  WasteCalculator.is_ascii status = true ->
  ascii_statuses steps ->
  (forall step st, In step steps -> In st (statuses step) ->
                   WasteCalculator.lower st <> WasteCalculator.lower status) ->
  WasteCalculator.lookup (WasteCalculator.lower status)
    (WasteCalculator.cycle_lookup steps) = None.
Proof.
  intros _ _ H. apply lookup_None. intros v Hin.
  unfold WasteCalculator.cycle_lookup in Hin. apply in_rev in Hin.
  apply in_flat_map in Hin. destruct Hin as [step [Hs Hin]].
  apply step_entries_In in Hin. destruct Hin as [_ [st [Hst E]]].
  exact (H step st Hs Hst E).
Qed.

Lemma cycle_lookup_unknown_witness :
  WasteCalculator.lookup (WasteCalculator.lower "On Hold")
    (WasteCalculator.cycle_lookup cycle_with_repeat) = None.
Proof.
  apply (@cycle_lookup_unknown cycle_with_repeat "On Hold").
  - reflexivity.
  - intros step st Hs Hst. unfold cycle_with_repeat in Hs. simpl in Hs.
    destruct Hs as [<-|[<-|[<-|[]]]]; simpl in Hst;
      repeat (destruct Hst as [<-|Hst]; [reflexivity |]); destruct Hst.
  - intros step st Hs Hst. unfold cycle_with_repeat in Hs. simpl in Hs.
    destruct Hs as [<-|[<-|[<-|[]]]]; simpl in Hst;
      repeat (destruct Hst as [<-|Hst]; [vm_compute; discriminate |]);
      destruct Hst.
Defined.

(** ** WasteCalculator.write: the columns to leave out *)

Lemma list_remove_not_In x l :
  ~ In x l ->
  list_remove x l = Raise (ValueError "list.remove(x): x not in list").
Proof.
  induction l as [|y l IH]; intro H; simpl; [reflexivity |].
  destruct (String.eqb_spec x y) as [->|_].
  - exfalso. apply H. left. reflexivity.
  - rewrite IH; [reflexivity |]. intro Hin. apply H. right. exact Hin.
Qed.

Lemma list_remove_In x l :
  In x l -> exists l', list_remove x l = Ok l'
                       /\ forall y, y <> x -> (In y l' <-> In y l).
Proof.
  induction l as [|z l IH]; intro H; [destruct H |]. simpl.
  destruct (String.eqb_spec x z) as [->|Hne].
  - exists l. split; [reflexivity |]. intros y Hy. simpl. split; [tauto |].
    intros [E|Hin]; [congruence | exact Hin].
  - destruct H as [H|H]; [congruence |].
    destruct (IH H) as [l' [E Hl']]. rewrite E. cbn [bind].
    exists (z :: l'). split; [reflexivity |]. intros y Hy. simpl.
    rewrite (Hl' y Hy). reflexivity.
Qed.

(** X14. [write] does not check that the backlog and done columns are steps
    of the cycle: when a chart file is set and there are rows to draw, a
    backlog or done column that is not the name of a step makes
    [cycle_names.remove] raise [ValueError], and nothing is drawn. *)
Theorem waste_write_unknown_column (settings : Settings)
    (chart_data : list WasteCalculator.Row) (file : string) :
  waste_chart settings = Some file -> file <> EmptyString ->
  chart_data <> [] ->
  ~ In (backlog_column settings) (map name (cycle settings))
  \/ ~ In (done_column settings) (map name (cycle settings)) ->
  WasteCalculator.write settings (Some chart_data)
  = (Raise (ValueError "list.remove(x): x not in list"), []).
Proof.
  intros Hfile Hne Hdata H. unfold WasteCalculator.write. rewrite Hfile.
  destruct file as [|c file]; [congruence |].
  destruct chart_data as [|r chart_data]; [congruence |].
  replace (WasteCalculator.breakdown settings (r :: chart_data))
    with (@Raise (DataFrame (option Z))
            (ValueError "list.remove(x): x not in list")); [reflexivity |].
  symmetry. unfold WasteCalculator.breakdown.
  destruct (in_dec string_dec (backlog_column settings)
              (map name (cycle settings))) as [Hb|Hb].
  - destruct H as [H|H]; [contradiction |].
    destruct (list_remove_In _ _ Hb) as [l' [E Hl']]. rewrite E. cbn [bind].
    rewrite list_remove_not_In; [reflexivity |].
    intro Hin. apply H.
    destruct (string_dec (done_column settings) (backlog_column settings))
      as [Eq|Hneq]; [rewrite Eq; exact Hb |].
    apply (Hl' _ Hneq). exact Hin.
  - rewrite list_remove_not_In by exact Hb. reflexivity.
Qed.

Lemma waste_write_unknown_column_witness :
  WasteCalculator.write
    (mkSettings sample_cycle "Inbox" "Committed" "Done"
       (Some "resolution = Withdrawn"%string)
       (fun t => t / (7 * NS_PER_DAY)) None (Some "waste.png"%string)
       (fun t => t / (7 * NS_PER_DAY)))
    (Some sample_withdrawals)
  = (Raise (ValueError "list.remove(x): x not in list"), []).
Proof.
  apply (@waste_write_unknown_column _ sample_withdrawals "waste.png").
  - reflexivity.
  - discriminate.
  - discriminate.
  - left. simpl. intuition discriminate.
Defined.

(** ** WasteCalculator.write: the cells of the table *)

Lemma filter_or_length {A : Type} (f g q : A -> bool) (l : list A) :
  (forall x, In x l -> f x = true -> g x = true -> False) ->
  length (filter (fun x => (f x || g x) && q x) l)
  = (length (filter (fun x => f x && q x) l)
     + length (filter (fun x => g x && q x) l))%nat.
Proof.
  induction l as [|a l IH]; intro H; [reflexivity |].
  cbn [filter]. specialize (H a (or_introl eq_refl)) as Ha.
  assert (IH' := IH (fun x Hx => H x (or_intror Hx))).
  destruct (f a) eqn:Ef, (g a) eqn:Eg, (q a) eqn:Eq; cbn [orb andb length];
    try lia; exfalso; apply Ha; reflexivity.
Qed.

Lemma rows_at_counts (c : label) (rows : list WasteCalculator.Row)
    (ds : list Z) :
  NoDup ds ->
  agg_sum (map (fun d => match WasteCalculator.rows_at d c rows with
                         | [] => None
                         | rs => Some (Z.of_nat (length rs))
                         end) ds)
  = Z.of_nat
      (length (filter (fun r =>
                         existsb (Z.eqb (WasteCalculator.withdrawn_date r)) ds
                         && label_eqb c (WasteCalculator.last_status r))
                      rows)).
Proof.
  induction 1 as [|d0 ds Hd0 Hnd IH].
  - simpl. rewrite filter_none; [reflexivity |]. intros x _. reflexivity.
  - cbn [map existsb]. unfold agg_sum in *. cbn [fold_right]. rewrite IH.
    rewrite filter_or_length.
    + unfold WasteCalculator.rows_at.
      destruct (filter _ rows) eqn:E at 1.
      * rewrite E. simpl. lia.
      * rewrite <- E. lia.
    + intros x _ E1 E2. apply Z.eqb_eq in E1. apply existsb_exists in E2.
      destruct E2 as [d [Hd E2]]. apply Z.eqb_eq in E2. apply Hd0.
      congruence.
Qed.

Lemma filter_by_window_nth {A : Type} (df : DataFrame A) window p b row :
  length (index df) = length (values df) ->
  nth_error (index (filter_by_window df window)) p = Some b ->
  nth_error (values (filter_by_window df window)) p = Some row ->
  exists q, nth_error (index df) q = Some b
            /\ nth_error (values df) q = Some row.
Proof.
  intros Hlen. unfold filter_by_window.
  destruct window as [w|]; [| intros; exists p; tauto].
  destruct (w =? 0); [intros; exists p; tauto |].
  cbn [index values]. unfold slice_from. rewrite Hlen.
  rewrite !nth_error_skipn. intros H1 H2. eexists. split; eassumption.
Qed.

Lemma pivot_cells_in (settings : Settings)
    (chart_data : list WasteCalculator.Row) (b : Z) (k : nat)
    (stage : string) :
  nth_error (columns (WasteCalculator.pivot_table chart_data)) k
  = Some (Some stage) ->
  agg_sum (cells_in (waste_frequency settings)
             (WasteCalculator.pivot_table chart_data) b k)
  = withdrawals_in settings chart_data b stage.
Proof.
  intro Hk. unfold cells_in, WasteCalculator.pivot_table in *.
  cbn [index values columns] in *.
  set (kept := filter (fun r => WasteCalculator.is_some
                                  (WasteCalculator.last_status r))
                      chart_data) in *.
  set (idx := sort_unique Z.compare (map WasteCalculator.withdrawn_date kept))
    in *.
  set (cols := sort_unique label_compare
                 (map WasteCalculator.last_status kept)) in *.
  rewrite combine_map_r, filter_map_comm, map_map. cbn [fst snd].
  erewrite map_ext.
  2: { intro d. apply nth_error_nth. rewrite nth_error_map, Hk.
       reflexivity. }
  cbn beta. rewrite rows_at_counts.
  2: { apply NoDup_filter. unfold idx.
       apply (sort_unique_NoDup Z.compare).
       - intros x y. apply Z.compare_eq_iff.
       - intros x y. apply Z.compare_antisym.
       - apply Z_compare_trans. }
  unfold withdrawals_in. f_equal. unfold kept. rewrite filter_filter.
  f_equal. apply filter_ext_in. intros r Hr.
  destruct (label_eqb (Some stage) (WasteCalculator.last_status r)) eqn:El.
  - apply label_eqb_eq in El. rewrite <- El. cbn [WasteCalculator.is_some].
    rewrite !andb_true_r, andb_true_l.
    destruct (Z.eqb_spec (waste_frequency settings
                            (WasteCalculator.withdrawn_date r)) b) as [E|E].
    + apply existsb_exists. exists (WasteCalculator.withdrawn_date r).
      split; [| apply Z.eqb_refl]. apply filter_In.
      split; [| apply Z.eqb_eq; exact E].
      unfold idx. apply (sort_unique_In Z.compare).
      { intros x y. apply Z.compare_eq_iff. }
      apply in_map. unfold kept. apply filter_In. split; [exact Hr |].
      rewrite <- El. reflexivity.
    + destruct (existsb _ _) eqn:Ex; [| reflexivity].
      apply existsb_exists in Ex. destruct Ex as [d [Hd Ed]].
      apply Z.eqb_eq in Ed. apply filter_In in Hd. destruct Hd as [_ Hd].
      apply Z.eqb_eq in Hd. congruence.
  - rewrite !andb_false_r. reflexivity.
Qed.

(** X15. In the waste table, a cell of a step that has withdrawals is the
    number of withdrawals whose last status is that step and whose date lies
    in the period of the row, 0 included. *)
Theorem waste_breakdown_counts (settings : Settings)
    (chart_data : list WasteCalculator.Row) (table : DataFrame (option Z))
    (p j : nat) (b : Z) (row : list (option Z)) (stage : string) :
  WasteCalculator.breakdown settings chart_data = Ok table ->
  nth_error (index table) p = Some b ->
  nth_error (values table) p = Some row ->
  nth_error (columns table) j = Some (Some stage) ->
  (exists r, In r chart_data
             /\ WasteCalculator.last_status r = Some stage) ->
  nth_error row j = Some (Some (withdrawals_in settings chart_data b stage)).
Proof.
  intros Hb Hp Hrow Hj Hsome. unfold WasteCalculator.breakdown in Hb.
  destruct (list_remove (backlog_column settings) (map name (cycle settings)))
    as [n1|e]; [| discriminate]. cbn [bind] in Hb.
  destruct (list_remove (done_column settings) n1) as [n2|e];
    [| discriminate]. cbn [bind] in Hb. injection Hb as <-.
  set (P := WasteCalculator.pivot_table chart_data) in *.
  set (R := resample_agg (waste_frequency settings) agg_sum P) in *.
  rewrite filter_by_window_columns in Hj. cbn [columns reindex_columns] in Hj.
  assert (Hlen : length (index (reindex_columns (map Some n2) R))
                 = length (values (reindex_columns (map Some n2) R))).
  { cbn [index values reindex_columns]. rewrite length_map. unfold R.
    unfold resample_agg. destruct (map _ (index P)); cbn [index values];
      [reflexivity |]. rewrite length_map. reflexivity. }
  destruct (filter_by_window_nth _ _ _ Hlen Hp Hrow) as [q [Hq Hrq]].
  cbn [index values reindex_columns] in Hq, Hrq.
  rewrite nth_error_map in Hrq.
  destruct (nth_error (values R) q) as [r|] eqn:Er; [| discriminate].
  cbn [option_map] in Hrq. injection Hrq as <-.
  assert (HcolsR : columns R = columns P) by apply resample_agg_columns.
  assert (Er' : r = map (fun k => agg_sum (cells_in (waste_frequency settings)
                                             P b k))
                        (seq 0 (length (columns P)))).
  { unfold R, resample_agg in Hq, Er.
    destruct (map (waste_frequency settings) (index P)) as [|x xs];
      cbn [index values] in Hq, Er.
    - destruct q; discriminate.
    - rewrite nth_error_map, Hq in Er. cbn [option_map] in Er.
      congruence. }
  unfold reindex_row. rewrite nth_error_map, Hj. cbn [option_map].
  rewrite HcolsR.
  assert (Hin : In (Some stage) (columns P)).
  { apply pivot_table_columns. exact Hsome. }
  destruct (@positions_In (Some stage) _ Hin) as [k [rest [Hpos Hk]]].
  rewrite Hpos. f_equal.
  assert (Hlt : (k < length (columns P))%nat).
  { apply nth_error_Some. congruence. }
  apply nth_error_nth. rewrite nth_error_map, Er', nth_error_map.
  rewrite nth_error_seq.
  destruct (Nat.ltb_spec k (length (columns P))); [| lia].
  cbn [option_map Nat.add]. do 2 f_equal.
  apply pivot_cells_in. exact Hk.
Qed.

Lemma waste_breakdown_counts_witness :
  nth_error [Some 0; Some 1; None] 1
  = Some (Some (withdrawals_in sample_settings sample_withdrawals 2504
                  "Build")).
Proof.
  apply (@waste_breakdown_counts sample_settings sample_withdrawals
           (mkDataFrame [2504; 2505; 2506]
              [Some "Committed"%string; Some "Build"%string;
               Some "Test"%string]
              [[Some 0; Some 1; None]; [Some 0; Some 0; None];
               [Some 1; Some 0; None]])
           0%nat 1%nat 2504 [Some 0; Some 1; None] "Build").
  - vm_compute. reflexivity.
  - reflexivity.
  - reflexivity.
  - reflexivity.
  - eexists. split; [left; reflexivity | reflexivity].
Defined.

(** ** NetFlowChartCalculator.run: arrivals, departures, net flow *)

Lemma length_diff (s : list (option Z)) :
  length (NetFlowChartCalculator.diff s) = length s.
Proof.
  destruct s as [|x s]; [reflexivity |]. simpl.
  rewrite length_map, length_combine. simpl. lia.
Qed.

Lemma length_fillna_diff (s : list (option Z)) :
  length (NetFlowChartCalculator.fillna (NetFlowChartCalculator.diff s) s)
  = length s.
Proof.
  unfold NetFlowChartCalculator.fillna.
  rewrite length_map, length_combine, length_diff. lia.
Qed.

Lemma fillna_diff_tail (cur prev : list Z) :
  map (fun p : option Z * option Z =>
         match fst p with Some v => Some v | None => snd p end)
      (combine (map (fun p => NetFlowChartCalculator.sub_nan (fst p) (snd p))
                    (combine (map Some cur) (map Some prev)))
               (map Some cur))
  = map Some (map (fun p => fst p - snd p) (combine cur prev)).
Proof.
  revert prev. induction cur as [|c cur IH]; intros [|p prev]; simpl;
    try reflexivity.
  f_equal. apply IH.
Qed.

(** The first differences of a series without NaN, the first value filled
    in. *)
Lemma fillna_diff_Some (z : Z) (zs : list Z) :
  NetFlowChartCalculator.fillna
    (NetFlowChartCalculator.diff (map Some (z :: zs)))
    (map Some (z :: zs))
  = map Some (z :: map (fun p => fst p - snd p) (combine zs (z :: zs))).
Proof.
  unfold NetFlowChartCalculator.fillna, NetFlowChartCalculator.diff.
  cbn [map combine fst snd]. f_equal.
  apply (fillna_diff_tail zs (z :: zs)).
Qed.

Lemma total_diffs (zs : list Z) (z : Z) (k : nat) :
  (k <= length zs)%nat ->
  z + total (firstn k (map (fun p => fst p - snd p) (combine zs (z :: zs))))
  = nth k (z :: zs) 0.
Proof.
  revert z k. induction zs as [|y zs IH]; intros z k Hk.
  - simpl in Hk. assert (k = 0%nat) by lia. subst k. simpl. lia.
  - destruct k as [|k]; [simpl; unfold total; simpl; lia |].
    cbn [combine map firstn fst snd nth]. unfold total in *.
    cbn [fold_right]. simpl in Hk.
    specialize (IH y k ltac:(lia)). cbn [nth] in IH |- *. lia.
Qed.

(** X16. Arrivals add up to the committed column: for a series without NaN,
    the series [s.diff().fillna(s)] starts with the first value of [s], and
    the sum of its first [k + 1] values is the value of [s] at [k]. *)
Theorem arrivals_add_up (zs : list Z) (k : nat) :
  (k < length zs)%nat ->
  exists ds,
    NetFlowChartCalculator.fillna
      (NetFlowChartCalculator.diff (map Some zs)) (map Some zs)
    = map Some ds
    /\ length ds = length zs
    /\ nth 0 ds 0 = nth 0 zs 0
    /\ total (firstn (S k) ds) = nth k zs 0.
Proof.
  intro Hk. destruct zs as [|z zs]; [simpl in Hk; lia |].
  eexists. split; [apply fillna_diff_Some |]. split.
  - simpl. rewrite length_map, length_combine. simpl. lia.
  - split; [reflexivity |]. cbn [firstn]. unfold total. cbn [fold_right].
    apply total_diffs. simpl in Hk. lia.
Qed.

Lemma arrivals_add_up_witness :
  exists ds,
    NetFlowChartCalculator.fillna
      (NetFlowChartCalculator.diff (map Some [3; 5; 9]))
      (map Some [3; 5; 9])
    = map Some ds
    /\ length ds = 3%nat
    /\ nth 0 ds 0 = 3
    /\ total (firstn 3 ds) = 9.
Proof.
  apply (@arrivals_add_up [3; 5; 9] 2). simpl. lia.
Defined.

Lemma positions_first c cols k :
  nth_error cols k = Some c ->
  (forall i, (i < k)%nat -> nth_error cols i <> Some c) ->
  exists rest, positions c cols = k :: rest.
Proof.
  intros Hk Hfirst.
  destruct (@positions_from c cols 0%nat (nth_error_In _ _ Hk))
    as [j [rest [Hp [Hj Hmin]]]].
  exists rest. unfold positions. rewrite Hp. f_equal. simpl.
  destruct (Nat.lt_trichotomy j k) as [H|[H|H]]; [| exact H |].
  - exfalso. exact (Hfirst j H Hj).
  - exfalso. exact (Hmin k H Hk).
Qed.

Lemma get_column_at {A : Type} (c : label) (df : DataFrame (option A)) k :
  nth_error (columns df) k = Some c ->
  (forall i, (i < k)%nat -> nth_error (columns df) i <> Some c) ->
  NetFlowChartCalculator.get_column c df = column_at k df.
Proof.
  intros Hk Hfirst. destruct (positions_first _ Hk Hfirst) as [rest Hp].
  unfold NetFlowChartCalculator.get_column. rewrite Hp. reflexivity.
Qed.

(** A column assigned under a new label goes to the end; the other columns
    are as before. *)
Lemma set_column_new {A : Type} (c : label) (col : list (option A))
    (df : DataFrame (option A)) (n : nat) :
  ~ In c (columns df) ->
  length col = length (values df) ->
  Forall (fun r => length r = n) (values df) ->
  columns (set_column c col df) = columns df ++ [c]
  /\ index (set_column c col df) = index df
  /\ length (values (set_column c col df)) = length (values df)
  /\ Forall (fun r => length r = S n) (values (set_column c col df))
  /\ column_at n (set_column c col df) = col
  /\ (forall k, (k < n)%nat ->
        column_at k (set_column c col df) = column_at k df).
Proof.
  intros Hnew Hlen Hrows. unfold set_column.
  destruct (has_column c (columns df)) eqn:E.
  { apply has_column_In in E. contradiction. }
  cbn [columns index values]. split; [reflexivity |]. split; [reflexivity |].
  unfold column_at. cbn [values].
  revert col Hlen. induction Hrows as [|r rows Hr Hrows IH]; intros col Hlen.
  - destruct col; [| discriminate]. simpl. repeat split; try constructor.
  - destruct col as [|x col]; [discriminate |]. simpl in Hlen.
    injection Hlen as Hlen. destruct (IH col Hlen) as [H1 [H2 [H3 H4]]].
    cbn [combine map fst snd length]. split; [f_equal; exact H1 |].
    split; [constructor; [rewrite length_app; simpl; lia | exact H2] |].
    split.
    + f_equal; [| exact H3]. rewrite app_nth2 by lia.
      rewrite Hr, Nat.sub_diag. reflexivity.
    + intros k Hk. f_equal; [| apply H4; exact Hk].
      apply app_nth1. lia.
Qed.

Lemma resample_agg_rows {A B : Type} (period_of : Z -> Z)
    (agg : list (option A) -> B) (df : DataFrame (option A)) :
  Forall (fun r => length r = length (columns df))
         (values (resample_agg period_of agg df)).
Proof.
  apply Forall_forall. intros r Hr. eapply resample_agg_row_length.
  exact Hr.
Qed.

Lemma select_labels_two {A : Type} (df : DataFrame A) (c d : label) :
  NoDup (columns df) -> In c (columns df) -> In d (columns df) ->
  columns (select_labels df [c; d]) = [c; d].
Proof.
  intros Hnd Hc Hd. unfold select_labels. cbn [columns take_columns].
  apply take_labels_columns; [exact Hnd |].
  intros c' [<-|[<-|[]]]; assumption.
Qed.

(** X17. When the committed and the done column are two different steps of
    the cycle, both columns of the cumulative flow table, and neither is
    named "arrivals", "departures" or "net_flow", [run] returns a table of
    five columns: the two columns, then "arrivals" and "departures", the
    first differences of the two with the first value filled in, then
    "net_flow", which is arrivals minus departures in every row. *)
Theorem net_flow_run_table (settings : Settings) (cfd_data : DataFrame Z) :
  let c := committed_column settings in
  let d := done_column settings in
  In c (map name (cycle settings)) -> In d (map name (cycle settings)) ->
  NoDup (columns cfd_data) ->
  In (Some c) (columns cfd_data) -> In (Some d) (columns cfd_data) ->
  c <> d ->
  ~ In c ["arrivals"; "departures"; "net_flow"]%string ->
  ~ In d ["arrivals"; "departures"; "net_flow"]%string ->
  exists table,
    fst (NetFlowChartCalculator.run settings cfd_data) = Ok (Some table)
    /\ columns table
       = [Some c; Some d; Some "arrivals"%string; Some "departures"%string;
          Some "net_flow"%string]
    /\ Forall (fun r => length r = 5%nat) (values table)
    /\ column_at 2 table
       = NetFlowChartCalculator.fillna
           (NetFlowChartCalculator.diff (column_at 0 table))
           (column_at 0 table)
    /\ column_at 3 table
       = NetFlowChartCalculator.fillna
           (NetFlowChartCalculator.diff (column_at 1 table))
           (column_at 1 table)
    /\ column_at 4 table
       = map (fun p => NetFlowChartCalculator.sub_nan (fst p) (snd p))
             (combine (column_at 2 table) (column_at 3 table)).
Proof.
  intros c d Hc Hd Hnd Hcc Hdc Hcd Hcr Hdr.
  unfold NetFlowChartCalculator.run. fold c d.
  rewrite (proj2 (str_in_In c _) Hc), (proj2 (str_in_In d _) Hd).
  rewrite (proj2 (has_column_In _ _) Hcc), (proj2 (has_column_In _ _) Hdc).
  cbn [negb andb]. destruct (String.eqb_spec c d) as [E|_]; [contradiction |].
  cbn [fst].
  set (sel := select_labels cfd_data [Some c; Some d]).
  set (t0 := resample_agg (net_flow_frequency settings)
               NetFlowChartCalculator.agg_max
               (mkDataFrame (index sel) (columns sel)
                  (map (map Some) (values sel)))).
  assert (Hcols0 : columns t0 = [Some c; Some d]).
  { unfold t0. rewrite resample_agg_columns. cbn [columns]. unfold sel.
    apply select_labels_two; assumption. }
  assert (Hrows0 : Forall (fun r => length r = 2%nat) (values t0)).
  { pose proof (resample_agg_rows (net_flow_frequency settings)
                  NetFlowChartCalculator.agg_max
                  (mkDataFrame (index sel) (columns sel)
                     (map (map Some) (values sel)))) as H.
    fold t0 in H. cbn [columns] in H.
    replace (columns sel) with [Some c; Some d] in H; [exact H |].
    unfold sel. symmetry. apply select_labels_two; assumption. }
  assert (Hne : forall x y : string, x <> y -> Some x <> Some y)
    by (intros x y H E; injection E; exact H).
  assert (Hca : c <> "arrivals"%string) by (intro E; apply Hcr; simpl; auto).
  assert (Hcp : c <> "departures"%string)
    by (intro E; apply Hcr; simpl; auto).
  assert (Hcn : c <> "net_flow"%string) by (intro E; apply Hcr; simpl; auto).
  assert (Hda : d <> "arrivals"%string) by (intro E; apply Hdr; simpl; auto).
  assert (Hdp : d <> "departures"%string)
    by (intro E; apply Hdr; simpl; auto).
  assert (Hdn : d <> "net_flow"%string) by (intro E; apply Hdr; simpl; auto).
  (* arrivals *)
  assert (G0 : NetFlowChartCalculator.get_column (Some c) t0
               = column_at 0 t0).
  { apply get_column_at; [rewrite Hcols0; reflexivity |]. intros i Hi. lia. }
  rewrite G0.
  set (arr := NetFlowChartCalculator.fillna
                (NetFlowChartCalculator.diff (column_at 0 t0))
                (column_at 0 t0)).
  destruct (@set_column_new Z (Some "arrivals"%string) arr t0 2)
    as [C1 [_ [L1 [R1 [A1 K1]]]]].
  { rewrite Hcols0. simpl. intros [E|[E|[]]]; injection E; auto. }
  { unfold arr. rewrite length_fillna_diff. unfold column_at.
    apply length_map. }
  { exact Hrows0. }
  set (t1 := set_column (Some "arrivals"%string) arr t0) in *.
  rewrite Hcols0 in C1. cbn [app] in C1.
  (* departures *)
  assert (G1 : NetFlowChartCalculator.get_column (Some d) t1
               = column_at 1 t1).
  { apply get_column_at; [rewrite C1; reflexivity |].
    intros i Hi. rewrite C1. destruct i as [|[|i]]; simpl; try lia.
    intro E. injection E. auto. }
  rewrite G1.
  set (dep := NetFlowChartCalculator.fillna
                (NetFlowChartCalculator.diff (column_at 1 t1))
                (column_at 1 t1)).
  destruct (@set_column_new Z (Some "departures"%string) dep t1 3)
    as [C2 [_ [L2 [R2 [A2 K2]]]]].
  { rewrite C1. simpl. intros [E|[E|[E|[]]]]; injection E; auto.
    discriminate. }
  { unfold dep. rewrite length_fillna_diff. unfold column_at.
    apply length_map. }
  { exact R1. }
  set (t2 := set_column (Some "departures"%string) dep t1) in *.
  rewrite C1 in C2. cbn [app] in C2.
  (* net_flow *)
  assert (G2 : NetFlowChartCalculator.get_column (Some "arrivals"%string) t2
               = column_at 2 t2).
  { apply get_column_at; [rewrite C2; reflexivity |].
    intros i Hi. rewrite C2. destruct i as [|[|[|i]]]; simpl; try lia;
      intro E; injection E; auto. }
  assert (G3 : NetFlowChartCalculator.get_column (Some "departures"%string) t2
               = column_at 3 t2).
  { apply get_column_at; [rewrite C2; reflexivity |].
    intros i Hi. rewrite C2. destruct i as [|[|[|[|i]]]]; simpl; try lia;
      intro E; injection E; auto; discriminate. }
  rewrite G2, G3.
  set (nf := map (fun p => NetFlowChartCalculator.sub_nan (fst p) (snd p))
                 (combine (column_at 2 t2) (column_at 3 t2))).
  destruct (@set_column_new Z (Some "net_flow"%string) nf t2 4)
    as [C3 [_ [L3 [R3 [A3 K3]]]]].
  { rewrite C2. simpl. intros [E|[E|[E|[E|[]]]]]; injection E; auto;
      discriminate. }
  { unfold nf. rewrite length_map, length_combine. unfold column_at.
    rewrite !length_map. lia. }
  { exact R2. }
  set (t3 := set_column (Some "net_flow"%string) nf t2) in *.
  rewrite C2 in C3. cbn [app] in C3.
  exists t3. split; [reflexivity |]. split; [exact C3 |].
  split; [exact R3 |].
  assert (E0 : column_at 0 t3 = column_at 0 t0).
  { rewrite K3, K2, K1 by lia. reflexivity. }
  assert (E1 : column_at 1 t3 = column_at 1 t1).
  { rewrite K3, K2 by lia. reflexivity. }
  assert (E2 : column_at 2 t3 = column_at 2 t2) by (apply K3; lia).
  assert (E3 : column_at 3 t3 = column_at 3 t2) by (apply K3; lia).
  split; [rewrite E2, K2, A1, E0 by lia; reflexivity |].
  split; [rewrite E3, A2, E1; reflexivity |].
  rewrite A3, E2, E3. reflexivity.
Qed.

Lemma net_flow_run_table_witness :
  exists table,
    fst (NetFlowChartCalculator.run sample_settings sample_cfd)
    = Ok (Some table)
    /\ columns table
       = [Some "Committed"%string; Some "Done"%string;
          Some "arrivals"%string; Some "departures"%string;
          Some "net_flow"%string].
Proof.
  destruct (@net_flow_run_table sample_settings sample_cfd)
    as [table [H1 [H2 _]]].
  - simpl. tauto.
  - simpl. tauto.
  - simpl. repeat constructor; simpl; intuition discriminate.
  - simpl. tauto.
  - simpl. tauto.
  - simpl. discriminate.
  - simpl. intuition discriminate.
  - simpl. intuition discriminate.
  - exists table. split; assumption.
Defined.

(** ** NetFlowChartCalculator.write *)

(** X18. When the committed or the done column is not a step of the cycle,
    [run] returns [None]; [write], with a chart file set, then reads
    [chart_data.index] of that [None] and raises [AttributeError]. *)
Theorem net_flow_write_after_failed_run (settings : Settings)
    (cfd_data : DataFrame Z) (output_file : string) (window : option Z) :
  ~ In (committed_column settings) (map name (cycle settings))
  \/ ~ In (done_column settings) (map name (cycle settings)) ->
  output_file <> EmptyString ->
  exists chart_data,
    fst (NetFlowChartCalculator.run settings cfd_data) = Ok chart_data
    /\ fst (net_flow_write (Some output_file) window chart_data)
       = inl (AttributeError "'NoneType' object has no attribute 'index'").
Proof.
  intros H Hfile. exists None. split.
  - unfold NetFlowChartCalculator.run.
    destruct (str_in (committed_column settings) (map name (cycle settings)))
      eqn:Ec; [| reflexivity].
    destruct H as [H | H].
    + apply str_in_not_In in H. congruence.
    + rewrite (str_in_not_In _ _ H). reflexivity.
  - destruct output_file; [congruence | reflexivity].
Qed.

Lemma net_flow_write_after_failed_run_witness :
  exists chart_data,
    fst (NetFlowChartCalculator.run misspelt_settings sample_cfd)
    = Ok chart_data
    /\ fst (net_flow_write (Some "net-flow.png"%string) (Some 6) chart_data)
       = inl (AttributeError "'NoneType' object has no attribute 'index'").
Proof.
  apply (@net_flow_write_after_failed_run misspelt_settings sample_cfd
           "net-flow.png"%string (Some 6)).
  - vm_compute. left. intuition discriminate.
  - discriminate.
Defined.









(** ** DefectsCalculator *)

Lemma breakdown_by_month_nonempty (today : Timestamp) (df : list Item) :
  df <> [] ->
  exists t,
    breakdown_by_month today df = Ok t
    /\ columns t = sort_unique label_compare (map category df)
    /\ length (index t) = length (values t)
    /\ Forall (fun r => length r = length (columns t)) (values t).
Proof.
  intro Hne. unfold breakdown_by_month, breakdown_by_month_on, concat_on.
  destruct (map (ByMonth.build_df today) df) as [|f fs] eqn:E.
  { destruct df; [congruence | discriminate]. }
  cbn [bind]. eexists. split; [reflexivity |].
  split; [| split].
  - rewrite resample_agg_columns. cbn [columns union_columns].
    rewrite <- E, flat_map_map. unfold ByMonth.build_df. cbn [columns].
    rewrite flat_map_singleton. reflexivity.
  - unfold resample_agg. destruct (map _ (index _)); cbn [index values];
      [reflexivity | rewrite length_map; reflexivity].
  - rewrite resample_agg_columns. apply resample_agg_rows.
Qed.

Lemma filter_by_threshold_short (df : DataFrame Z) (thr : Q) :
  ~ (thr == 0)%Q -> (length (values df) < 2)%nat ->
  fst (filter_by_threshold df (Some thr))
  = Raise (IndexError "index 1 is out of bounds").
Proof.
  intros Hthr Hlen. unfold filter_by_threshold.
  rewrite truthy_Some by exact Hthr.
  replace (nth_error (map sum_row (values df)) 1) with (@None Z);
    [reflexivity |].
  symmetry. apply nth_error_None. rewrite length_map. lia.
Qed.

Lemma filter_by_threshold_falsy (df : DataFrame Z) (threshold : option Q) :
  truthy threshold = None -> fst (filter_by_threshold df threshold) = Ok df.
Proof.
  intro H. unfold filter_by_threshold. rewrite H. reflexivity.
Qed.

Lemma filter_by_threshold_result (df : DataFrame Z) (threshold : option Q) :
  (exists out, fst (filter_by_threshold df threshold) = Ok out)
  \/ (truthy threshold <> None
      /\ fst (filter_by_threshold df threshold)
         = Raise (IndexError "index 1 is out of bounds")).
Proof.
  unfold filter_by_threshold. destruct (truthy threshold) as [thr|].
  - destruct (nth_error _ 1).
    + left. eexists. reflexivity.
    + right. split; [discriminate | reflexivity].
  - left. eexists. reflexivity.
Qed.

Lemma sort_colums_by_last_row_rows (argsort : list Z -> list nat)
    (df : DataFrame Z) (ascending : option bool) :
  length (values (sort_colums_by_last_row argsort df ascending))
  = length (values df).
Proof.
  unfold sort_colums_by_last_row.
  destruct ((0 <? length (index df))%nat && (0 <? length (columns df))%nat);
    [| reflexivity].
  cbn [take_columns values]. apply length_map.
Qed.

Lemma filter_by_columns_rows {A : Type} (df : DataFrame A)
    (output_columns : option (list label)) :
  length (values (filter_by_columns df output_columns))
  = length (values df).
Proof.
  unfold filter_by_columns. destruct output_columns as [[|c cols]|];
    try reflexivity.
  unfold select_labels. cbn [take_columns values]. apply length_map.
Qed.

(** X20. With a window of one month and a non-zero threshold the table of a
    defects chart has a single row, so [filter_by_threshold] raises
    [IndexError] at [total[1]], whatever the defects and the wanted values
    are. *)
Theorem defects_breakdown_window_one (argsort : list Z -> list nat)
    (today : Timestamp) (chart_data : list DefectsCalculator.Row)
    (field : DefectsCalculator.Field) (field_values : option (list label))
    (thr : Q) (sort : bool) :
  chart_data <> [] -> ~ (thr == 0)%Q ->
  DefectsCalculator.breakdown argsort today chart_data field field_values
    (Some 1) (Some thr) sort
  = Raise (IndexError "index 1 is out of bounds").
Proof.
  intros Hne Hthr. unfold DefectsCalculator.breakdown.
  destruct (@breakdown_by_month_nonempty today
              (DefectsCalculator.items field chart_data))
    as [t [Et _]].
  { unfold DefectsCalculator.items. destruct chart_data;
      [congruence | discriminate]. }
  rewrite Et. cbn [bind].
  apply filter_by_threshold_short; [exact Hthr |].
  assert (H : (length (values (filter_by_window
                                 (filter_by_columns t field_values)
                                 (Some 1%Z))) < 2)%nat).
  { unfold filter_by_window. cbn [Z.eqb values].
    rewrite slice_from_last by lia. rewrite length_skipn. lia. }
  destruct sort; [rewrite sort_colums_by_last_row_rows |]; exact H.
Qed.

Lemma defects_breakdown_window_one_witness :
  DefectsCalculator.breakdown argsort_stable a_day_in_june sample_defects
    DefectsCalculator.Priority None (Some 1) (Some 10%Q) false
  = Raise (IndexError "index 1 is out of bounds").
Proof.
  apply (@defects_breakdown_window_one argsort_stable a_day_in_june
           sample_defects DefectsCalculator.Priority None 10%Q false).
  - discriminate.
  - unfold Qeq. simpl. lia.
Defined.

Lemma fold_min_const (m : Z) (l : list Z) :
  (forall x, In x l -> x = m) -> fold_right Z.min m l = m.
Proof.
  intro H. destruct (fold_min_spec m l) as [[E | Hin] _];
    [symmetry; exact E | apply H; exact Hin].
Qed.

Lemma fold_max_const (m : Z) (l : list Z) :
  (forall x, In x l -> x = m) -> fold_right Z.max m l = m.
Proof.
  intro H. destruct (fold_max_spec m l) as [[E | Hin] _];
    [symmetry; exact E | apply H; exact Hin].
Qed.

Lemma breakdown_by_month_one_month (today : Timestamp) (df : list Item)
    (m : Z) :
  df <> [] ->
  (forall t, In t df -> first_month t = m /\ last_month today t = m) ->
  exists table,
    breakdown_by_month today df = Ok table
    /\ index table = [m] /\ length (values table) = 1%nat.
Proof.
  intros Hne Hm.
  assert (Hidx : forall l : list Item,
             (forall t, In t l -> first_month t = m /\ last_month today t = m)
             -> flat_map (@index _) (map (ByMonth.build_df today) l)
                = map (fun _ => m) l).
  { induction l as [|a l IH]; intro H; [reflexivity |].
    cbn [map flat_map]. rewrite IH by (intros t Ht; apply H; right; exact Ht).
    unfold ByMonth.build_df at 1. cbn [index]. unfold date_range_MS.
    destruct (H a (or_introl eq_refl)) as [-> ->]. rewrite zrange_one.
    reflexivity. }
  destruct df as [|a df]; [congruence |].
  unfold breakdown_by_month, concat. cbn [map bind].
  eexists. split; [reflexivity |].
  unfold resample_agg. cbn [index].
  change (ByMonth.build_df today a :: map (ByMonth.build_df today) df)
    with (map (ByMonth.build_df today) (a :: df)).
  rewrite (Hidx (a :: df) Hm). rewrite map_map. cbn [map].
  assert (Hall : forall x, In x (map (fun _ : Item => m) df) -> x = m).
  { intros x Hx. apply in_map_iff in Hx. destruct Hx as [_ [E _]].
    symmetry. exact E. }
  rewrite (fold_min_const _ Hall), (fold_max_const _ Hall), zrange_one.
  split; reflexivity.
Qed.

Lemma filter_by_window_rows {A : Type} (df : DataFrame A)
    (window : option Z) :
  (length (values (filter_by_window df window)) <= length (values df))%nat.
Proof.
  unfold filter_by_window. destruct window as [w|]; [| lia].
  destruct (w =? 0); [lia |]. cbn [values]. unfold slice_from.
  rewrite length_skipn. lia.
Qed.

(** X21. When every defect is created and ends (or, being unresolved, is
    still open today) in one and the same month, the table of a defects
    chart has a single row, and a non-zero threshold makes the chart raise
    [IndexError], whatever the window is. *)
Theorem defects_breakdown_single_month (argsort : list Z -> list nat)
    (today : Timestamp) (chart_data : list DefectsCalculator.Row)
    (field : DefectsCalculator.Field) (field_values : option (list label))
    (window : option Z) (thr : Q) (sort : bool) (m : Z) :
  chart_data <> [] -> ~ (thr == 0)%Q ->
  (forall t, In t (DefectsCalculator.items field chart_data) ->
     first_month t = m /\ last_month today t = m) ->
  DefectsCalculator.breakdown argsort today chart_data field field_values
    window (Some thr) sort
  = Raise (IndexError "index 1 is out of bounds").
Proof.
  intros Hne Hthr Hm. unfold DefectsCalculator.breakdown.
  destruct (@breakdown_by_month_one_month today
              (DefectsCalculator.items field chart_data) m)
    as [t [Et [_ Hrows]]].
  { unfold DefectsCalculator.items. destruct chart_data;
      [congruence | discriminate]. }
  { exact Hm. }
  rewrite Et. cbn [bind].
  apply filter_by_threshold_short; [exact Hthr |].
  assert (H : (length (values (filter_by_window
                                 (filter_by_columns t field_values)
                                 window)) < 2)%nat).
  { pose proof (filter_by_window_rows (filter_by_columns t field_values)
                  window) as H.
    rewrite filter_by_columns_rows, Hrows in H. lia. }
  destruct sort; [rewrite sort_colums_by_last_row_rows |]; exact H.
Qed.

Lemma defects_breakdown_single_month_witness :
  DefectsCalculator.breakdown argsort_stable (ts 2018 2 20)
    [ DefectsCalculator.mkRow "D-1" (Some "high"%string) (Some "bug"%string)
        (Some "prod"%string) (ts 2018 2 3) (Some (ts 2018 2 9));
      DefectsCalculator.mkRow "D-2" (Some "low"%string) (Some "bug"%string)
        (Some "test"%string) (ts 2018 2 7) None ]
    DefectsCalculator.Type_ None (Some 6) (Some 10%Q) true
  = Raise (IndexError "index 1 is out of bounds").
Proof.
  apply (@defects_breakdown_single_month argsort_stable (ts 2018 2 20)
           [ DefectsCalculator.mkRow "D-1" (Some "high"%string)
               (Some "bug"%string) (Some "prod"%string) (ts 2018 2 3)
               (Some (ts 2018 2 9));
             DefectsCalculator.mkRow "D-2" (Some "low"%string)
               (Some "bug"%string) (Some "test"%string) (ts 2018 2 7) None ]
           DefectsCalculator.Type_ None (Some 6) 10%Q true
           (month_of 2018 2)).
  - discriminate.
  - unfold Qeq. simpl. lia.
  - intros t [<- | [<- | []]]; vm_compute; split; reflexivity.
Defined.

Lemma write_chart_result (draw : Renderer)
    (current_palette : option Palette) (argsort : list Z -> list nat)
    (today : Timestamp) (chart_data : list DefectsCalculator.Row)
    (output_file : option string) (field : DefectsCalculator.Field)
    (palette : option Palette) (field_values : option (list label))
    (window : option Z) (threshold : option Q) (sort : bool)
    (acc : list DefectsCalculator.Chart * list LogRecord) :
  chart_data <> [] ->
  (exists r,
     DefectsCalculator.write_chart draw current_palette argsort today
       chart_data output_file field palette field_values window threshold
       sort acc = Ok r)
  \/ (truthy threshold <> None
      /\ DefectsCalculator.is_set output_file = true
      /\ DefectsCalculator.write_chart draw current_palette argsort today
           chart_data output_file field palette field_values window
           threshold sort acc
         = Raise (IndexError "index 1 is out of bounds"))
  \/ (exists e,
        DefectsCalculator.raised_by draw e
        /\ DefectsCalculator.is_set output_file = true
        /\ DefectsCalculator.write_chart draw current_palette argsort today
             chart_data output_file field palette field_values window
             threshold sort acc
           = Raise e).
Proof.
  intro Hne. unfold DefectsCalculator.write_chart.
  destruct (DefectsCalculator.is_set output_file);
    [| left; eexists; reflexivity].
  unfold DefectsCalculator.write_defects_by_field_chart,
    DefectsCalculator.breakdown.
  destruct (@breakdown_by_month_nonempty today
              (DefectsCalculator.items field chart_data))
    as [t [Et _]].
  { unfold DefectsCalculator.items. destruct chart_data;
      [congruence | discriminate]. }
  rewrite Et. cbn [bind].
  destruct (filter_by_threshold_result
              (if sort
               then sort_colums_by_last_row argsort
                      (filter_by_window (filter_by_columns t field_values)
                         window) None
               else filter_by_window (filter_by_columns t field_values)
                      window)
              threshold) as [[out E] | [Ht E]].
  - rewrite E. cbn [bind].
    destruct ((length (index out) =? 0)%nat
              || (length (columns out) =? 0)%nat);
      cbn [bind]; [left; eexists; reflexivity |].
    unfold Chart.use_palette.
    destruct (color_palette draw _ _) as [[]|e] eqn:E1; cbn [bind].
    2: { right. right. exists e. split; [| split; reflexivity].
         left. eexists. eexists. exact E1. }
    destruct (plot_bar draw out) as [[]|e] eqn:E2; cbn [bind].
    2: { right. right. exists e. split; [| split; reflexivity].
         right. left. eexists. exact E2. }
    destruct (savefig draw _) as [[]|e] eqn:E3; cbn [bind].
    2: { right. right. exists e. split; [| split; reflexivity].
         right. right. eexists. exact E3. }
    left. eexists. reflexivity.
  - right. left. rewrite E. cbn [bind]. repeat split; [exact Ht].
Qed.

Lemma write_chart_draws (draw : Renderer)
    (current_palette : option Palette) (argsort : list Z -> list nat)
    (today : Timestamp) (chart_data : list DefectsCalculator.Row)
    (output_file : option string) (field : DefectsCalculator.Field)
    (palette : option Palette) (field_values : option (list label))
    (window : option Z) (threshold : option Q) (sort : bool)
    (acc : list DefectsCalculator.Chart * list LogRecord) :
  chart_data <> [] -> DefectsCalculator.draws draw ->
  truthy threshold = None ->
  exists r,
    DefectsCalculator.write_chart draw current_palette argsort today
      chart_data output_file field palette field_values window threshold
      sort acc = Ok r.
Proof.
  intros Hne [Hd1 [Hd2 Hd3]] Ht.
  destruct (@write_chart_result draw current_palette argsort today
              chart_data output_file field palette field_values window
              threshold sort acc Hne)
    as [H | [[H _] | [e [[[p [n H]] | [[b H] | [f H]]] _]]]].
  - exact H.
  - contradiction.
  - rewrite Hd1 in H. discriminate.
  - rewrite Hd2 in H. discriminate.
  - rewrite Hd3 in H. discriminate.
Qed.

(** X22. [write] raises nothing when none of the three thresholds is set
    (each is [None] or 0) and no call of seaborn and matplotlib raises:
    whatever the defects, the settings and the chart files are, it
    returns, with the charts it drew and its log. *)
Theorem defects_write_without_threshold (draw : Renderer)
    (current_palette : option Palette) (argsort : list Z -> list nat)
    (today : Timestamp) (settings : DefectsCalculator.DefectsSettings)
    (chart_data : option (list DefectsCalculator.Row)) :
  DefectsCalculator.draws draw ->
  truthy (DefectsCalculator.defects_priority_threshold settings) = None ->
  truthy (DefectsCalculator.defects_type_threshold settings) = None ->
  truthy (DefectsCalculator.defects_environment_threshold settings) = None ->
  exists charts log,
    DefectsCalculator.write draw current_palette argsort today settings
      chart_data
    = Ok (charts, log).
Proof.
  intros Hd H1 H2 H3. unfold DefectsCalculator.write.
  destruct chart_data as [[|r rows]|]; try (do 2 eexists; reflexivity).
  assert (Hne : r :: rows <> []) by discriminate.
  destruct (@write_chart_draws draw current_palette argsort today
              (r :: rows)
              (DefectsCalculator.defects_by_priority_chart settings)
              DefectsCalculator.Priority
              (DefectsCalculator.defects_by_priority_chart_palette settings)
              (DefectsCalculator.defects_priority_values settings)
              (DefectsCalculator.defects_window settings)
              (DefectsCalculator.defects_priority_threshold settings)
              false ([], []) Hne Hd H1) as [acc1 E1].
  rewrite E1. cbn [bind].
  destruct (@write_chart_draws draw current_palette argsort today
              (r :: rows)
              (DefectsCalculator.defects_by_type_chart settings)
              DefectsCalculator.Type_
              (DefectsCalculator.defects_by_type_chart_palette settings)
              (DefectsCalculator.defects_type_values settings)
              (DefectsCalculator.defects_window settings)
              (DefectsCalculator.defects_type_threshold settings)
              true acc1 Hne Hd H2) as [acc2 E2].
  rewrite E2. cbn [bind].
  destruct (@write_chart_draws draw current_palette argsort today
              (r :: rows)
              (DefectsCalculator.defects_by_environment_chart settings)
              DefectsCalculator.Environment
              (DefectsCalculator.defects_by_environment_chart_palette
                 settings)
              (DefectsCalculator.defects_environment_values settings)
              (DefectsCalculator.defects_window settings)
              (DefectsCalculator.defects_environment_threshold settings)
              true acc2 Hne Hd H3) as [[charts log] E3].
  exists charts, log. exact E3.
Qed.

Lemma defects_write_without_threshold_witness :
  exists charts log,
    DefectsCalculator.write sample_renderer None argsort_stable
      a_day_in_june sample_defects_settings (Some sample_defects)
    = Ok (charts, log).
Proof.
  apply (@defects_write_without_threshold sample_renderer None
           argsort_stable a_day_in_june sample_defects_settings
           (Some sample_defects)).
  - repeat split.
  - reflexivity.
  - reflexivity.
  - reflexivity.
Defined.

(** X23. An exception that [write] raises is either one that a call of
    seaborn or matplotlib raised, or the [IndexError] of
    [filter_by_threshold], which takes a chart that has both a file and a
    non-zero threshold; either way there is at least one defect and a chart
    with a file.  In particular no defects at all, or no result of [run],
    raise nothing. *)
Theorem defects_write_raises (draw : Renderer)
    (current_palette : option Palette) (argsort : list Z -> list nat)
    (today : Timestamp) (settings : DefectsCalculator.DefectsSettings)
    (chart_data : option (list DefectsCalculator.Row)) (e : PyError) :
  DefectsCalculator.write draw current_palette argsort today settings
    chart_data = Raise e ->
  (exists r rows, chart_data = Some (r :: rows))
  /\ (DefectsCalculator.is_set
        (DefectsCalculator.defects_by_priority_chart settings) = true
      \/ DefectsCalculator.is_set
           (DefectsCalculator.defects_by_type_chart settings) = true
      \/ DefectsCalculator.is_set
           (DefectsCalculator.defects_by_environment_chart settings) = true)
  /\ (DefectsCalculator.raised_by draw e
      \/ (e = IndexError "index 1 is out of bounds"
          /\ ((DefectsCalculator.is_set
                 (DefectsCalculator.defects_by_priority_chart settings)
               = true
               /\ truthy (DefectsCalculator.defects_priority_threshold
                            settings) <> None)
              \/ (DefectsCalculator.is_set
                    (DefectsCalculator.defects_by_type_chart settings)
                  = true
                  /\ truthy (DefectsCalculator.defects_type_threshold
                               settings) <> None)
              \/ (DefectsCalculator.is_set
                    (DefectsCalculator.defects_by_environment_chart
                       settings) = true
                  /\ truthy (DefectsCalculator.defects_environment_threshold
                               settings) <> None)))).
Proof.
  unfold DefectsCalculator.write.
  destruct chart_data as [[|r rows]|]; try discriminate.
  assert (Hne : r :: rows <> []) by discriminate.
  destruct (@write_chart_result draw current_palette argsort today
              (r :: rows)
              (DefectsCalculator.defects_by_priority_chart settings)
              DefectsCalculator.Priority
              (DefectsCalculator.defects_by_priority_chart_palette settings)
              (DefectsCalculator.defects_priority_values settings)
              (DefectsCalculator.defects_window settings)
              (DefectsCalculator.defects_priority_threshold settings)
              false ([], []) Hne)
    as [[acc1 E1] | [[Ht [Hs E1]] | [e1 [Hr [Hs E1]]]]];
    rewrite E1; cbn [bind].
  2: { intro H. injection H as <-.
       split; [exists r, rows; reflexivity |].
       split; [left; exact Hs |].
       right. split; [reflexivity | left; split; assumption]. }
  2: { intro H. injection H as <-.
       split; [exists r, rows; reflexivity |].
       split; [left; exact Hs | left; exact Hr]. }
  destruct (@write_chart_result draw current_palette argsort today
              (r :: rows)
              (DefectsCalculator.defects_by_type_chart settings)
              DefectsCalculator.Type_
              (DefectsCalculator.defects_by_type_chart_palette settings)
              (DefectsCalculator.defects_type_values settings)
              (DefectsCalculator.defects_window settings)
              (DefectsCalculator.defects_type_threshold settings)
              true acc1 Hne)
    as [[acc2 E2] | [[Ht [Hs E2]] | [e2 [Hr [Hs E2]]]]];
    rewrite E2; cbn [bind].
  2: { intro H. injection H as <-.
       split; [exists r, rows; reflexivity |].
       split; [right; left; exact Hs |].
       right. split; [reflexivity | right; left; split; assumption]. }
  2: { intro H. injection H as <-.
       split; [exists r, rows; reflexivity |].
       split; [right; left; exact Hs | left; exact Hr]. }
  destruct (@write_chart_result draw current_palette argsort today
              (r :: rows)
              (DefectsCalculator.defects_by_environment_chart settings)
              DefectsCalculator.Environment
              (DefectsCalculator.defects_by_environment_chart_palette
                 settings)
              (DefectsCalculator.defects_environment_values settings)
              (DefectsCalculator.defects_window settings)
              (DefectsCalculator.defects_environment_threshold settings)
              true acc2 Hne)
    as [[acc3 E3] | [[Ht [Hs E3]] | [e3 [Hr [Hs E3]]]]];
    rewrite E3.
  - discriminate.
  - intro H. injection H as <-.
    split; [exists r, rows; reflexivity |].
    split; [right; right; exact Hs |].
    right. split; [reflexivity | right; right; split; assumption].
  - intro H. injection H as <-.
    split; [exists r, rows; reflexivity |].
    split; [right; right; exact Hs | left; exact Hr].
Qed.

Lemma defects_write_raises_witness :
  (exists r rows, Some sample_defects = Some (r :: rows))
  /\ (DefectsCalculator.is_set
        (DefectsCalculator.defects_by_priority_chart sample_defects_settings)
      = true
      \/ DefectsCalculator.is_set
           (DefectsCalculator.defects_by_type_chart sample_defects_settings)
         = true
      \/ DefectsCalculator.is_set
           (DefectsCalculator.defects_by_environment_chart
              sample_defects_settings) = true)
  /\ (DefectsCalculator.raised_by read_only_renderer
        (ValueError "Format is not supported")
      \/ (ValueError "Format is not supported"
          = IndexError "index 1 is out of bounds"
          /\ ((DefectsCalculator.is_set
                 (DefectsCalculator.defects_by_priority_chart
                    sample_defects_settings) = true
               /\ truthy (DefectsCalculator.defects_priority_threshold
                            sample_defects_settings) <> None)
              \/ (DefectsCalculator.is_set
                    (DefectsCalculator.defects_by_type_chart
                       sample_defects_settings) = true
                  /\ truthy (DefectsCalculator.defects_type_threshold
                               sample_defects_settings) <> None)
              \/ (DefectsCalculator.is_set
                    (DefectsCalculator.defects_by_environment_chart
                       sample_defects_settings) = true
                  /\ truthy (DefectsCalculator.defects_environment_threshold
                               sample_defects_settings) <> None)))).
Proof.
  apply (@defects_write_raises read_only_renderer None argsort_stable
           a_day_in_june sample_defects_settings (Some sample_defects)
           (ValueError "Format is not supported")).
  vm_compute. reflexivity.
Defined.

Lemma has_column_ext (c : label) (l l' : list label) :
  (forall x, In x l <-> In x l') -> has_column c l = has_column c l'.
Proof.
  intro H. destruct (has_column c l) eqn:E1, (has_column c l') eqn:E2;
    try reflexivity.
  - apply has_column_In, H, has_column_In in E1. congruence.
  - apply has_column_In, H, has_column_In in E2. congruence.
Qed.

(** X24. Without sorting and without a threshold (the chart by priority
    with its threshold unset), the columns of the chart are the wanted
    values that occur among the defects, in the order in which they are
    wanted; values that occur but are not wanted are left out. *)
Theorem defects_breakdown_wanted_columns (argsort : list Z -> list nat)
    (today : Timestamp) (chart_data : list DefectsCalculator.Row)
    (field : DefectsCalculator.Field) (wanted : list label)
    (window : option Z) (threshold : option Q) :
  chart_data <> [] -> wanted <> [] -> truthy threshold = None ->
  exists table,
    DefectsCalculator.breakdown argsort today chart_data field (Some wanted)
      window threshold false = Ok table
    /\ columns table
       = filter (fun v => has_column v
                            (map (DefectsCalculator.field_of field)
                                 chart_data))
                wanted.
Proof.
  intros Hne Hw Ht. unfold DefectsCalculator.breakdown.
  destruct (@breakdown_by_month_nonempty today
              (DefectsCalculator.items field chart_data))
    as [t [Et [Ecols _]]].
  { unfold DefectsCalculator.items. destruct chart_data;
      [congruence | discriminate]. }
  rewrite Et. cbn [bind]. rewrite filter_by_threshold_falsy by exact Ht.
  eexists. split; [reflexivity |].
  rewrite filter_by_window_columns. unfold filter_by_columns.
  destruct wanted as [|w0 wanted]; [congruence |].
  unfold select_labels. cbn [take_columns columns].
  assert (Hcats : forall x,
             In x (columns t)
             <-> In x (map (DefectsCalculator.field_of field) chart_data)).
  { intro x. rewrite Ecols.
    rewrite (sort_unique_In label_compare label_compare_eq).
    unfold DefectsCalculator.items. rewrite map_map. cbn [category].
    reflexivity. }
  rewrite take_labels_columns.
  - apply filter_ext. intro c. apply has_column_ext. exact Hcats.
  - rewrite Ecols.
    apply (sort_unique_NoDup label_compare label_compare_eq
             label_compare_antisym label_compare_trans).
  - intros c Hc. apply filter_In in Hc. apply has_column_In. apply Hc.
Qed.

Lemma defects_breakdown_wanted_columns_witness :
  exists table,
    DefectsCalculator.breakdown argsort_stable a_day_in_june sample_defects
      DefectsCalculator.Priority
      (Some [Some "low"%string; Some "medium"%string; Some "high"%string])
      (Some 6) None false = Ok table
    /\ columns table
       = filter (fun v => has_column v
                            (map (DefectsCalculator.field_of
                                    DefectsCalculator.Priority)
                                 sample_defects))
                [Some "low"%string; Some "medium"%string;
                 Some "high"%string].
Proof.
  apply (@defects_breakdown_wanted_columns argsort_stable a_day_in_june
           sample_defects DefectsCalculator.Priority
           [Some "low"%string; Some "medium"%string; Some "high"%string]
           (Some 6) None).
  - discriminate.
  - discriminate.
  - reflexivity.
Defined.

(** X25. A chart that [_write_defects_by_field_chart] draws goes to the
    file it was given and has at least one row and one column; the number
    of colours asked of the palette is even, and is the number of columns
    or one more. *)
Theorem defects_chart_palette (draw : Renderer)
    (current_palette : option Palette) (argsort : list Z -> list nat)
    (today : Timestamp) (chart_data : list DefectsCalculator.Row)
    (output_file : string) (field : DefectsCalculator.Field)
    (palette : option Palette)
    (field_values : option (list label)) (window : option Z)
    (threshold : option Q) (sort : bool) (c : DefectsCalculator.Chart)
    (log : list LogRecord) :
  DefectsCalculator.write_defects_by_field_chart draw current_palette
    argsort today chart_data output_file field palette field_values window
    threshold sort
  = Ok (Some c, log) ->
  let n := length (columns (DefectsCalculator.chart_table c)) in
  let k := DefectsCalculator.chart_n_colors c in
  DefectsCalculator.chart_file c = output_file
  /\ index (DefectsCalculator.chart_table c) <> []
  /\ (0 < n)%nat
  /\ (k mod 2 = 0)%nat
  /\ (n <= k <= n + 1)%nat.
Proof.
  unfold DefectsCalculator.write_defects_by_field_chart.
  destruct (DefectsCalculator.breakdown _ _ _ _ _ _ _ _) as [b | e];
    cbn [bind]; [| discriminate].
  destruct (Nat.eqb_spec (length (index b)) 0) as [E1 | E1];
    cbn [orb]; [discriminate |].
  destruct (Nat.eqb_spec (length (columns b)) 0) as [E2 | E2];
    [discriminate |].
  destruct (Chart.use_palette _ _ _ _) as [[]|e1]; cbn [bind];
    [| discriminate].
  destruct (plot_bar draw b) as [[]|e2]; cbn [bind]; [| discriminate].
  destruct (savefig draw output_file) as [[]|e3]; cbn [bind];
    [| discriminate].
  intro H. injection H as <- _.
  cbn [DefectsCalculator.chart_table DefectsCalculator.chart_n_colors
       DefectsCalculator.chart_file].
  split; [reflexivity |].
  split; [intro E; rewrite E in E1; apply E1; reflexivity |].
  split; [lia |].
  unfold DefectsCalculator.n_colors.
  pose proof (Nat.div_mod_eq (length (columns b)) 2) as D1.
  pose proof (Nat.mod_upper_bound (length (columns b)) 2) as U1.
  destruct (Nat.eqb_spec (length (columns b) mod 2) 0) as [E | E].
  - split; [exact E | lia].
  - pose proof (Nat.div_mod_eq (length (columns b) + 1) 2) as D2.
    pose proof (Nat.mod_upper_bound (length (columns b) + 1) 2) as U2.
    split; lia.
Qed.

Lemma defects_chart_palette_witness :
  DefectsCalculator.chart_file sample_priority_chart = "priority.png"%string
  /\ index (DefectsCalculator.chart_table sample_priority_chart) <> []
  /\ (0 < length (columns (DefectsCalculator.chart_table
                             sample_priority_chart)))%nat
  /\ (DefectsCalculator.chart_n_colors sample_priority_chart mod 2 = 0)%nat
  /\ (length (columns (DefectsCalculator.chart_table sample_priority_chart))
      <= DefectsCalculator.chart_n_colors sample_priority_chart
      <= length (columns (DefectsCalculator.chart_table
                            sample_priority_chart)) + 1)%nat.
Proof.
  apply (@defects_chart_palette sample_renderer None argsort_stable
           a_day_in_june sample_defects
           "priority.png"%string DefectsCalculator.Priority
           (Some (Colors ["RdYlGn"%string]))
           (Some [Some "low"%string; Some "medium"%string;
                  Some "high"%string])
           (Some 6) None false sample_priority_chart
           [mkLogRecord INFO
              "Writing defects by priority chart to priority.png"]).
  vm_compute. reflexivity.
Defined.

(** ** extend_dict *)

Lemma dict_get_set {V : Type} (k k' : string) (v : V) (d : dict V) :
  dict_get k (dict_set k' v d)
  = if String.eqb k k' then Some v else dict_get k d.
Proof.
  induction d as [|[k0 v0] d IH]; simpl.
  - reflexivity.
  - destruct (String.eqb_spec k' k0) as [-> | Hne]; simpl.
    + destruct (String.eqb k k0); reflexivity.
    + rewrite IH. destruct (String.eqb_spec k k0) as [-> | Hne'].
      * destruct (String.eqb_spec k0 k') as [E | _]; [congruence |].
        reflexivity.
      * reflexivity.
Qed.

Lemma dict_get_None {V : Type} (k : string) (d : dict V) :
  ~ In k (map fst d) -> dict_get k d = None.
Proof.
  induction d as [|[k0 v0] d IH]; simpl; [reflexivity |].
  intro H. destruct (String.eqb_spec k k0) as [-> | _].
  - exfalso. apply H. left. reflexivity.
  - apply IH. intro Hin. apply H. right. exact Hin.
Qed.

Lemma dict_set_keys {V : Type} (k : string) (v : V) (d : dict V) :
  map fst (dict_set k v d)
  = if str_in k (map fst d) then map fst d else map fst d ++ [k].
Proof.
  induction d as [|[k0 v0] d IH]; [reflexivity |].
  cbn [dict_set map fst str_in existsb]. unfold str_in in IH.
  destruct (String.eqb_spec k k0) as [-> | Hne]; [reflexivity |].
  cbn [map fst orb]. rewrite IH.
  destruct (existsb (String.eqb k) (map fst d)); reflexivity.
Qed.

(** X26. In [extend_dict(d, e)] a key of [e] has the value it has in [e],
    and every other key the value it has in [d], if any. *)
Theorem extend_dict_lookup {V : Type} (d e : dict V) (k : string) :
  NoDup (map fst e) ->
  dict_get k (extend_dict d e)
  = match dict_get k e with
    | Some v => Some v
    | None => dict_get k d
    end.
Proof.
  unfold extend_dict, dict_update. revert d.
  induction e as [|[k' v'] e IH]; intros d Hnd; [reflexivity |].
  inversion Hnd as [|x l Hnotin Hnd' Ex]; subst.
  cbn [fold_left fst snd]. rewrite (IH _ Hnd'). cbn [dict_get].
  rewrite dict_get_set. cbn [map fst] in Hnotin.
  destruct (String.eqb_spec k k') as [-> | Hne].
  - rewrite (dict_get_None _ _ Hnotin). reflexivity.
  - reflexivity.
Qed.

Lemma extend_dict_lookup_witness :
  dict_get "b"%string (extend_dict sample_dict sample_overrides)
  = match dict_get "b"%string sample_overrides with
    | Some v => Some v
    | None => dict_get "b"%string sample_dict
    end.
Proof.
  apply (@extend_dict_lookup Z sample_dict sample_overrides "b"%string).
  simpl. repeat constructor; simpl; intuition discriminate.
Defined.

(** X27. [extend_dict(d, e)] keeps the keys of [d] in their order and puts
    after them the keys of [e] that [d] does not have, in the order of [e];
    so its keys are distinct when those of [d] and of [e] are. *)
Theorem extend_dict_keys {V : Type} (d e : dict V) :
  NoDup (map fst e) ->
  map fst (extend_dict d e)
  = map fst d
    ++ filter (fun k => negb (str_in k (map fst d))) (map fst e).
Proof.
  unfold extend_dict, dict_update. revert d.
  induction e as [|[k' v'] e IH]; intros d Hnd.
  - simpl. rewrite app_nil_r. reflexivity.
  - inversion Hnd as [|x l Hnotin Hnd' Ex]; subst.
    cbn [fold_left fst snd map filter]. rewrite (IH _ Hnd').
    rewrite dict_set_keys. cbn [map fst] in Hnotin.
    destruct (str_in k' (map fst d)) eqn:E; cbn [negb].
    + reflexivity.
    + rewrite <- app_assoc. cbn [app]. f_equal. f_equal.
      apply filter_ext_in. intros k Hk. f_equal.
      unfold str_in. rewrite existsb_app. cbn [existsb].
      destruct (String.eqb_spec k k') as [-> | _]; [contradiction |].
      rewrite !orb_false_r. reflexivity.
Qed.

Lemma extend_dict_keys_witness :
  map fst (extend_dict sample_dict sample_overrides)
  = map fst sample_dict
    ++ filter (fun k => negb (str_in k (map fst sample_dict)))
              (map fst sample_overrides).
Proof.
  apply (@extend_dict_keys Z sample_dict sample_overrides).
  simpl. repeat constructor; simpl; intuition discriminate.
Defined.

(** ** to_days_since_epoch *)

Lemma days_before_year_succ (y : Z) :
  days_before_year (y + 1)
  = days_before_year y + 365 + (if is_leap y then 1 else 0).
Proof.
  unfold days_before_year, is_leap. cbn zeta.
  replace (y + 1 - 1) with y by lia.
  destruct (Z.eqb_spec (y mod 4) 0) as [E4 | E4];
    destruct (Z.eqb_spec (y mod 100) 0) as [E100 | E100];
    destruct (Z.eqb_spec (y mod 400) 0) as [E400 | E400];
    cbn [negb andb orb]; Z.div_mod_to_equations; lia.
Qed.

Lemma days_before_year_mono (y y' : Z) :
  y <= y' -> days_before_year y <= days_before_year y'.
Proof.
  intro H. unfold days_before_year. cbn zeta. Z.div_mod_to_equations. lia.
Qed.

Lemma month_cases (m : Z) :
  1 <= m <= 12 ->
  m = 1 \/ m = 2 \/ m = 3 \/ m = 4 \/ m = 5 \/ m = 6 \/ m = 7 \/ m = 8
  \/ m = 9 \/ m = 10 \/ m = 11 \/ m = 12.
Proof. lia. Qed.

Lemma days_before_month_next (y m : Z) :
  1 <= m <= 12 ->
  days_before_month y (m + 1) = days_before_month y m + days_in_month y m.
Proof.
  intro H. apply month_cases in H.
  repeat (destruct H as [-> | H]); try subst m;
    unfold days_before_month, days_in_month; simpl;
    destruct (is_leap y); reflexivity.
Qed.

Lemma days_in_month_bounds (y m : Z) : 28 <= days_in_month y m <= 31.
Proof.
  unfold days_in_month. destruct (m =? 2); [destruct (is_leap y); lia |].
  destruct ((m =? 4) || (m =? 6) || (m =? 9) || (m =? 11)); lia.
Qed.

(** The days before a later month include the whole of an earlier one. *)
Lemma days_before_month_lt (y m m' : Z) :
  1 <= m -> m < m' -> m' <= 13 ->
  days_before_month y m + days_in_month y m <= days_before_month y m'.
Proof.
  intros H1 Hlt H13.
  replace m' with (m + 1 + Z.of_nat (Z.to_nat (m' - m - 1))) in * by lia.
  generalize dependent (Z.to_nat (m' - m - 1)). intro n.
  induction n as [|n IH]; intros Hlt H13.
  - rewrite Z.add_0_r, days_before_month_next by lia. lia.
  - replace (m + 1 + Z.of_nat (S n)) with (m + 1 + Z.of_nat n + 1) by lia.
    rewrite days_before_month_next by lia.
    pose proof (days_in_month_bounds y (m + 1 + Z.of_nat n)).
    assert (days_before_month y m + days_in_month y m
            <= days_before_month y (m + 1 + Z.of_nat n)) by (apply IH; lia).
    lia.
Qed.

Lemma days_before_month_13 (y : Z) :
  days_before_month y 13 = 365 + (if is_leap y then 1 else 0).
Proof.
  unfold days_before_month, days_in_month. simpl.
  destruct (is_leap y); reflexivity.
Qed.

Lemma days_before_month_nonneg (y m : Z) :
  1 <= m <= 12 -> 0 <= days_before_month y m.
Proof.
  intro H. destruct (Z.eq_dec m 1) as [-> | Hne]; [vm_compute; discriminate |].
  pose proof (@days_before_month_lt y 1 m ltac:(lia) ltac:(lia) ltac:(lia)).
  pose proof (days_in_month_bounds y 1).
  assert (days_before_month y 1 = 0) by reflexivity. lia.
Qed.

(** X28. [to_days_since_epoch] keeps the order of dates: of two dates of the
    calendar the later one is more days after 1970-01-01 than the earlier
    one. *)
Theorem to_days_since_epoch_increasing (a b : date) :
  valid_date a -> valid_date b -> date_lt a b ->
  to_days_since_epoch a < to_days_since_epoch b.
Proof.
  intros [Hma Hda] [Hmb Hdb] Hlt.
  unfold to_days_since_epoch, toordinal, to_ordinal.
  destruct a as [ya ma da], b as [yb mb db].
  cbn [date_year date_month date_day] in *.
  unfold date_lt in Hlt. cbn [date_year date_month date_day] in Hlt.
  destruct Hlt as [Hy | [-> [Hm | [-> Hd]]]].
  - pose proof (@days_before_month_lt ya ma 13 ltac:(lia) ltac:(lia)
                  ltac:(lia)) as H1.
    rewrite days_before_month_13 in H1.
    pose proof (days_before_year_succ ya) as H2.
    pose proof (@days_before_year_mono (ya + 1) yb ltac:(lia)) as H3.
    pose proof (days_before_month_nonneg yb Hmb) as H4.
    lia.
  - pose proof (@days_before_month_lt yb ma mb ltac:(lia) Hm ltac:(lia)).
    lia.
  - lia.
Qed.

Lemma to_days_since_epoch_increasing_witness :
  to_days_since_epoch (mkDate 1969 12 31)
  < to_days_since_epoch (mkDate 2020 2 29).
Proof.
  apply (@to_days_since_epoch_increasing (mkDate 1969 12 31)
           (mkDate 2020 2 29)).
  - vm_compute. repeat split; intro H; discriminate H.
  - vm_compute. repeat split; intro H; discriminate H.
  - left. simpl. lia.
Defined.
